(** * Compound curation of vm_NAP: a shallow embedding and its properties

    The development follows the two source files of the repository,
    [prepare_virtual_metabolization.py] and [vm_NAP_processing.py].

    Python values, exceptions, printing and the function attributes used as
    a process-wide accumulator are modelled by a small state-and-error monad;
    the data frames of pandas by a list of column names and a list of rows. *)

From Stdlib Require Import List String Ascii Bool Arith Lia.
From Stdlib Require Import ZArith QArith Permutation Sorted DecimalString.
Import ListNotations.

Open Scope string_scope.
Open Scope list_scope.

(* ================================================================== *)
(** * Python values, exceptions and effects                            *)
(* ================================================================== *)

Module Py.

(** One cell of a table: a missing value, a string or a number. *)
Inductive cell : Type :=
| NaN
| Str (s : string)
| Num (q : Q).

(** A scalar argument of a function: a boolean (also the [False]
    sentinel for "not provided"), a number or a string. *)
Inductive pyval : Type :=
| PyBool (b : bool)
| PyNum (q : Q)
| PyStr (s : string).

Inductive exn : Type :=
| KeyError (key : string)
| AttributeError (attr : string)
| NameError (name : string)
| TypeError
| IndexError
| EmptyDataError
| FileNotFoundError (path : string).

Inductive result (A : Type) : Type :=
| Ok (a : A)
| Raise (e : exn).
Arguments Ok {A} a.
Arguments Raise {A} e.

(** The state a run can observe and change: the attributes stashed on the
    function objects [prepare_for_virtual_metabolization] and
    [load_extra_compounds], the lines printed so far, and the files. *)
Record world : Type := mkWorld {
  list_compound_name : list cell;
  list_smiles : list cell;
  extra_compound_names : list cell;
  extra_compound_smiles : list cell;
  stdout : list string;
  files : string -> option string
}.

Definition M (A : Type) : Type := world -> world * result A.

Definition ret {A} (a : A) : M A := fun w => (w, Ok a).

Definition bind {A B} (m : M A) (k : A -> M B) : M B :=
  fun w => match m w with
           | (w', Ok a) => k a w'
           | (w', Raise e) => (w', Raise e)
           end.

Definition raise {A} (e : exn) : M A := fun w => (w, Raise e).

(** [try: m  except: h]: a bare [except] catches every exception; what
    [m] did to the world before raising stays done. *)
Definition try_except {A} (m : M A) (h : M A) : M A :=
  fun w => match m w with
           | (w', Ok a) => (w', Ok a)
           | (w', Raise _) => h w'
           end.

Definition lift {A} (r : result A) : M A := fun w => (w, r).

Definition print (line : string) : M unit :=
  fun w => (mkWorld (list_compound_name w) (list_smiles w)
                    (extra_compound_names w) (extra_compound_smiles w)
                    (stdout w ++ [line]) (files w), Ok tt).

Definition set_prepare_attributes (names smiles : list cell) : M unit :=
  fun w => (mkWorld names smiles
                    (extra_compound_names w) (extra_compound_smiles w)
                    (stdout w) (files w), Ok tt).

Definition set_extra_compound_names (names : list cell) : M unit :=
  fun w => (mkWorld (list_compound_name w) (list_smiles w)
                    names (extra_compound_smiles w)
                    (stdout w) (files w), Ok tt).

Definition set_extra_compound_smiles (smiles : list cell) : M unit :=
  fun w => (mkWorld (list_compound_name w) (list_smiles w)
                    (extra_compound_names w) smiles
                    (stdout w) (files w), Ok tt).

Definition read_file (path : string) : M string :=
  fun w => match files w path with
           | Some content => (w, Ok content)
           | None => (w, Raise (FileNotFoundError path))
           end.

Fixpoint for_each {A} (f : A -> M unit) (l : list A) : M unit :=
  match l with
  | [] => ret tt
  | a :: l' => bind (f a) (fun _ => for_each f l')
  end.

Declare Scope py_scope.
Delimit Scope py_scope with py.
Notation "x <- m ;; k" := (bind m (fun x => k))
  (at level 61, m at next level, right associativity) : py_scope.
Notation "m ;;; k" := (bind m (fun _ => k))
  (at level 61, right associativity) : py_scope.

(** ** Python comparisons between scalars *)

Definition num_of_bool (b : bool) : Q := if b then 1 else 0.

(** [a == b]: booleans are the integers 0 and 1; a string equals only the
    same string. *)
Definition py_eq (a b : pyval) : bool :=
  match a, b with
  | PyStr s, PyStr t => String.eqb s t
  | PyStr _, _ | _, PyStr _ => false
  | PyBool x, PyBool y => Bool.eqb x y
  | PyBool x, PyNum q => Qeq_bool (num_of_bool x) q
  | PyNum q, PyBool y => Qeq_bool q (num_of_bool y)
  | PyNum p, PyNum q => Qeq_bool p q
  end.

Definition py_ne (a b : pyval) : bool := negb (py_eq a b).

Definition py_False : pyval := PyBool false.

(** ** Strings *)

(** [pat in s] *)
Fixpoint contains (pat s : string) : bool :=
  String.prefix pat s ||
  match s with
  | EmptyString => false
  | String _ s' => contains pat s'
  end.

(** [s.replace(old, new)] for a one-character [old]. *)
Fixpoint replace_char (old : ascii) (new : string) (s : string) : string :=
  match s with
  | EmptyString => EmptyString
  | String a s' =>
      if Ascii.eqb a old then (new ++ replace_char old new s')%string
      else String a (replace_char old new s')
  end.

(** [s.split(sep)] for a one-character separator. *)
Fixpoint split_aux (sep : ascii) (cur : string) (s : string) : list string :=
  match s with
  | EmptyString => [cur]
  | String a s' =>
      if Ascii.eqb a sep then cur :: split_aux sep EmptyString s'
      else split_aux sep (cur ++ String a EmptyString)%string s'
  end.

Definition split (sep : ascii) (s : string) : list string :=
  split_aux sep EmptyString s.

(** [str(n)] for a natural number. *)
Definition str_of_nat (n : nat) : string :=
  NilEmpty.string_of_uint (Nat.to_uint n).

(** ** Stable sorting by insertion, used for [sorted] and for the array
    sort behind [sort_values]. *)

Fixpoint insert_sorted {A} (leb : A -> A -> bool) (x : A) (l : list A) : list A :=
  match l with
  | [] => [x]
  | y :: l' => if leb x y then x :: y :: l' else y :: insert_sorted leb x l'
  end.

Definition stable_sort {A} (leb : A -> A -> bool) (l : list A) : list A :=
  fold_right (insert_sorted leb) [] l.

End Py.

(* ================================================================== *)
(** * The part of pandas the program uses                              *)
(* ================================================================== *)

Module Pandas.
Import Py.

Definition row : Type := list cell.

(** A data frame: its column labels and its rows, each row holding one
    cell per column, in the order of the labels. *)
Record DataFrame : Type := mkDF {
  columns : list string;
  rows : list row
}.

Fixpoint col_index (c : string) (cols : list string) : option nat :=
  match cols with
  | [] => None
  | c' :: cols' =>
      if String.eqb c c' then Some 0%nat
      else option_map S (col_index c cols')
  end.

Definition at_ (i : nat) (r : row) : cell := nth i r NaN.

(** [df[c]] for a column label: the position of the column, or [KeyError]. *)
Definition getitem (df : DataFrame) (c : string) : result nat :=
  match col_index c (columns df) with
  | Some i => Ok i
  | None => Raise (KeyError c)
  end.

(** [df.c]: attribute access to a column. *)
Definition getattr (df : DataFrame) (c : string) : result nat :=
  match col_index c (columns df) with
  | Some i => Ok i
  | None => Raise (AttributeError c)
  end.

Definition series (df : DataFrame) (i : nat) : list cell :=
  map (at_ i) (rows df).

(** [df[mask]] for a boolean mask computed row by row. *)
Definition select (mask : row -> bool) (df : DataFrame) : DataFrame :=
  mkDF (columns df) (filter mask (rows df)).

(** [df.shape[0]] *)
Definition shape0 (df : DataFrame) : nat := List.length (rows df).

(** ** Cells *)

Definition isna (c : cell) : bool :=
  match c with NaN => true | _ => false end.

Definition is_str (c : cell) : bool :=
  match c with Str _ => true | _ => false end.

Definition is_num (c : cell) : bool :=
  match c with Num _ => true | _ => false end.

(** Equality of cells as [drop_duplicates] and [set] see it; missing
    values count as one value. *)
Definition cell_eqb (a b : cell) : bool :=
  match a, b with
  | NaN, NaN => true
  | Str s, Str t => String.eqb s t
  | Num p, Num q => Qeq_bool p q
  | _, _ => false
  end.

(** The three functions below give the value of a method of the accessor
    [.str], cell by cell.  The accessor itself exists on a column that
    holds strings; on a column without any string (all missing, or read as
    numbers) pandas raises [AttributeError] before any cell is looked at.
    That failure is not part of the model: the properties that assert a
    return take a column with at least one string. *)

(** [.str.startswith(pat, na=na)] *)
Definition str_startswith (pat : string) (na : bool) (c : cell) : bool :=
  match c with
  | Str s => String.prefix pat s
  | _ => na
  end.

(** [.str.contains(pat)] for a pattern without metacharacters: a boolean
    on a string, missing ([None]) on anything else. *)
Definition str_contains (pat : string) (c : cell) : option bool :=
  match c with
  | Str s => Some (contains pat s)
  | _ => None
  end.

(** [... == False] on the result of [.str.contains]: a missing value is
    not equal to [False], so the row of a cell that is not a string is
    dropped.  (This is pandas before 3.0; on the string columns of pandas 3
    [.str.contains] gives [False] for a missing cell and the row is kept.
    The properties proved of the strings that are kept hold in both.) *)
Definition eq_False (o : option bool) : bool :=
  match o with
  | Some false => true
  | _ => false
  end.

(** [.str.contains(pat, na=False)] with the regular-expression search
    [re_search] of the interpreter. *)
Definition str_contains_re (re_search : string -> string -> bool)
           (pat : string) (c : cell) : bool :=
  match c with
  | Str s => re_search pat s
  | _ => false
  end.

(** [.isin(values)] for a list of strings. *)
Definition isin (values : list string) (c : cell) : bool :=
  match c with
  | Str s => existsb (String.eqb s) values
  | _ => false
  end.

(** [series >= threshold], cell by cell: false on a missing value,
    [TypeError] on a string. *)
Definition ge_scalar (threshold : Q) (c : cell) : result bool :=
  match c with
  | Num q => Ok (Qle_bool threshold q)
  | NaN => Ok false
  | Str _ => Raise TypeError
  end.

Fixpoint all_ok {A} (l : list (result A)) : result (list A) :=
  match l with
  | [] => Ok []
  | Ok a :: l' =>
      match all_ok l' with
      | Ok r => Ok (a :: r)
      | Raise e => Raise e
      end
  | Raise e :: _ => Raise e
  end.

(** [df[mask]] for a mask given as a list of booleans, one per row. *)
Fixpoint select_by (mask : list bool) (rs : list row) : list row :=
  match mask, rs with
  | b :: mask', r :: rs' =>
      if b then r :: select_by mask' rs' else select_by mask' rs'
  | _, _ => []
  end.

(** ** [set(series)]: the distinct values, each once. *)
Fixpoint distinct_from (seen : list cell) (l : list cell) : list cell :=
  match l with
  | [] => []
  | c :: l' =>
      if existsb (cell_eqb c) seen then distinct_from seen l'
      else c :: distinct_from (c :: seen) l'
  end.

Definition set_of (l : list cell) : list cell := distinct_from [] l.

(** ** [drop_duplicates(subset=c, keep='first')] *)
Fixpoint drop_duplicates_from (i : nat) (seen : list cell) (rs : list row)
  : list row :=
  match rs with
  | [] => []
  | r :: rs' =>
      if existsb (cell_eqb (at_ i r)) seen
      then drop_duplicates_from i seen rs'
      else r :: drop_duplicates_from i (at_ i r :: seen) rs'
  end.

Definition drop_duplicates (df : DataFrame) (subset : string)
  : result DataFrame :=
  match getitem df subset with
  | Ok i => Ok (mkDF (columns df) (drop_duplicates_from i [] (rows df)))
  | Raise e => Raise e
  end.

(** ** [sort_values(by=[c], ascending=False)]

    With one key pandas sorts through [nargsort]: the rows with a missing
    key are set apart; the others are reversed, sorted in ascending order
    of the key, and reversed again; the rows with a missing key come last.
    Keys of two kinds (strings and numbers) cannot be compared:
    [TypeError].

    The array sort is the default of pandas, quicksort, which does not say
    in which order it leaves equal keys.  The model takes one of the
    possible orders, that of the insertion sort; every order the program
    may give is described by [Selection.sort_outcome] below, and what is
    proved of the sorted rows is proved for all of them. *)

Definition cell_leb (a b : cell) : bool :=
  match a, b with
  | Num p, Num q => Qle_bool p q
  | Str s, Str t => String.leb s t
  | _, _ => false
  end.

Definition key_leb (i : nat) (r1 r2 : row) : bool :=
  cell_leb (at_ i r1) (at_ i r2).

Definition comparable (keys : list cell) : bool :=
  negb (existsb is_str keys && existsb is_num keys).

Definition nargsort_desc (i : nat) (rs : list row) : list row :=
  let non_nans := filter (fun r => negb (isna (at_ i r))) rs in
  let nans := filter (fun r => isna (at_ i r)) rs in
  rev (stable_sort (key_leb i) (rev non_nans)) ++ nans.

Definition sort_values_desc (df : DataFrame) (by_ : string)
  : result DataFrame :=
  match getitem df by_ with
  | Raise e => Raise e
  | Ok i =>
      if comparable (series df i)
      then Ok (mkDF (columns df) (nargsort_desc i (rows df)))
      else Raise TypeError
  end.

(** ** [pd.concat([a, b], ignore_index=True)] of two frames with the same
    columns (in the program, two selections of one frame). *)
Definition concat (a b : DataFrame) : DataFrame :=
  mkDF (columns a) (rows a ++ rows b).

(** ** [pd.read_csv(path, sep='\t')]

    The defaults of [read_csv] apply: [header='infer'], so the first line
    of the file gives the column labels and the data start at the second
    line; blank lines are skipped; the default markers of a missing value
    are read as [NaN].  Other cells are kept as strings.

    The model covers the files the documentation of the program asks for:
    lines ended by a line feed, fields separated by a tab, as many fields
    on each line as on the first, no quoting, text in every field
    ([read_csv] reads a column of numerals as numbers, takes a carriage
    return as a line end and rejects a line longer than the first). *)

Definition tab : ascii := ascii_of_nat 9.
Definition newline : ascii := ascii_of_nat 10.

Definition na_values : list string :=
  [ ""; "#N/A"; "#N/A N/A"; "#NA"; "-1.#IND"; "-1.#QNAN"; "-NaN"; "-nan";
    "1.#IND"; "1.#QNAN"; "<NA>"; "N/A"; "NA"; "NULL"; "NaN"; "None";
    "n/a"; "nan"; "null" ].

Definition parse_cell (s : string) : cell :=
  if existsb (String.eqb s) na_values then NaN else Str s.

Definition file_lines (content : string) : list string :=
  filter (fun l => negb (String.eqb l "")) (split newline content).

Definition read_csv_tab (content : string) : result DataFrame :=
  match file_lines content with
  | [] => Raise EmptyDataError
  | header :: data =>
      Ok (mkDF (split tab header)
               (map (fun l => map parse_cell (split tab l)) data))
  end.

(** A line that [read_csv] reads as one field, as [split tab] does: printable
    ASCII characters only (so no tab and no carriage return), no double
    quote, and not spaces only (such a line is skipped as blank). *)
Definition plain_char (a : ascii) : bool :=
  ((32 <=? nat_of_ascii a) && (nat_of_ascii a <? 127)
   && negb (nat_of_ascii a =? 34))%nat.

Fixpoint all_chars (p : ascii -> bool) (s : string) : bool :=
  match s with
  | EmptyString => true
  | String a s' => p a && all_chars p s'
  end.

Definition plain_line (l : string) : bool :=
  all_chars plain_char l
  && negb (all_chars (fun a => Ascii.eqb a (ascii_of_nat 32)) l).

(** A pattern made of letters, digits and '|' only: an alternation of plain
    words, which every regular-expression engine accepts. *)
Definition word_char (a : ascii) : bool :=
  let n := nat_of_ascii a in
  ((48 <=? n) && (n <=? 57) || (65 <=? n) && (n <=? 90)
   || (97 <=? n) && (n <=? 122) || (n =? 124))%nat.

Definition plain_pattern (pattern : string) : bool :=
  all_chars word_char pattern.

(** [df.iloc[:, j].to_list()] *)
Definition iloc_column (df : DataFrame) (j : nat) : result (list cell) :=
  if (j <? List.length (columns df))%nat then Ok (series df j)
  else Raise IndexError.

End Pandas.

(* ================================================================== *)
(** * What the program takes from outside the repository               *)
(* ================================================================== *)

Module Externals.
Import Py Pandas.

Record t : Type := mkExternals {
  (** [remove_salt_from_SMILES] of the package gnps_postprocessing *)
  remove_salt_from_SMILES : string -> string;
  (** the search of a regular expression (pattern, then subject) *)
  re_search : string -> string -> bool;
  (** the text [print] shows for a set *)
  repr_set : list cell -> string;
  (** the names bound by the builtins and by the star imports of modules
      that are not among the source files *)
  imported_names : list string;
  (** [obj['Compound_Name']] for an imported object, by its name *)
  subscript_imported : string -> string -> result (list cell);
  (** [obj(df, compound_name=names)] for an imported object, by its name *)
  call_imported : string -> DataFrame -> list string -> result (option DataFrame)
}.
End Externals.

(* ================================================================== *)
(** * prepare_virtual_metabolization.py                                *)
(* ================================================================== *)

Module Prepare.
Import Py Pandas.
Local Open Scope py_scope.

Fixpoint strings_of (l : list cell) : option (list string) :=
  match l with
  | [] => Some []
  | Str s :: l' => option_map (cons s) (strings_of l')
  | _ :: _ => None
  end.

(** [sorted] compares the items and the loop concatenates each one to a
    string: both need every item to be a string. *)
Definition print_compound_names (list_compounds : list cell) : M unit :=
  match strings_of list_compounds with
  | Some names =>
      for_each (fun item => print (" > '" ++ item ++ "',")%string)
               (stable_sort String.leb names)
  | None => raise TypeError
  end.

Definition get_info_gnps_annotations (df_annotations : DataFrame)
           (inchi_column smiles_column : string)
           (smiles_planar_column : option string) : M DataFrame :=
  i <- lift (getitem df_annotations inchi_column) ;;
  let df_annotations_missing_structure :=
    select (fun r => negb (str_startswith "InChI" false (at_ i r)))
           df_annotations in
  let number_of_annotations := shape0 df_annotations in
  let number_of_annotations_without_structure :=
    shape0 df_annotations_missing_structure in
  print (str_of_nat number_of_annotations ++ " annotations detected")%string ;;;
  s <- lift (getitem df_annotations smiles_column) ;;
  let list_unique_stereostructure := set_of (series df_annotations s) in
  print ("that corresponds to "
         ++ str_of_nat (List.length list_unique_stereostructure)
         ++ " unique stereostructures")%string ;;;
  match smiles_planar_column with
  | Some planar =>
      p <- lift (getitem df_annotations planar) ;;
      let list_unique_planarstructure := set_of (series df_annotations p) in
      print ("that corresponds to "
             ++ str_of_nat (List.length list_unique_planarstructure)
             ++ " unique planar structures")%string
  | None => ret tt
  end ;;;
  print " ==== WARNING =====" ;;;
  print ("######" ++ str_of_nat number_of_annotations_without_structure
         ++ " annotations dont have a structure identifier and will be discarded from downstream processing, unless you do the following:")%string ;;;
  print "Please read the documentation for how to deal with annotations without structure identifiers" ;;;
  print "These are the compounds without structure identifiers:" ;;;
  n <- lift (getitem df_annotations_missing_structure "Compound_Name") ;;
  let list_missing_compounds :=
    set_of (series df_annotations_missing_structure n) in
  print_compound_names list_missing_compounds ;;;
  i' <- lift (getitem df_annotations inchi_column) ;;
  ret (select (fun r => str_startswith "InChI" false (at_ i' r))
              df_annotations).

(** The allow-lists default to [False]; any list, the empty one too,
    differs from [False].  [None] stands for the sentinel. *)
Definition df_annotations_filtering (df_annotations : DataFrame)
           (compound_name tags : option (list string)) : M DataFrame :=
  df_annotations_name <-
    match compound_name with
    | Some names =>
        i <- lift (getattr df_annotations "Compound_Name") ;;
        ret (Some (select (fun r => isin names (at_ i r)) df_annotations))
    | None => ret None
    end ;;
  df_annotations_tags <-
    match tags with
    | Some values =>
        i <- lift (getattr df_annotations "tags") ;;
        ret (Some (select (fun r => isin values (at_ i r)) df_annotations))
    | None => ret None
    end ;;
  match df_annotations_name, df_annotations_tags with
  | Some by_name, Some by_tags => ret (concat by_name by_tags)
  | Some by_name, None => ret by_name
  | None, Some by_tags => ret by_tags
  | None, None =>
      print "No Compound_Name or Tags filter used" ;;;
      ret df_annotations
  end.

(** [df[c]] for a column argument that defaults to [False]. *)
Definition getitem_opt (df : DataFrame) (c : option string) : result nat :=
  match c with
  | Some c => getitem df c
  | None => Raise (KeyError "False")
  end.

Definition drop_duplicates_opt (df : DataFrame) (c : option string)
  : result DataFrame :=
  match c with
  | Some c => drop_duplicates df c
  | None => Raise (KeyError "False")
  end.

(** One branch of [prepare_for_virtual_metabolization]; the two branches
    of the source differ by the structure column only. *)
Definition select_structures (df_annotations : DataFrame)
           (compound_name : string) (structure_column : option string)
           (drop_duplicated_structure : bool)
  : M (DataFrame * list cell * list cell) :=
  i <- lift (getitem_opt df_annotations structure_column) ;;
  let df_annotations :=
    select (fun r => eq_False (str_contains "nan" (at_ i r)))
           df_annotations in
  df_annotations <-
    (if drop_duplicated_structure then
       df_annotations <-
         try_except (lift (sort_values_desc df_annotations "MQScore"))
                    (ret df_annotations) ;;
       lift (drop_duplicates_opt df_annotations structure_column)
     else ret df_annotations) ;;
  n <- lift (getitem df_annotations compound_name) ;;
  let list_compound_name := series df_annotations n in
  j <- lift (getitem_opt df_annotations structure_column) ;;
  let list_smiles := series df_annotations j in
  ret (df_annotations, list_compound_name, list_smiles).

Definition prepare_for_virtual_metabolization (df_annotations : DataFrame)
           (compound_name smiles_planar_column : string)
           (smiles_column : option string)
           (drop_duplicated_structure use_planar_structure : bool)
  : M DataFrame :=
  out <-
    (if use_planar_structure then
       select_structures df_annotations compound_name
                         (Some smiles_planar_column)
                         drop_duplicated_structure
     else
       select_structures df_annotations compound_name
                         smiles_column drop_duplicated_structure) ;;
  let '(df_annotations, list_compound_name, list_smiles) := out in
  set_prepare_attributes list_compound_name list_smiles ;;;
  ret df_annotations.

Definition load_extra_compounds (path : string) : M unit :=
  content <- read_file path ;;
  extra_compounds_table <- lift (read_csv_tab content) ;;
  names <- lift (iloc_column extra_compounds_table 0) ;;
  set_extra_compound_names names ;;;
  smiles <- lift (iloc_column extra_compounds_table 1) ;;
  set_extra_compound_smiles smiles ;;;
  if negb (List.length names =? List.length smiles)%nat then
    print "!!!!!! VERIFY THE INTEGRITY OF THE FILE FOR EXTRA COMPOUNDS !!!!!!!!! -> DIFFERENT NUMBER OF COMPOUNDS NAME AND SMILES"
  else ret tt.

Section WithExternals.
Variable ext : Externals.t.

(** The cleaning of one structure in [append_to_list_if_not_present]. *)
Definition clean_smiles (s : string) : string :=
  let cleaned_smiles :=
    if contains "." s then Externals.remove_salt_from_SMILES ext s else s in
  replace_char "@" "" cleaned_smiles.

(** The loop of [append_to_list_if_not_present] over the zipped extra
    lists.  The two base lists are changed in place: the result gives
    their content when the loop ends, normally or by an exception
    (['.' in s] on a cell that is not a string). *)
Fixpoint append_loop (base_list_names base_list_smiles : list cell)
         (extras : list (cell * cell))
  : (list cell * list cell) * result unit :=
  match extras with
  | [] => ((base_list_names, base_list_smiles), Ok tt)
  | (n, Str s) :: rest =>
      let cleaned_smiles := clean_smiles s in
      if negb (existsb (cell_eqb (Str cleaned_smiles)) base_list_smiles)
      then append_loop (base_list_names ++ [n])
                       (base_list_smiles ++ [Str cleaned_smiles]) rest
      else append_loop base_list_names base_list_smiles rest
  | (_, _) :: _ => ((base_list_names, base_list_smiles), Raise TypeError)
  end.

(** The content of the two base lists after the call, and the effect of
    the call on the world. *)
Definition append_to_list_if_not_present
           (base_list_names base_list_smiles : list cell)
           (extra_list_names extra_list_smiles : list cell)
  : (list cell * list cell) * M unit :=
  let '(lists, outcome) :=
    append_loop base_list_names base_list_smiles
                (combine extra_list_names extra_list_smiles) in
  (lists,
   lift outcome ;;;
   print ("Final number of compound names in the list = "
          ++ str_of_nat (List.length (fst lists)))%string ;;;
   print ("Final number of SMILES in the list = "
          ++ str_of_nat (List.length (snd lists)))%string).

(** A score threshold: a number, or a boolean read as 0 or 1. *)
Definition threshold_of (v : pyval) : result Q :=
  match v with
  | PyBool b => Ok (num_of_bool b)
  | PyNum q => Ok q
  | PyStr _ => Raise TypeError
  end.

(** [table[table[column] >= score]] *)
Definition filter_min_score (table : DataFrame) (column : string)
           (score : pyval) : M DataFrame :=
  i <- lift (getitem table column) ;;
  threshold <- lift (threshold_of score) ;;
  mask <- lift (all_ok (map (fun r => ge_scalar threshold (at_ i r))
                            (rows table))) ;;
  ret (mkDF (columns table) (select_by mask (rows table))).

(** [table[table['links'].str.contains(links, na=False)]] *)
Definition filter_links (table : DataFrame) (links : pyval) : M DataFrame :=
  i <- lift (getitem table "links") ;;
  match links with
  | PyStr pattern =>
      ret (select (fun r => str_contains_re (Externals.re_search ext)
                                            pattern (at_ i r)) table)
  | _ => raise TypeError
  end.

Definition df_csifingerid_cosmic_annotations_filtering
           (compound_identification_table : DataFrame)
           (zodiac_score confidence_score links : pyval) : M DataFrame :=
  compound_identification_table <-
    (if py_ne zodiac_score py_False then
       t <- filter_min_score compound_identification_table
                             "ZodiacScore" zodiac_score ;;
       print " > Filtered with ZodiacScore" ;;;
       ret t
     else ret compound_identification_table) ;;
  compound_identification_table <-
    (if py_ne confidence_score (PyNum 0) then
       t <- filter_min_score compound_identification_table
                             "ConfidenceScore" confidence_score ;;
       print " > Filtered with Confidence Score" ;;;
       ret t
     else ret compound_identification_table) ;;
  compound_identification_table <-
    (if py_ne links py_False then
       t <- filter_links compound_identification_table links ;;
       print " > Filtered with Database Links" ;;;
       ret t
     else ret compound_identification_table) ;;
  (if py_eq zodiac_score py_False && py_eq confidence_score py_False
      && py_eq links py_False
   then print " > No filter was applied !"
   else ret tt) ;;;
  ret compound_identification_table.

End WithExternals.
End Prepare.

(* ================================================================== *)
(** * vm_NAP_processing.py                                             *)
(* ================================================================== *)

Module Processing.
Import Py Pandas.
Local Open Scope py_scope.

(** The names bound at the top level of [prepare_virtual_metabolization.py];
    [from prepare_virtual_metabolization import *] brings them in. *)
Definition prepare_module_names : list string :=
  [ "pd"; "np"; "math"; "os"; "sys"; "pkg_resources"; "subprocess";
    "install_package"; "gnps_postprocessing";
    "print_compound_names"; "get_info_gnps_annotations";
    "print_compound_name_for_tags"; "df_annotations_filtering";
    "prepare_for_virtual_metabolization"; "load_extra_compounds";
    "append_to_list_if_not_present"; "load_csifingerid_cosmic_annotations";
    "df_csifingerid_cosmic_annotations_filtering" ].

(** The names bound at the top level of [vm_NAP_processing.py] itself. *)
Definition module_names : list string :=
  [ "argparse"; "io"; "logging"; "os"; "sys"; "datetime"; "pd";
    "display"; "Markdown"; "re"; "subprocess"; "root_dir";
    "StreamToLogger"; "SuppressOutput"; "CaptureOutput"; "console";
    "package_version"; "main"; "apply_filtering"; "validate_mode_arg";
    "positive_int_limited"; "run_main"; "display_help" ].

(** The local names of [apply_filtering]. *)
Definition apply_filtering_locals : list string :=
  [ "df_annotations"; "compound_name_to_keep"; "list_compounds" ].

Section WithExternals.
Variable ext : Externals.t.

Definition bound_in_apply_filtering (name : string) : bool :=
  existsb (String.eqb name)
          (apply_filtering_locals ++ module_names ++ prepare_module_names
           ++ Externals.imported_names ext).

(** Reading a name inside [apply_filtering]. *)
Definition lookup (name : string) : M unit :=
  if bound_in_apply_filtering name then ret tt
  else raise (NameError name).

(** The value returned is a data frame or [None] (Python's [None],
    also what a function returns when it falls off its end). *)
Definition apply_filtering (df_annotations : DataFrame)
           (compound_name_to_keep : option (list string))
  : M (option DataFrame) :=
  i <- lift (getitem df_annotations "Compound_Name") ;;
  let list_compounds := set_of (series df_annotations i) in
  print (Externals.repr_set ext list_compounds) ;;;
  match compound_name_to_keep with
  | None => ret (Some df_annotations)
  | Some (_ :: _ as names) =>
      print "After filtering" ;;;
      lookup "f_annotations_filtered" ;;;
      list_compounds <-
        lift (Externals.subscript_imported ext "f_annotations_filtered"
                                           "Compound_Name") ;;
      print (Externals.repr_set ext (set_of list_compounds)) ;;;
      lookup "df_annotations_filtered" ;;;
      lift (Externals.call_imported ext "df_annotations_filtered"
                                    df_annotations names)
  | Some [] => ret None
  end.

End WithExternals.
End Processing.

(* ================================================================== *)
(** * The rows DeduplicatingSelector keeps, read off its code           *)
(* ================================================================== *)

Module Selection.
Import Py Pandas.

(** The rows left by the filter on the structure column. *)
Definition without_nan (i : nat) (rs : list row) : list row :=
  filter (fun r => eq_False (str_contains "nan" (at_ i r))) rs.

(** The rows after [try: sort_values ... except: pass]. *)
Definition sorted_or_same (cols : list string) (rs : list row) : list row :=
  match sort_values_desc (mkDF cols rs) "MQScore" with
  | Ok sorted => rows sorted
  | Raise _ => rs
  end.

(** The rows of the frame [prepare_for_virtual_metabolization] returns,
    for the structure column at position [i]. *)
Definition selected_rows (cols : list string) (i : nat)
           (drop_duplicated_structure : bool) (rs : list row) : list row :=
  if drop_duplicated_structure
  then drop_duplicates_from i [] (sorted_or_same cols (without_nan i rs))
  else without_nan i rs.

(** The structure column a call uses. *)
Definition structure_column (smiles_planar_column : string)
           (smiles_column : option string) (use_planar_structure : bool)
  : option string :=
  if use_planar_structure then Some smiles_planar_column else smiles_column.

(** [r1] may stand before [r2] when the rows are in descending order of
    the score at position [k], the rows without score last. *)
Definition score_desc (k : nat) (r1 r2 : row) : Prop :=
  match at_ k r1, at_ k r2 with
  | Num p, Num q => (q <= p)%Q
  | _, NaN => True
  | _, _ => False
  end.

(** The rows without score. *)
Definition no_score (k : nat) (r : row) : bool := isna (at_ k r).

(** Every score is a number or is missing. *)
Definition numeric_scores (k : nat) (rs : list row) : Prop :=
  Forall (fun r => is_str (at_ k r) = false) rs.

Definition same_structure (i : nat) (r1 r2 : row) : bool :=
  cell_eqb (at_ i r1) (at_ i r2).

(** What [sort_values(by=['MQScore'], ascending=False)] may return for the
    rows [rs]: the same rows, in descending order of the score, the rows
    without score last and in the order they had.  The order of the rows
    that have the same score is left open: it is the business of the array
    sort, and the default of pandas, quicksort, is not stable. *)
Definition sort_outcome (k : nat) (rs sorted : list row) : Prop :=
  Permutation sorted rs
  /\ StronglySorted (score_desc k) sorted
  /\ filter (no_score k) sorted = filter (no_score k) rs.

(** The scores of the rows that have one, each in lowest terms. *)
Definition score_keys (k : nat) (rs : list row) : list Q :=
  flat_map (fun r => match at_ k r with
                     | Num q => [ Qred q ]
                     | _ => []
                     end) rs.

End Selection.

(* ================================================================== *)
(** * Rows that pass a score threshold or a link pattern               *)
(* ================================================================== *)

Module Scores.
Import Py Pandas.

(** The cell is a number at least as large as the threshold. *)
Definition meets (threshold : Q) (c : cell) : bool :=
  match c with
  | Num q => Qle_bool threshold q
  | _ => false
  end.

(** No cell of the column at position [i] is a string. *)
Definition numeric_column (i : nat) (rs : list row) : Prop :=
  Forall (fun r => is_str (at_ i r) = false) rs.

End Scores.

(* ================================================================== *)
(** * vm_NAP_processing.py: the curation phase of [main]               *)
(* ================================================================== *)

Module Main.
Import Py Pandas.
Local Open Scope py_scope.

(** The command-line arguments the curation phase reads. *)
Record Args : Type := mkArgs {
  job_id : string;
  ionisation_mode : string;
  max_ppm_error : Z;
  min_cosine : Q;
  shared_peaks : Z;
  max_spec_charge : Z;
  compound_name_to_keep : option (list string);
  use_planar_structure_boolean : bool;
  sirius_input_file : option string;
  zodiac_score : Q;
  confidence_score : Q;
  db_links : string;
  extra_compounds_table_file : option string;
  debug : bool;
  max_compounds_debug : Z
}.

(** What the curation phase takes from libraries: the download, filtering
    and consolidation of the annotations of a job (package
    gnps_postprocessing; what it prints, and the frame it gives or the
    exception it raises), and [pd.read_csv] with a list of columns to use
    (the content of the file, then the columns). *)
Record Library : Type := mkLibrary {
  gnps_annotations_consolidated : Args -> list string * result DataFrame;
  read_csv_usecols : string -> list string -> result DataFrame
}.

Definition get_world : M world := fun w => (w, Ok w).

(** [s.lower()] on the letters A to Z. *)
Definition lower_char (a : ascii) : ascii :=
  let n := nat_of_ascii a in
  if ((65 <=? n) && (n <=? 90))%nat then ascii_of_nat (n + 32) else a.

Fixpoint lower (s : string) : string :=
  match s with
  | EmptyString => EmptyString
  | String a s' => String (lower_char a) (lower s')
  end.

(** The truth value of an argument that is [None] or a string. *)
Definition truthy (o : option string) : bool :=
  match o with
  | Some s => negb (String.eqb s "")
  | None => false
  end.

Definition path_of (o : option string) : string :=
  match o with
  | Some s => s
  | None => ""
  end.

(** [os.path.exists(path)] *)
Definition path_exists (path : string) : M bool :=
  fun w => (w, Ok (match files w path with Some _ => true | None => false end)).

(** [str(n)] for an integer. *)
Definition str_of_Z (n : Z) : string :=
  NilEmpty.string_of_int (Z.to_int n).

(** [l[:n]] for an integer [n]: the first [n] elements, or all but the last
    [-n] when [n] is negative. *)
Definition slice_to {A} (n : Z) (l : list A) : list A :=
  if (0 <=? n)%Z then firstn (Z.to_nat n) l
  else firstn (List.length l - Z.to_nat (- n)) l.

(** [series.replace(np.nan, value)] on the column at position [i]. *)
Fixpoint replace_nan_at (i : nat) (value : cell) (r : row) : row :=
  match i, r with
  | _, [] => []
  | O, c :: r' => (if isna c then value else c) :: r'
  | S i', c :: r' => c :: replace_nan_at i' value r'
  end.

(** [load_csifingerid_cosmic_annotations] of
    prepare_virtual_metabolization.py *)
Definition load_csifingerid_cosmic_annotations (lib : Library)
           (path_compound_identifications : string) : M DataFrame :=
  content <- read_file path_compound_identifications ;;
  df <- lift (read_csv_usecols lib content
                [ "id"; "ConfidenceScore"; "ZodiacScore"; "name"; "links";
                  "smiles" ]) ;;
  i <- lift (getitem df "name") ;;
  ret (mkDF (columns df) (map (replace_nan_at i (Str "no_name")) (rows df))).

Section WithExternals.
Variable ext : Externals.t.
Variable lib : Library.

(** The molecular-networking block of [main] (lines 135 to 167). *)
Definition molecular_networking (args : Args) : M unit :=
  if negb (String.eqb (lower (job_id args)) "false") then
    for_each print (fst (gnps_annotations_consolidated lib args)) ;;;
    df_annotations_consolidated <-
      lift (snd (gnps_annotations_consolidated lib args)) ;;
    print "" ;;;
    df_annotations <-
      Prepare.get_info_gnps_annotations
        df_annotations_consolidated "Consol_InChI" "Consol_SMILES"
        (Some "Consol_SMILES_iso") ;;
    df_annotations_filtered <-
      Processing.apply_filtering ext df_annotations
                                 (compound_name_to_keep args) ;;
    print "" ;;;
    match df_annotations_filtered with
    | Some df =>
        Prepare.prepare_for_virtual_metabolization
          df "Compound_Name" "Consol_SMILES_iso" (Some "Consol_SMILES")
          true (use_planar_structure_boolean args) ;;;
        ret tt
    | None => raise TypeError
    end ;;;
    print ""
  else
    print "Skipping GNPS download and processing as job_id is set to 'False'.".

(** The SIRIUS block of [main] (lines 169 to 192). *)
Definition sirius (args : Args) : M unit :=
  if truthy (sirius_input_file args) then
    found <- path_exists (path_of (sirius_input_file args)) ;;
    if negb found then
      print ("File not found: " ++ path_of (sirius_input_file args))%string
    else
      print "Loading SIRIUS input data..." ;;;
      df_sirius <-
        load_csifingerid_cosmic_annotations
          lib (path_of (sirius_input_file args)) ;;
      df_score_filtered <-
        Prepare.df_csifingerid_cosmic_annotations_filtering
          ext df_sirius (PyNum (zodiac_score args))
          (PyNum (confidence_score args)) (PyBool false) ;;
      df_db_links_filtered <-
        Prepare.df_csifingerid_cosmic_annotations_filtering
          ext df_sirius (PyBool false) (PyBool false)
          (PyStr (db_links args)) ;;
      let df_score_filtered := concat df_score_filtered df_db_links_filtered in
      Prepare.prepare_for_virtual_metabolization
        df_score_filtered "name" "smiles" None true true ;;;
      print "SIRIUS input data processed."
  else
    print "No SIRIUS input given".

(** The user-list block of [main] (lines 194 to 204).  The two lists of the
    accumulator are the lists that [append_to_list_if_not_present] changes
    in place. *)
Definition user_compound_list (args : Args) : M unit :=
  if truthy (extra_compounds_table_file args) then
    print "" ;;;
    Prepare.load_extra_compounds (path_of (extra_compounds_table_file args)) ;;;
    w <- get_world ;;
    let call :=
      Prepare.append_to_list_if_not_present
        ext (list_compound_name w) (list_smiles w)
        (extra_compound_names w) (extra_compound_smiles w) in
    set_prepare_attributes (fst (fst call)) (snd (fst call)) ;;;
    snd call
  else
    print "No user provided compound list were given".

(** The debug block of [main] (lines 206 to 209). *)
Definition debug_truncation (args : Args) : M unit :=
  if debug args then
    print ("####Running in debug mode. Limiting to "
           ++ str_of_Z (max_compounds_debug args) ++ " compounds. #####")%string ;;;
    w <- get_world ;;
    set_prepare_attributes
      (slice_to (max_compounds_debug args) (list_compound_name w))
      (slice_to (max_compounds_debug args) (list_smiles w))
  else ret tt.

(** [main] from the reset of the accumulator (line 130) to the debug
    truncation (line 209): everything that decides the two lists handed to
    the metabolism predictions. *)
Definition main_curation (args : Args) : M unit :=
  set_prepare_attributes [] [] ;;;
  print "###MOLECULAR NETWORKING " ;;;
  molecular_networking args ;;;
  print "###SIRIUS (OPTIONAL)" ;;;
  sirius args ;;;
  print "###USER-PROVDED COMPOUND LIST (Optional)" ;;;
  user_compound_list args ;;;
  debug_truncation args.

End WithExternals.
End Main.

(* ================================================================== *)
(** * Computations that only print                                     *)
(* ================================================================== *)

Module Frame.
Import Py.

(** The two worlds differ at most by what has been printed. *)
Definition same_state (w w' : world) : Prop :=
  list_compound_name w' = list_compound_name w
  /\ list_smiles w' = list_smiles w
  /\ extra_compound_names w' = extra_compound_names w
  /\ extra_compound_smiles w' = extra_compound_smiles w
  /\ files w' = files w.

Definition only_prints {A} (m : M A) : Prop :=
  forall w, same_state w (fst (m w)).


(** What the predictions rely on: the two lists pair one name with one
    structure and no structure comes twice. *)
Definition curated (w : world) : Prop :=
  NoDup (list_smiles w)
  /\ List.length (list_compound_name w) = List.length (list_smiles w).

End Frame.

(* ================================================================== *)
(** * The normalization of a structure, in the words of the
      specification                                                    *)
(* ================================================================== *)

Module Normalization.
Import Py.

(** "Salt fragments stripped when a '.' separator is present", by the
    salt stripper [remove_salt]. *)
Definition salt_stripped (remove_salt : string -> string) (s : string)
  : string :=
  if contains "." s then remove_salt s else s.

(** "Then '@' stereo markers removed". *)
Definition stereo_stripped (s : string) : string := replace_char "@" "" s.

Definition normalized (remove_salt : string -> string) (s : string)
  : string :=
  stereo_stripped (salt_stripped remove_salt s).

End Normalization.

(* ================================================================== *)
(** * Example data                                                     *)
(* ================================================================== *)

Module Examples.
Import Py Pandas.

Definition empty_world : world :=
  mkWorld [] [] [] [] [] (fun _ => None).

(** Stand-ins for what comes from outside the repository. *)
Definition externals : Externals.t :=
  Externals.mkExternals
    (fun s => s) (fun _ _ => false) (fun _ => "{...}")
    [ "print"; "set"; "len"; "str"; "zip"; "sorted"; "list";
      "gnps_download_results"; "gnps_filter_annotations";
      "consolidate_and_convert_structures"; "remove_salt_from_SMILES";
      "run_sygma_batch"; "prepare_for_bio3"; "run_biotransformer3" ]
    (fun _ _ => Raise TypeError) (fun _ _ _ => Raise TypeError).

(** A salt stripper for the examples: the longest of the fragments that
    the '.' separate, the first one among the longest. *)
Definition longest_fragment (s : string) : string :=
  fold_left (fun best fragment =>
               if (String.length best <? String.length fragment)%nat
               then fragment else best)
            (split "." s) "".

(** The search of a pattern that is an alternation of plain words. *)
Definition search_alternation (pattern subject : string) : bool :=
  existsb (fun word => contains word subject) (split "|" pattern).

(** The same stand-ins with a salt stripper and a pattern search that do
    something. *)
Definition externals_chem : Externals.t :=
  Externals.mkExternals
    longest_fragment search_alternation (fun _ => "{...}")
    (Externals.imported_names externals)
    (fun _ _ => Raise TypeError) (fun _ _ _ => Raise TypeError).

(** Three annotations tagged t1, t2, t3. *)
Definition tagged : DataFrame :=
  mkDF [ "Compound_Name"; "tags" ]
       [ [ Str "A"; Str "t1" ]; [ Str "B"; Str "t2" ]; [ Str "C"; Str "t3" ] ].

(** A file of extra compounds as the documentation asks for it: two
    columns separated by a tab, no header line.  Two compounds. *)
Definition extra_compounds_file : string :=
  ("x" ++ String tab "CCO" ++ String newline
       ("y" ++ String tab "CCN" ++ String newline ""))%string.

Definition world_with_file : world :=
  mkWorld [] [] [] [] []
          (fun path => if String.eqb path "extra_compounds.tsv"
                       then Some extra_compounds_file else None).

(** A file with names only, one per line, read after an earlier file has
    given one name and one structure. *)
Definition world_with_names_only : world :=
  mkWorld [] [] [ Str "a" ] [ Str "CCO" ] []
          (fun path => if String.eqb path "names_only.tsv"
                       then Some ("x" ++ String newline
                                      ("y" ++ String newline ""))%string
                       else None).

(** Annotations of a molecular network: two spectra of caffeine, one of
    nicotine, one without usable structure. *)
Definition gnps : DataFrame :=
  mkDF [ "Compound_Name"; "Consol_InChI"; "Consol_SMILES";
         "Consol_SMILES_iso"; "MQScore" ]
       [ [ Str "caffeine (low)"; Str "InChI=1S/C8H10N4O2";
           Str "CN1C=NC2=C1C(=O)N(C)C(=O)N2C";
           Str "CN1C=NC2=C1C(=O)N(C)C(=O)N2C"; Num (7 # 10) ];
         [ Str "caffeine (high)"; Str "InChI=1S/C8H10N4O2";
           Str "CN1C=NC2=C1C(=O)N(C)C(=O)N2C";
           Str "CN1C=NC2=C1C(=O)N(C)C(=O)N2C"; Num (9 # 10) ];
         [ Str "nicotine"; Str "InChI=1S/C10H14N2";
           Str "CN1CCC[C@H]1C1=CN=CC=C1"; Str "CN1CCCC1C1=CN=CC=C1";
           Num (8 # 10) ];
         [ Str "unknown"; NaN; Str "nan"; Str "nan"; Num (95 # 100) ] ].

(** Compound identifications: no MQScore column. *)
Definition sirius : DataFrame :=
  mkDF [ "id"; "ConfidenceScore"; "ZodiacScore"; "name"; "links"; "smiles" ]
       [ [ Str "f1"; Num (8 # 10); Num (9 # 10); Str "paracetamol";
           Str "KEGG:(C06804)"; Str "CC(=O)NC1=CC=C(O)C=C1" ];
         [ Str "f2"; Num (2 # 10); Num (9 # 10); Str "no_name";
           NaN; Str "CCO" ] ].

(** The rows of the score tie-break: scores 0.5, 0.9, 0.2 and structures
    A, A, B. *)
Definition scored : DataFrame :=
  mkDF [ "Compound_Name"; "smiles"; "MQScore" ]
       [ [ Str "first"; Str "A"; Num (5 # 10) ];
         [ Str "second"; Str "A"; Num (9 # 10) ];
         [ Str "third"; Str "B"; Num (2 # 10) ] ].

(** The two enantiomers of alanine: one planar structure, two stereo
    structures that differ by their stereo markers only. *)
Definition alanines : DataFrame :=
  mkDF [ "Compound_Name"; "Consol_SMILES"; "Consol_SMILES_iso"; "MQScore" ]
       [ [ Str "L-alanine"; Str "C[C@H](N)C(=O)O"; Str "CC(N)C(=O)O";
           Num (9 # 10) ];
         [ Str "D-alanine"; Str "C[C@@H](N)C(=O)O"; Str "CC(N)C(=O)O";
           Num (8 # 10) ] ].

(** An annotation without structure identifier and without name. *)
Definition unnamed_discard : DataFrame :=
  mkDF [ "Compound_Name"; "Consol_InChI"; "Consol_SMILES" ]
       [ [ NaN; NaN; Str "CCO" ];
         [ Str "ethanol"; Str "InChI=1S/C2H6O"; Str "CCO" ] ].

(** Scores of two kinds: numbers and a string. *)
Definition mixed_scores : DataFrame :=
  mkDF [ "Compound_Name"; "smiles"; "MQScore" ]
       [ [ Str "first"; Str "A"; Num (1 # 10) ];
         [ Str "second"; Str "B"; Num (9 # 10) ];
         [ Str "third"; Str "A"; Str "x" ] ].

(** A library whose job gives the annotations [gnps] and whose reading of a
    compound-identification file gives [sirius]. *)
Definition library : Main.Library :=
  Main.mkLibrary (fun _ => ([ "download finished" ], Ok gnps))
                 (fun _ _ => Ok sirius).

(** Arguments: a job, the default thresholds, nothing else. *)
Definition args_job : Main.Args :=
  Main.mkArgs "bbee697a63b1400ea585410fafc95723" "pos" 10 (6 # 10) 3 2
              None true None (7 # 10) (1 # 10) "KEGG|HMDB" None false 3.


(** No job, a compound-identification file. *)
Definition args_sirius : Main.Args :=
  Main.mkArgs "False" "pos" 10 (6 # 10) 3 2
              None true (Some "compound_identifications.tsv")
              (7 # 10) (1 # 10) "KEGG|HMDB" None false 3.

(** No source at all, debug mode. *)
Definition args_nothing : Main.Args :=
  Main.mkArgs "false" "pos" 10 (6 # 10) 3 2
              None true None (7 # 10) (1 # 10) "KEGG|HMDB" None true 3.

Definition world_with_identifications : world :=
  mkWorld [] [] [] [] []
          (fun path => if String.eqb path "compound_identifications.tsv"
                       then Some "read by the library" else None).

(** Compound identifications: the first passes the thresholds 0.7 and 0.1
    and has a link to KEGG, the second fails on its confidence and has a
    link to HMDB, the third fails on both scores and has neither link, the
    fourth passes the thresholds and has no link at all. *)
Definition sirius_links : DataFrame :=
  mkDF [ "id"; "ConfidenceScore"; "ZodiacScore"; "name"; "links"; "smiles" ]
       [ [ Str "f1"; Num (8 # 10); Num (9 # 10); Str "paracetamol";
           Str "KEGG:(C06804)"; Str "CC(=O)NC1=CC=C(O)C=C1" ];
         [ Str "f2"; Num (5 # 100); Num (9 # 10); Str "ethanol";
           Str "HMDB:(HMDB0000108)"; Str "CCO" ];
         [ Str "f3"; Num (5 # 100); Num (3 # 10); Str "ethylamine";
           Str "PubChem:(6341)"; Str "CCN" ];
         [ Str "f4"; Num (5 # 10); Num (8 # 10); NaN; NaN; Str "CCC" ] ].

Definition library_links : Main.Library :=
  Main.mkLibrary (fun _ => ([ "download finished" ], Ok gnps))
                 (fun _ _ => Ok sirius_links).

(** A job and a compound-identification file. *)
Definition args_job_sirius : Main.Args :=
  Main.mkArgs "bbee697a63b1400ea585410fafc95723" "pos" 10 (6 # 10) 3 2
              None true (Some "compound_identifications.tsv")
              (7 # 10) (1 # 10) "KEGG|HMDB" None false 3.

End Examples.

(* ================================================================== *)
(** * Properties                                                       *)
(* ================================================================== *)

Import Py Pandas.

Ltac run_monad :=
  unfold bind, lift, ret, raise, try_except in *; simpl in *.

(** ** ScoreFilter without predicate *)

(** C8: with the three predicates left at the [False] sentinel, ScoreFilter
    returns the row set it was given and prints, as its only effect, the
    notice that no filter was applied. *)
Theorem score_filter_no_predicate :
  forall (ext : Externals.t) (table : DataFrame) (w : world),
    Prepare.df_csifingerid_cosmic_annotations_filtering
      ext table (PyBool false) (PyBool false) (PyBool false) w
    = (fst (print " > No filter was applied !" w), Ok table)
    /\ stdout (fst (print " > No filter was applied !" w))
       = stdout w ++ [ " > No filter was applied !" ].
Proof.
  intros ext table w. split; reflexivity.
Qed.

(** ** NameFilter *)

Lemma col_index_getattr df c i :
  col_index c (columns df) = Some i -> getattr df c = Ok i.
Proof. unfold getattr. now intros ->. Qed.

Lemma col_index_getitem df c i :
  col_index c (columns df) = Some i -> getitem df c = Ok i.
Proof. unfold getitem. now intros ->. Qed.

(** C3: with both allow-lists NameFilter returns the rows selected by name
    followed by the rows selected by tag (a row selected by both comes
    twice), which is not their intersection; with neither it returns the
    row set unchanged and prints a notice. *)
Theorem name_filter_union :
  (forall df names tags i j w,
      col_index "Compound_Name" (columns df) = Some i ->
      col_index "tags" (columns df) = Some j ->
      Prepare.df_annotations_filtering df (Some names) (Some tags) w
      = (w, Ok (mkDF (columns df)
                     (filter (fun r => isin names (at_ i r)) (rows df)
                      ++ filter (fun r => isin tags (at_ j r)) (rows df)))))
  /\ (forall df w,
         Prepare.df_annotations_filtering df None None w
         = (fst (print "No Compound_Name or Tags filter used" w), Ok df))
  /\ (forall w,
         Prepare.df_annotations_filtering
           Examples.tagged (Some [ "A" ]) (Some [ "t2" ]) w
         = (w, Ok (mkDF [ "Compound_Name"; "tags" ]
                        [ [ Str "A"; Str "t1" ]; [ Str "B"; Str "t2" ] ])))
  /\ filter (fun r => isin [ "A" ] (at_ 0 r) && isin [ "t2" ] (at_ 1 r))
            (rows Examples.tagged) = []
  /\ (forall w,
         Prepare.df_annotations_filtering
           Examples.tagged (Some [ "A" ]) (Some [ "t1" ]) w
         = (w, Ok (mkDF [ "Compound_Name"; "tags" ]
                        [ [ Str "A"; Str "t1" ]; [ Str "A"; Str "t1" ] ]))).
Proof.
  repeat split; try reflexivity.
  intros df names tags i j w Hi Hj.
  unfold Prepare.df_annotations_filtering. run_monad.
  rewrite (col_index_getattr _ _ _ Hi), (col_index_getattr _ _ _ Hj).
  reflexivity.
Qed.

Lemma name_filter_union_witness :
  Prepare.df_annotations_filtering
    Examples.tagged (Some [ "A"; "C" ]) (Some [ "t2" ]) Examples.empty_world
  = (Examples.empty_world,
     Ok (mkDF [ "Compound_Name"; "tags" ]
              [ [ Str "A"; Str "t1" ]; [ Str "C"; Str "t3" ];
                [ Str "B"; Str "t2" ] ])).
Proof.
  exact (proj1 name_filter_union Examples.tagged [ "A"; "C" ] [ "t2" ]
               0%nat 1%nat Examples.empty_world eq_refl eq_refl).
Defined.

(** ** The name-filtering wrapper of the pipeline *)

Lemma existsb_eqb_In (name : string) (l : list string) :
  existsb (String.eqb name) l = true <-> In name l.
Proof.
  rewrite existsb_exists. split.
  - intros [x [Hx He]]. apply String.eqb_eq in He. now subst.
  - intros H. exists name. split; [ assumption | apply String.eqb_refl ].
Qed.

Lemma f_annotations_filtered_unbound (ext : Externals.t) :
  ~ In "f_annotations_filtered" (Externals.imported_names ext) ->
  Processing.bound_in_apply_filtering ext "f_annotations_filtered" = false.
Proof.
  intros Hn. unfold Processing.bound_in_apply_filtering.
  apply not_true_is_false. rewrite existsb_eqb_In.
  rewrite !in_app_iff. intros [H | [H | [H | H]]].
  - simpl in H. repeat (destruct H as [H | H]; [ discriminate H | ]). exact H.
  - simpl in H. repeat (destruct H as [H | H]; [ discriminate H | ]). exact H.
  - simpl in H. repeat (destruct H as [H | H]; [ discriminate H | ]). exact H.
  - exact (Hn H).
Qed.

(** C6: on a row set with a Compound_Name column, when no module outside
    the sources binds the name [f_annotations_filtered], [apply_filtering]
    raises [NameError] for every non-empty allow-list, returns [None] for
    the empty allow-list, and returns the row set it was given exactly when
    the allow-list is [None]. *)
Theorem apply_filtering_cases :
  forall (ext : Externals.t) (df : DataFrame) (i : nat) (w : world),
    col_index "Compound_Name" (columns df) = Some i ->
    ~ In "f_annotations_filtered" (Externals.imported_names ext) ->
    let w1 := fst (print (Externals.repr_set ext (set_of (series df i))) w) in
    (forall name names,
        Processing.apply_filtering ext df (Some (name :: names)) w
        = (fst (print "After filtering" w1),
           Raise (NameError "f_annotations_filtered")))
    /\ Processing.apply_filtering ext df (Some []) w = (w1, Ok None)
    /\ Processing.apply_filtering ext df None w = (w1, Ok (Some df))
    /\ (forall keep,
           snd (Processing.apply_filtering ext df keep w) = Ok (Some df)
           <-> keep = None).
Proof.
  intros ext df i w Hi Hn w1.
  assert (Hcons : forall name names,
             Processing.apply_filtering ext df (Some (name :: names)) w
             = (fst (print "After filtering" w1),
                Raise (NameError "f_annotations_filtered"))).
  { intros name names. unfold Processing.apply_filtering, Processing.lookup.
    unfold bind, lift. rewrite (col_index_getitem _ _ _ Hi). cbn [print fst].
    rewrite (f_annotations_filtered_unbound ext Hn). reflexivity. }
  assert (Hnil : Processing.apply_filtering ext df (Some []) w = (w1, Ok None)).
  { unfold Processing.apply_filtering, bind, lift.
    rewrite (col_index_getitem _ _ _ Hi). reflexivity. }
  assert (Hnone : Processing.apply_filtering ext df None w = (w1, Ok (Some df))).
  { unfold Processing.apply_filtering, bind, lift.
    rewrite (col_index_getitem _ _ _ Hi). reflexivity. }
  repeat split; try assumption.
  - destruct keep as [ [ | name names ] | ]; try reflexivity.
    + rewrite Hnil. discriminate.
    + rewrite Hcons. discriminate.
  - intros ->. rewrite Hnone. reflexivity.
Qed.

Lemma apply_filtering_cases_witness :
  Processing.apply_filtering Examples.externals Examples.tagged
                             (Some [ "A" ]) Examples.empty_world
  = (mkWorld [] [] [] [] [ "{...}"; "After filtering" ] (fun _ => None),
     Raise (NameError "f_annotations_filtered")).
Proof.
  refine (proj1 (apply_filtering_cases Examples.externals Examples.tagged
                   0%nat Examples.empty_world eq_refl _) "A" []).
  simpl. intros H.
  repeat (destruct H as [H | H]; [ discriminate H | ]). exact H.
Defined.

(** ** Loading the extra compounds *)

Lemma length_series df j : List.length (series df j) = List.length (rows df).
Proof. unfold series. apply length_map. Qed.

(** C7, as the code behaves: [read_csv] is called with its default header
    inference, so the first line of the file is taken for the column labels.
    A file of [n + 1] lines gives [n] names and [n] structures; of the two
    compounds of the example file only the second is loaded. *)
Theorem load_extra_compounds_skips_first_line :
  (forall path content header data w,
      files w path = Some content ->
      file_lines content = header :: data ->
      (2 <= List.length (split tab header))%nat ->
      exists w',
        Prepare.load_extra_compounds path w = (w', Ok tt)
        /\ List.length (extra_compound_names w') = List.length data
        /\ List.length (extra_compound_smiles w') = List.length data)
  /\ file_lines Examples.extra_compounds_file
     = [ ("x" ++ String tab "CCO")%string; ("y" ++ String tab "CCN")%string ]
  /\ (let w' := fst (Prepare.load_extra_compounds "extra_compounds.tsv"
                                                  Examples.world_with_file) in
      extra_compound_names w' = [ Str "y" ]
      /\ extra_compound_smiles w' = [ Str "CCN" ]).
Proof.
  split; [ | split; [ reflexivity | split; reflexivity ] ].
  intros path content header data w Hf Hl Hc.
  unfold Prepare.load_extra_compounds, bind, lift, read_file.
  rewrite Hf. unfold read_csv_tab. rewrite Hl.
  unfold iloc_column. cbn [columns].
  destruct (Nat.ltb_spec 0 (List.length (split tab header))) as [ _ | H0 ];
    [ | lia ].
  cbn [set_extra_compound_names].
  destruct (Nat.ltb_spec 1 (List.length (split tab header))) as [ _ | H1 ];
    [ | lia ].
  cbn [set_extra_compound_smiles].
  rewrite !length_series. cbn [rows]. rewrite Nat.eqb_refl. cbn [negb ret].
  eexists. split; [ reflexivity | ].
  cbn. rewrite !length_map. split; reflexivity.
Qed.

Lemma load_extra_compounds_skips_first_line_witness :
  exists w',
    Prepare.load_extra_compounds "extra_compounds.tsv" Examples.world_with_file
    = (w', Ok tt)
    /\ List.length (extra_compound_names w') = 1%nat
    /\ List.length (extra_compound_smiles w') = 1%nat.
Proof.
  refine (proj1 load_extra_compounds_skips_first_line
                "extra_compounds.tsv" Examples.extra_compounds_file
                ("x" ++ String tab "CCO")%string
                [ ("y" ++ String tab "CCN")%string ]
                Examples.world_with_file eq_refl eq_refl _).
  vm_compute. lia.
Defined.

(** ** DeduplicatingSelector: what a call computes *)

Lemma sort_values_desc_columns df by_ sorted :
  sort_values_desc df by_ = Ok sorted -> columns sorted = columns df.
Proof.
  unfold sort_values_desc. destruct (getitem df by_); [ | discriminate ].
  destruct (comparable _); [ | discriminate ].
  intros [= <-]. reflexivity.
Qed.

(** The selection does not read or change the world, and its result is the
    one described by [Selection.selected_rows]. *)
Lemma select_structures_run df cn c dd w :
  Prepare.select_structures df cn (Some c) dd w
  = (w,
     match col_index c (columns df) with
     | None => Raise (KeyError c)
     | Some i =>
         let rs := Selection.selected_rows (columns df) i dd (rows df) in
         match col_index cn (columns df) with
         | None => Raise (KeyError cn)
         | Some n => Ok (mkDF (columns df) rs, map (at_ n) rs, map (at_ i) rs)
         end
     end).
Proof.
  unfold Prepare.select_structures, Prepare.getitem_opt,
    Prepare.drop_duplicates_opt, bind, lift, ret, try_except.
  unfold getitem at 1.
  destruct (col_index c (columns df)) as [ i | ] eqn:Hc; [ | reflexivity ].
  unfold Selection.selected_rows. destruct dd.
  - unfold Selection.sorted_or_same, Selection.without_nan, select.
    set (df1 := mkDF (columns df) _).
    destruct (sort_values_desc df1 "MQScore") as [ sorted | e ] eqn:Hs.
    + pose proof (sort_values_desc_columns _ _ _ Hs) as Hcols.
      unfold drop_duplicates, getitem. rewrite Hcols. cbn [columns df1].
      rewrite Hc. cbn [columns rows].
      destruct (col_index cn (columns df)); rewrite ?Hc; reflexivity.
    + unfold drop_duplicates, getitem. cbn [columns df1]. rewrite Hc.
      cbn [columns rows].
      destruct (col_index cn (columns df)); rewrite ?Hc; reflexivity.
  - unfold select, getitem. cbn [columns rows]. rewrite Hc.
    destruct (col_index cn (columns df)); rewrite ?Hc; reflexivity.
Qed.

Lemma select_structures_run_False df cn dd w :
  Prepare.select_structures df cn None dd w = (w, Raise (KeyError "False")).
Proof. reflexivity. Qed.

(** A call that returns: the frame it returns and the two lists it stores. *)
Lemma prepare_returns df cn pc sc dd up w w' out :
  Prepare.prepare_for_virtual_metabolization df cn pc sc dd up w = (w', Ok out) ->
  exists c i n,
    Selection.structure_column pc sc up = Some c
    /\ col_index c (columns df) = Some i
    /\ col_index cn (columns df) = Some n
    /\ out = mkDF (columns df)
                  (Selection.selected_rows (columns df) i dd (rows df))
    /\ w' = fst (set_prepare_attributes (series out n) (series out i) w).
Proof.
  unfold Prepare.prepare_for_virtual_metabolization.
  assert (Hgen : forall oc,
             bind (Prepare.select_structures df cn oc dd)
                  (fun out0 =>
                     let '(df_annotations, list_compound_name, list_smiles) := out0 in
                     bind (set_prepare_attributes list_compound_name list_smiles)
                          (fun _ => ret df_annotations)) w = (w', Ok out) ->
             exists c i n,
               oc = Some c
               /\ col_index c (columns df) = Some i
               /\ col_index cn (columns df) = Some n
               /\ out = mkDF (columns df)
                             (Selection.selected_rows (columns df) i dd (rows df))
               /\ w' = fst (set_prepare_attributes (series out n) (series out i) w)).
  { intros [ c | ]; unfold bind at 1.
    - rewrite select_structures_run.
      destruct (col_index c (columns df)) as [ i | ] eqn:Hc; [ | discriminate ].
      cbv zeta.
      destruct (col_index cn (columns df)) as [ n | ] eqn:Hn; [ | discriminate ].
      unfold bind, ret, set_prepare_attributes. intros [= <- <-].
      exists c, i, n. repeat split; try assumption; reflexivity.
    - rewrite select_structures_run_False. discriminate. }
  unfold Selection.structure_column. destruct up; intros H; apply Hgen; exact H.
Qed.

(** Conversely, with the columns present the call returns. *)
Lemma prepare_runs df cn pc sc dd up c i n w :
  Selection.structure_column pc sc up = Some c ->
  col_index c (columns df) = Some i ->
  col_index cn (columns df) = Some n ->
  let out := mkDF (columns df)
                  (Selection.selected_rows (columns df) i dd (rows df)) in
  Prepare.prepare_for_virtual_metabolization df cn pc sc dd up w
  = (fst (set_prepare_attributes (series out n) (series out i) w), Ok out).
Proof.
  intros Hsc Hc Hn out.
  unfold Prepare.prepare_for_virtual_metabolization, Selection.structure_column in *.
  destruct up.
  - injection Hsc as <-. unfold bind at 1. rewrite select_structures_run, Hc, Hn.
    reflexivity.
  - subst sc. unfold bind at 1. rewrite select_structures_run, Hc, Hn.
    reflexivity.
Qed.

(** C5: a call of DeduplicatingSelector that returns leaves in the
    accumulator the name and structure columns of the frame it returns,
    whatever the accumulator held before; in particular, after a call for
    one source and a call for another, the accumulator is what the second
    call alone produces.  Nothing else of the world changes. *)
Theorem prepare_overwrites_accumulator :
  forall df1 cn1 pc1 sc1 dd1 up1 df2 cn2 pc2 sc2 dd2 up2 w0 w1 w2 out1 out2,
    Prepare.prepare_for_virtual_metabolization df1 cn1 pc1 sc1 dd1 up1 w0
    = (w1, Ok out1) ->
    Prepare.prepare_for_virtual_metabolization df2 cn2 pc2 sc2 dd2 up2 w1
    = (w2, Ok out2) ->
    (exists c i n,
        Selection.structure_column pc2 sc2 up2 = Some c
        /\ col_index c (columns out2) = Some i
        /\ col_index cn2 (columns out2) = Some n
        /\ list_compound_name w2 = series out2 n
        /\ list_smiles w2 = series out2 i)
    /\ (forall w, exists w',
           Prepare.prepare_for_virtual_metabolization df2 cn2 pc2 sc2 dd2 up2 w
           = (w', Ok out2)
           /\ list_compound_name w' = list_compound_name w2
           /\ list_smiles w' = list_smiles w2)
    /\ extra_compound_names w2 = extra_compound_names w0
    /\ extra_compound_smiles w2 = extra_compound_smiles w0
    /\ stdout w2 = stdout w0
    /\ files w2 = files w0.
Proof.
  intros df1 cn1 pc1 sc1 dd1 up1 df2 cn2 pc2 sc2 dd2 up2 w0 w1 w2 out1 out2 H1 H2.
  apply prepare_returns in H1 as (c1 & i1 & n1 & _ & _ & _ & _ & Hw1).
  apply prepare_returns in H2 as (c & i & n & Hsc & Hc & Hn & Hout & Hw2).
  subst w1 w2. split; [ | split ].
  - exists c, i, n. subst out2. cbn [columns]. repeat split; assumption.
  - intros w. eexists. split.
    + rewrite (prepare_runs df2 cn2 pc2 sc2 dd2 up2 c i n w Hsc Hc Hn).
      rewrite <- Hout. reflexivity.
    + split; reflexivity.
  - repeat split; reflexivity.
Qed.

Lemma prepare_overwrites_accumulator_witness :
  let w1 :=
    fst (Prepare.prepare_for_virtual_metabolization
           Examples.gnps "Compound_Name" "Consol_SMILES_iso"
           (Some "Consol_SMILES") true true Examples.empty_world) in
  let w2 :=
    fst (Prepare.prepare_for_virtual_metabolization
           Examples.sirius "name" "smiles" None true true w1) in
  list_compound_name w1 = [ Str "caffeine (high)"; Str "nicotine" ]
  /\ list_compound_name w2 = [ Str "paracetamol"; Str "no_name" ]
  /\ list_smiles w2 = [ Str "CC(=O)NC1=CC=C(O)C=C1"; Str "CCO" ].
Proof.
  intros w1 w2.
  destruct (prepare_overwrites_accumulator
              Examples.gnps "Compound_Name" "Consol_SMILES_iso"
              (Some "Consol_SMILES") true true
              Examples.sirius "name" "smiles" None true true
              Examples.empty_world w1 w2 _ _ eq_refl eq_refl)
    as [ (c & i & n & Hsc & Hc & Hn & Hnames & Hsmiles) _ ].
  split; [ reflexivity | ].
  rewrite Hnames, Hsmiles. clear Hnames Hsmiles.
  injection Hsc as <-.
  vm_compute in Hn. injection Hn as <-.
  vm_compute in Hc. injection Hc as <-.
  split; reflexivity.
Defined.

(** ** Sorting and dropping duplicates keep rows of the input *)

Section InsertionSort.
Context {A : Type} (leb : A -> A -> bool).

Lemma insert_sorted_perm (x : A) (l : list A) :
  Permutation (insert_sorted leb x l) (x :: l).
Proof.
  induction l as [ | y l IH ]; simpl.
  - reflexivity.
  - destruct (leb x y).
    + reflexivity.
    + rewrite IH. apply perm_swap.
Qed.

Lemma stable_sort_perm (l : list A) : Permutation (stable_sort leb l) l.
Proof.
  induction l as [ | x l IH ]; simpl.
  - reflexivity.
  - rewrite insert_sorted_perm. now constructor.
Qed.
End InsertionSort.

Lemma filter_split_perm {A} (p : A -> bool) (l : list A) :
  Permutation (filter (fun a => negb (p a)) l ++ filter p l) l.
Proof.
  induction l as [ | a l IH ]; simpl.
  - reflexivity.
  - destruct (p a); simpl.
    + rewrite <- Permutation_middle. now constructor.
    + now constructor.
Qed.

Lemma nargsort_desc_perm i rs : Permutation (nargsort_desc i rs) rs.
Proof.
  unfold nargsort_desc.
  rewrite <- (filter_split_perm (fun r => isna (at_ i r)) rs) at 3.
  apply Permutation_app_tail.
  rewrite <- Permutation_rev, stable_sort_perm, <- Permutation_rev.
  reflexivity.
Qed.

Lemma sorted_or_same_perm cols rs :
  Permutation (Selection.sorted_or_same cols rs) rs.
Proof.
  unfold Selection.sorted_or_same, sort_values_desc.
  destruct (getitem _ _) as [ i | ]; [ | reflexivity ].
  destruct (comparable _); [ | reflexivity ].
  apply nargsort_desc_perm.
Qed.

Lemma drop_duplicates_from_In i seen rs r :
  In r (drop_duplicates_from i seen rs) -> In r rs.
Proof.
  revert seen. induction rs as [ | r0 rs IH ]; intros seen; simpl.
  - tauto.
  - destruct (existsb _ seen).
    + intros H. right. exact (IH _ H).
    + intros [ H | H ]; [ now left | right; exact (IH _ H) ].
Qed.

Lemma selected_rows_In cols i dd rs r :
  In r (Selection.selected_rows cols i dd rs) ->
  In r rs /\ eq_False (str_contains "nan" (at_ i r)) = true.
Proof.
  unfold Selection.selected_rows. intros H.
  assert (Hw : In r (Selection.without_nan i rs)).
  { destruct dd.
    - apply drop_duplicates_from_In in H.
      exact (Permutation_in _ (sorted_or_same_perm _ _) H).
    - exact H. }
  unfold Selection.without_nan in Hw. apply filter_In in Hw. exact Hw.
Qed.

Lemma eq_False_contains pat c :
  eq_False (str_contains pat c) = true ->
  exists s, c = Str s /\ contains pat s = false.
Proof.
  destruct c as [ | s | q ]; simpl; try discriminate.
  destruct (contains pat s) eqn:E; [ discriminate | ].
  intros _. exists s. split; [ reflexivity | exact E ].
Qed.

(** The structures stored by a call are strings without the null marker,
    as many as the names. *)
Lemma prepare_output_strings df cn pc sc dd up w w' out :
  Prepare.prepare_for_virtual_metabolization df cn pc sc dd up w
  = (w', Ok out) ->
  Forall (fun x => exists s, x = Str s /\ contains "nan" s = false)
         (list_smiles w')
  /\ List.length (list_compound_name w') = List.length (list_smiles w').
Proof.
  intros H.
  apply prepare_returns in H as (c & i & n & Hsc & Hc & Hn & Hout & Hw).
  subst w' out. cbn. unfold series. cbn [rows]. split.
  - apply Forall_forall. intros x Hx.
    apply in_map_iff in Hx as (r & <- & Hr).
    apply selected_rows_In in Hr as [ _ Hnan ].
    exact (eq_False_contains _ _ Hnan).
  - now rewrite !length_map.
Qed.

(** ** Null-structure exclusion *)

(** C9: whatever the structure column (planar or stereo) and whether or not
    duplicates are dropped, every structure DeduplicatingSelector puts out
    is a string that does not contain the null marker "nan"; so no row
    whose structure is "nan" (or is missing) is in the returned frame or in
    the stored lists, and every returned row is a row of the input. *)
Theorem prepare_excludes_null_structures :
  forall df cn pc sc dd up w w' out,
    Prepare.prepare_for_virtual_metabolization df cn pc sc dd up w
    = (w', Ok out) ->
    exists c i,
      Selection.structure_column pc sc up = Some c
      /\ col_index c (columns df) = Some i
      /\ (forall r, In r (rows out) -> In r (rows df))
      /\ (forall r, In r (rows out) ->
                    at_ i r <> Str "nan" /\ at_ i r <> NaN)
      /\ list_smiles w' = map (at_ i) (rows out)
      /\ Forall (fun x => exists s, x = Str s /\ contains "nan" s = false)
                (list_smiles w')
      /\ ~ In (Str "nan") (list_smiles w')
      /\ List.length (list_compound_name w') = List.length (list_smiles w').
Proof.
  intros df cn pc sc dd up w w' out H.
  apply prepare_returns in H as (c & i & n & Hsc & Hc & Hn & Hout & Hw).
  exists c, i.
  assert (Hrows : forall r, In r (rows out) ->
                            In r (rows df)
                            /\ exists s, at_ i r = Str s
                                         /\ contains "nan" s = false).
  { intros r Hr. subst out. cbn [rows] in Hr.
    apply selected_rows_In in Hr as [ Hin Hnan ].
    split; [ exact Hin | exact (eq_False_contains _ _ Hnan) ]. }
  assert (Hsm : list_smiles w' = map (at_ i) (rows out)).
  { subst w'. reflexivity. }
  assert (Hall : Forall (fun x => exists s, x = Str s /\ contains "nan" s = false)
                        (list_smiles w')).
  { rewrite Hsm. apply Forall_forall. intros x Hx.
    apply in_map_iff in Hx as (r & <- & Hr). exact (proj2 (Hrows r Hr)). }
  repeat split; try assumption.
  - intros r Hr. exact (proj1 (Hrows r Hr)).
  - destruct (Hrows r H) as [ _ (s & Hs & Hcont) ]. rewrite Hs.
    intros [= ->]. discriminate Hcont.
  - destruct (Hrows r H) as [ _ (s & Hs & _) ]. rewrite Hs. discriminate.
  - intros Hin. rewrite Forall_forall in Hall.
    destruct (Hall _ Hin) as (s & [= <-] & Hcont). discriminate Hcont.
  - subst w'. cbn. unfold series. now rewrite !length_map.
Qed.

Lemma prepare_excludes_null_structures_witness :
  ~ In (Str "nan")
       (list_smiles
          (fst (Prepare.prepare_for_virtual_metabolization
                  Examples.gnps "Compound_Name" "Consol_SMILES_iso"
                  (Some "Consol_SMILES") false false Examples.empty_world))).
Proof.
  destruct (prepare_excludes_null_structures
              Examples.gnps "Compound_Name" "Consol_SMILES_iso"
              (Some "Consol_SMILES") false false
              Examples.empty_world _ _ eq_refl)
    as (c & i & _ & _ & _ & _ & _ & _ & Hnot & _).
  exact Hnot.
Defined.

(** ** Uniqueness of the structures after [drop_duplicates] *)

Lemma cell_eqb_refl c : cell_eqb c c = true.
Proof.
  destruct c; simpl;
    [ reflexivity | apply String.eqb_refl | apply Qeq_bool_refl ].
Qed.

Lemma cell_eqb_sym a b : cell_eqb a b = cell_eqb b a.
Proof.
  destruct a, b; simpl; try reflexivity;
    [ apply String.eqb_sym | apply Qeq_bool_comm ].
Qed.

Lemma drop_duplicates_from_distinct i seen rs :
  ForallOrdPairs (fun a b => cell_eqb (at_ i a) (at_ i b) = false)
                 (drop_duplicates_from i seen rs)
  /\ Forall (fun r => existsb (cell_eqb (at_ i r)) seen = false)
            (drop_duplicates_from i seen rs).
Proof.
  revert seen. induction rs as [ | r rs IH ]; intros seen; simpl.
  - split; constructor.
  - destruct (existsb (cell_eqb (at_ i r)) seen) eqn:E.
    + apply IH.
    + destruct (IH (at_ i r :: seen)) as [ Hpairs Hseen ].
      split.
      * constructor; [ | exact Hpairs ].
        eapply Forall_impl; [ | exact Hseen ].
        intros r' Hr'. simpl in Hr'. apply orb_false_elim in Hr' as [ H _ ].
        rewrite cell_eqb_sym. exact H.
      * constructor; [ exact E | ].
        eapply Forall_impl; [ | exact Hseen ].
        intros r' Hr'. simpl in Hr'. apply orb_false_elim in Hr' as [ _ H ].
        exact H.
Qed.

Lemma distinct_keys_NoDup i (rs : list row) :
  ForallOrdPairs (fun a b => cell_eqb (at_ i a) (at_ i b) = false) rs ->
  NoDup (map (at_ i) rs).
Proof.
  induction 1 as [ | r rs Hr _ IH ]; simpl; constructor.
  - intros Hin. apply in_map_iff in Hin as (r' & Heq & Hr').
    rewrite Forall_forall in Hr. specialize (Hr r' Hr').
    rewrite Heq, cell_eqb_refl in Hr. discriminate.
  - exact IH.
Qed.

Lemma all_strings (l : list cell) :
  Forall (fun x => exists s : string, x = Str s) l ->
  exists ss, l = map Str ss.
Proof.
  induction 1 as [ | x l (s & ->) _ (ss & ->) ].
  - exists []. reflexivity.
  - exists (s :: ss). reflexivity.
Qed.

Lemma NoDup_map_Str (ss : list string) : NoDup (map Str ss) -> NoDup ss.
Proof.
  induction ss as [ | s ss IH ]; simpl; intros H; constructor.
  - inversion H as [ | ? ? Hn _ ]. intros Hin. apply Hn. now apply in_map.
  - inversion H. auto.
Qed.

(** C1, as the code behaves: with deduplication enabled, the structures put
    out by DeduplicatingSelector are strings that are pairwise different as
    they stand in the chosen structure column (each value of that column
    comes once); the names and the structures have the same length. *)
Theorem prepare_dedup_unique_raw :
  forall df cn pc sc up w w' out,
    Prepare.prepare_for_virtual_metabolization df cn pc sc true up w
    = (w', Ok out) ->
    NoDup (list_smiles w')
    /\ (exists ss, list_smiles w' = map Str ss /\ NoDup ss)
    /\ List.length (list_compound_name w') = List.length (list_smiles w').
Proof.
  intros df cn pc sc up w w' out H.
  destruct (prepare_output_strings _ _ _ _ _ _ _ _ _ H) as [ Hall Hlen ].
  apply prepare_returns in H as (c & i & n & Hsc & Hc & Hn & Hout & Hw).
  assert (Hnd : NoDup (list_smiles w')).
  { subst w' out. cbn. unfold Selection.selected_rows.
    apply distinct_keys_NoDup. apply drop_duplicates_from_distinct. }
  split; [ exact Hnd | split; [ | exact Hlen ] ].
  destruct (all_strings (list_smiles w')) as (ss & Hss).
  { eapply Forall_impl; [ | exact Hall ]. intros x (s & -> & _). now exists s. }
  exists ss. split; [ exact Hss | ].
  apply NoDup_map_Str. rewrite <- Hss. exact Hnd.
Qed.

Lemma prepare_dedup_unique_raw_witness :
  NoDup (list_smiles
           (fst (Prepare.prepare_for_virtual_metabolization
                   Examples.gnps "Compound_Name" "Consol_SMILES_iso"
                   (Some "Consol_SMILES") true true Examples.empty_world))).
Proof.
  exact (proj1 (prepare_dedup_unique_raw
                  Examples.gnps "Compound_Name" "Consol_SMILES_iso"
                  (Some "Consol_SMILES") true Examples.empty_world _ _ eq_refl)).
Defined.

(** C1 as stated fails: the selector compares the structures as they are
    written.  The two enantiomers of alanine are both put out, and they are
    equal once the stereo markers are stripped. *)
Lemma prepare_dedup_not_unique_after_normalization :
  list_smiles
    (fst (Prepare.prepare_for_virtual_metabolization
            Examples.alanines "Compound_Name" "Consol_SMILES_iso"
            (Some "Consol_SMILES") true false Examples.empty_world))
  = [ Str "C[C@H](N)C(=O)O"; Str "C[C@@H](N)C(=O)O" ]
  /\ (forall ext : Externals.t,
         Prepare.clean_smiles ext "C[C@H](N)C(=O)O"
         = Prepare.clean_smiles ext "C[C@@H](N)C(=O)O")
  /\ Prepare.clean_smiles Examples.externals "C[C@H](N)C(=O)O"
     = "C[CH](N)C(=O)O".
Proof.
  repeat split; reflexivity.
Qed.

(** ** AnnotationValidator *)

Lemma bind_print {B} (line : string) (k : unit -> M B) (w : world) :
  bind (print line) k w = k tt (fst (print line w)).
Proof. reflexivity. Qed.

Lemma bind_lift {A B} (r : result A) (k : A -> M B) (w : world) :
  bind (lift r) k w = match r with
                      | Ok a => k a w
                      | Raise e => (w, Raise e)
                      end.
Proof. unfold bind, lift. destruct r; reflexivity. Qed.

Lemma bind_ret {A B} (a : A) (k : A -> M B) (w : world) :
  bind (ret a) k w = k a w.
Proof. reflexivity. Qed.

Lemma snd_bind {A B} (m : M A) (k : A -> M B) (w : world) :
  snd (bind m k w) = match snd (m w) with
                     | Ok a => snd (k a (fst (m w)))
                     | Raise e => Raise e
                     end.
Proof. unfold bind. destruct (m w) as [ w' [ a | e ] ]; reflexivity. Qed.

Lemma for_each_print_ok (f : string -> string) (l : list string) (w : world) :
  snd (for_each (fun item => print (f item)) l w) = Ok tt.
Proof.
  revert w. induction l as [ | a l IH ]; intros w; simpl.
  - reflexivity.
  - rewrite bind_print. apply IH.
Qed.

Lemma print_compound_names_result (l : list cell) (w : world) :
  snd (Prepare.print_compound_names l w)
  = match Prepare.strings_of l with
    | Some _ => Ok tt
    | None => Raise TypeError
    end.
Proof.
  unfold Prepare.print_compound_names.
  destruct (Prepare.strings_of l); [ apply for_each_print_ok | reflexivity ].
Qed.

(** The outcome of the validator, whatever the world. *)
Lemma get_info_result df inchi smiles planar w :
  snd (Prepare.get_info_gnps_annotations df inchi smiles planar w)
  = match col_index inchi (columns df) with
    | None => Raise (KeyError inchi)
    | Some i =>
        match col_index smiles (columns df) with
        | None => Raise (KeyError smiles)
        | Some _ =>
            match match planar with
                  | Some p => getitem df p
                  | None => Ok 0%nat
                  end with
            | Raise e => Raise e
            | Ok _ =>
                match col_index "Compound_Name" (columns df) with
                | None => Raise (KeyError "Compound_Name")
                | Some n =>
                    match Prepare.strings_of
                            (set_of (map (at_ n)
                               (filter (fun r => negb (str_startswith
                                                         "InChI" false (at_ i r)))
                                       (rows df)))) with
                    | None => Raise TypeError
                    | Some _ =>
                        Ok (select (fun r => str_startswith "InChI" false (at_ i r))
                                   df)
                    end
                end
            end
        end
    end.
Proof.
  unfold Prepare.get_info_gnps_annotations.
  rewrite bind_lift. unfold getitem at 1.
  destruct (col_index inchi (columns df)) as [ i | ] eqn:Hi; [ | reflexivity ].
  rewrite bind_print, bind_lift. unfold getitem at 1.
  destruct (col_index smiles (columns df)) as [ s | ]; [ | reflexivity ].
  rewrite bind_print.
  rewrite snd_bind.
  destruct planar as [ p | ].
  - rewrite bind_lift.
    destruct (getitem df p) as [ pi | e ]; [ | reflexivity ].
    cbn [print snd fst].
    rewrite !bind_print, bind_lift. unfold getitem at 1. cbn [select columns].
    destruct (col_index "Compound_Name" (columns df)) as [ n | ];
      [ | reflexivity ].
    rewrite snd_bind, print_compound_names_result. unfold series. cbn [rows].
    destruct (Prepare.strings_of _); [ | reflexivity ].
    rewrite bind_lift. unfold getitem. rewrite Hi. reflexivity.
  - cbn [ret snd fst].
    rewrite !bind_print, bind_lift. unfold getitem at 1. cbn [select columns].
    destruct (col_index "Compound_Name" (columns df)) as [ n | ];
      [ | reflexivity ].
    rewrite snd_bind, print_compound_names_result. unfold series. cbn [rows].
    destruct (Prepare.strings_of _); [ | reflexivity ].
    rewrite bind_lift. unfold getitem. rewrite Hi. reflexivity.
Qed.

Lemma filter_idempotent {A} (p : A -> bool) (l : list A) :
  filter p (filter p l) = filter p l.
Proof.
  induction l as [ | a l IH ]; simpl; [ reflexivity | ].
  destruct (p a) eqn:E; simpl; rewrite ?E, IH; reflexivity.
Qed.

Lemma filter_negb_filter {A} (p : A -> bool) (l : list A) :
  filter (fun a => negb (p a)) (filter p l) = [].
Proof.
  induction l as [ | a l IH ]; simpl; [ reflexivity | ].
  destruct (p a) eqn:E; simpl; rewrite ?E; exact IH.
Qed.

(** C10: when AnnotationValidator returns a row set, applying it again to
    that row set (in any world) returns again, gives the same row set, and
    finds no annotation without structure identifier to discard. *)
Theorem get_info_gnps_annotations_idempotent :
  forall df inchi smiles planar w w1 out1,
    Prepare.get_info_gnps_annotations df inchi smiles planar w
    = (w1, Ok out1) ->
    exists i,
      col_index inchi (columns df) = Some i
      /\ out1 = select (fun r => str_startswith "InChI" false (at_ i r)) df
      /\ (forall w', exists w2,
             Prepare.get_info_gnps_annotations out1 inchi smiles planar w'
             = (w2, Ok out1))
      /\ shape0 (select (fun r => negb (str_startswith "InChI" false (at_ i r)))
                        out1) = 0%nat.
Proof.
  intros df inchi smiles planar w w1 out1 H.
  pose proof (get_info_result df inchi smiles planar w) as Hr.
  rewrite H in Hr. cbn [snd] in Hr.
  destruct (col_index inchi (columns df)) as [ i | ] eqn:Hi; [ | discriminate ].
  destruct (col_index smiles (columns df)) as [ s | ] eqn:Hs; [ | discriminate ].
  destruct (match planar with Some p => getitem df p | None => Ok 0%nat end)
    as [ pi | e ] eqn:Hp; [ | discriminate ].
  destruct (col_index "Compound_Name" (columns df)) as [ n | ] eqn:Hn;
    [ | discriminate ].
  destruct (Prepare.strings_of _) as [ names | ]; [ | discriminate ].
  injection Hr as Hout.
  exists i. split; [ reflexivity | split; [ exact Hout | split ] ].
  - intros w'.
    exists (fst (Prepare.get_info_gnps_annotations out1 inchi smiles planar w')).
    rewrite (surjective_pairing
               (Prepare.get_info_gnps_annotations out1 inchi smiles planar w'))
      at 1.
    f_equal. rewrite get_info_result.
    assert (Hcols : columns out1 = columns df) by (subst out1; reflexivity).
    rewrite Hcols, Hi, Hs.
    replace (match planar with Some p => getitem out1 p | None => Ok 0%nat end)
      with (match planar with Some p => getitem df p | None => Ok 0%nat end)
      by (destruct planar; [ unfold getitem; rewrite Hcols | ]; reflexivity).
    rewrite Hp, Hn.
    subst out1. cbn [select rows].
    rewrite filter_negb_filter. cbn [map set_of distinct_from Prepare.strings_of].
    unfold select. cbn [rows columns]. rewrite filter_idempotent. reflexivity.
  - subst out1. unfold shape0, select. cbn [rows].
    rewrite filter_negb_filter. reflexivity.
Qed.

Lemma get_info_gnps_annotations_idempotent_witness :
  exists w2,
    Prepare.get_info_gnps_annotations
      (mkDF (columns Examples.gnps) (firstn 3 (rows Examples.gnps)))
      "Consol_InChI" "Consol_SMILES" (Some "Consol_SMILES_iso")
      Examples.empty_world
    = (w2, Ok (mkDF (columns Examples.gnps) (firstn 3 (rows Examples.gnps)))).
Proof.
  pose (run := Prepare.get_info_gnps_annotations
                 Examples.gnps "Consol_InChI" "Consol_SMILES"
                 (Some "Consol_SMILES_iso") Examples.empty_world).
  assert (Hrun : run = (fst run,
                        Ok (mkDF (columns Examples.gnps)
                                 (firstn 3 (rows Examples.gnps))))).
  { rewrite (surjective_pairing run) at 1. f_equal. }
  destruct (get_info_gnps_annotations_idempotent
              Examples.gnps "Consol_InChI" "Consol_SMILES"
              (Some "Consol_SMILES_iso") Examples.empty_world (fst run) _ Hrun)
    as (i & Hi & _ & Hagain & _).
  exact (Hagain Examples.empty_world).
Defined.

(** ** ListMerger *)

Lemma existsb_cell_eqb_Str (c : string) (l : list cell) :
  existsb (cell_eqb (Str c)) l = true <-> In (Str c) l.
Proof.
  rewrite existsb_exists. split.
  - intros (x & Hx & He). destruct x as [ | s | q ]; simpl in He;
      try discriminate.
    apply String.eqb_eq in He. now subst.
  - intros H. exists (Str c). split; [ exact H | apply cell_eqb_refl ].
Qed.

Lemma combine_map_Str (ns : list cell) (ss : list string) :
  combine ns (map Str ss) = map (fun p => (fst p, Str (snd p))) (combine ns ss).
Proof.
  revert ss. induction ns as [ | n ns IH ]; intros [ | s ss ]; simpl;
    try reflexivity.
  now rewrite IH.
Qed.

Section ListMerger.
Variable ext : Externals.t.

Let norm : string -> string := Prepare.clean_smiles ext.
Let entry (p : cell * string) : cell * cell := (fst p, Str (snd p)).

(** One entry: appended exactly when its cleaned structure is new. *)
Lemma append_loop_step names smiles n s rest :
  Prepare.append_loop ext names smiles ((n, Str s) :: rest)
  = if existsb (cell_eqb (Str (norm s))) smiles
    then Prepare.append_loop ext names smiles rest
    else Prepare.append_loop ext (names ++ [ n ])
                             (smiles ++ [ Str (norm s) ]) rest.
Proof.
  simpl. fold (norm s).
  destruct (existsb (cell_eqb (Str (norm s))) smiles); reflexivity.
Qed.

(** The whole loop over a table of string structures. *)
Lemma append_loop_added (table : list (cell * string)) :
  forall names smiles,
  exists added : list (cell * string),
    Prepare.append_loop ext names smiles (map entry table)
    = ((names ++ map fst added,
        smiles ++ map (fun p => Str (snd p)) added), Ok tt)
    /\ NoDup (map snd added)
    /\ (forall c, In c (map snd added) -> ~ In (Str c) smiles)
    /\ (forall n c, In (n, c) added ->
           exists before s after,
             table = before ++ (n, s) :: after
             /\ norm s = c
             /\ forall p, In p before -> norm (snd p) <> c)
    /\ (forall p, In p table ->
           In (Str (norm (snd p))) smiles
           \/ In (norm (snd p)) (map snd added)).
Proof.
  induction table as [ | [ n s ] table IH ]; intros names smiles.
  - exists []. simpl. rewrite !app_nil_r.
    repeat split; try constructor; simpl; tauto.
  - cbn [map]. unfold entry at 1. cbn [fst snd]. rewrite append_loop_step.
    destruct (existsb (cell_eqb (Str (norm s))) smiles) eqn:E.
    + apply existsb_cell_eqb_Str in E.
      destruct (IH names smiles) as (added & Heq & Hnd & Hnew & Hfirst & Hall).
      exists added. split; [ exact Heq | ].
      split; [ exact Hnd | ]. split; [ exact Hnew | ]. split.
      * intros n' c Hin.
        destruct (Hfirst n' c Hin) as (before & s' & after & -> & Hc & Hb).
        exists ((n, s) :: before), s', after.
        split; [ reflexivity | split; [ exact Hc | ] ].
        intros p [ <- | Hp ]; [ | exact (Hb p Hp) ].
        cbn [snd]. intros Heqc. apply (Hnew c).
        -- apply in_map_iff. exists (n', c). split; [ reflexivity | exact Hin ].
        -- rewrite <- Heqc. exact E.
      * intros p [ <- | Hp ]; [ left; exact E | exact (Hall p Hp) ].
    + assert (Hnotin : ~ In (Str (norm s)) smiles).
      { intros Hin. apply existsb_cell_eqb_Str in Hin.
        rewrite Hin in E. discriminate. }
      destruct (IH (names ++ [ n ]) (smiles ++ [ Str (norm s) ]))
        as (added & Heq & Hnd & Hnew & Hfirst & Hall).
      exists ((n, norm s) :: added). split.
      { rewrite Heq. cbn [map fst snd]. rewrite <- !app_assoc. reflexivity. }
      assert (Hfresh : ~ In (norm s) (map snd added)).
      { intros Hin. apply (Hnew _ Hin). apply in_or_app. right. now left. }
      split; [ cbn [map snd]; constructor; assumption | ].
      split.
      { cbn [map snd]. intros c [ <- | Hin ]; [ exact Hnotin | ].
        intros Hs. apply (Hnew c Hin). apply in_or_app. now left. }
      split.
      * intros n' c [ [= <- <-] | Hin ].
        -- exists [], s, table. split; [ reflexivity | split; [ reflexivity | ] ].
           intros p [].
        -- destruct (Hfirst n' c Hin) as (before & s' & after & -> & Hc & Hb).
           exists ((n, s) :: before), s', after.
           split; [ reflexivity | split; [ exact Hc | ] ].
           intros p [ <- | Hp ]; [ | exact (Hb p Hp) ].
           cbn [snd]. intros Heqc. apply Hfresh. rewrite Heqc.
           apply in_map_iff. exists (n', c). split; [ reflexivity | exact Hin ].
      * intros p [ <- | Hp ].
        -- right. cbn [map snd]. now left.
        -- destruct (Hall p Hp) as [ Hin | Hin ].
           ++ apply in_app_or in Hin as [ Hin | [ Hin | [] ] ].
              ** left. exact Hin.
              ** right. injection Hin as Hin. cbn [map snd]. left. exact Hin.
           ++ right. cbn [map snd]. now right.
Qed.


End ListMerger.

Lemma clean_smiles_normalized ext s :
  Prepare.clean_smiles ext s
  = Normalization.normalized (Externals.remove_salt_from_SMILES ext) s.
Proof. reflexivity. Qed.





(** ** The insertion sort puts in order *)

Section InsertionSortOrder.
Context {A : Type} (leb : A -> A -> bool) (P : A -> Prop).
Hypothesis leb_total :
  forall x y, P x -> P y -> leb x y = true \/ leb y x = true.
Hypothesis leb_trans :
  forall x y z, P x -> P y -> P z ->
                leb x y = true -> leb y z = true -> leb x z = true.

Let R (x y : A) : Prop := leb x y = true.

Lemma insert_sorted_Forall (Q : A -> Prop) x l :
  Q x -> Forall Q l -> Forall Q (insert_sorted leb x l).
Proof.
  intros Hx Hl.
  apply (Permutation_Forall (Permutation_sym (insert_sorted_perm leb x l))).
  now constructor.
Qed.

Lemma insert_sorted_sorted x l :
  P x -> Forall P l -> StronglySorted R l ->
  StronglySorted R (insert_sorted leb x l).
Proof.
  intros Hx Hl Hs. induction Hs as [ | y l Hs IH Hy ]; simpl.
  - constructor; constructor.
  - inversion Hl as [ | ? ? Py Pl ]; subst.
    destruct (leb x y) eqn:E.
    + constructor; [ constructor; assumption | ].
      constructor; [ exact E | ].
      rewrite Forall_forall in *. intros z Hz.
      apply (leb_trans x y z); auto. now apply Hy.
    + constructor; [ now apply IH | ].
      apply insert_sorted_Forall; [ | exact Hy ].
      destruct (leb_total x y Hx Py) as [ H | H ]; [ congruence | exact H ].
Qed.

Lemma stable_sort_sorted l :
  Forall P l -> StronglySorted R (stable_sort leb l).
Proof.
  induction 1 as [ | x l Hx Hl IH ]; simpl.
  - constructor.
  - apply insert_sorted_sorted; [ exact Hx | | exact IH ].
    apply (Permutation_Forall (Permutation_sym (stable_sort_perm leb l))).
    exact Hl.
Qed.

End InsertionSortOrder.

Lemma StronglySorted_app {A} (R : A -> A -> Prop) (l1 l2 : list A) :
  StronglySorted R l1 -> StronglySorted R l2 ->
  (forall x y, In x l1 -> In y l2 -> R x y) ->
  StronglySorted R (l1 ++ l2).
Proof.
  intros H1 H2 H12. induction H1 as [ | x l1 H1 IH Hx ]; simpl.
  - exact H2.
  - constructor.
    + apply IH. intros a b Ha Hb. apply H12; [ now right | exact Hb ].
    + apply Forall_app. split; [ exact Hx | ].
      apply Forall_forall. intros y Hy. apply H12; [ now left | exact Hy ].
Qed.

Lemma StronglySorted_rev {A} (R : A -> A -> Prop) (l : list A) :
  StronglySorted R l -> StronglySorted (fun x y => R y x) (rev l).
Proof.
  induction 1 as [ | x l Hs IH Hx ]; simpl.
  - constructor.
  - apply StronglySorted_app.
    + exact IH.
    + constructor; constructor.
    + intros a b Ha [ <- | [] ]. apply in_rev in Ha.
      rewrite Forall_forall in Hx. now apply Hx.
Qed.

Lemma StronglySorted_split {A} (R : A -> A -> Prop) (l1 l2 : list A) x :
  StronglySorted R (l1 ++ x :: l2) -> Forall (R x) l2.
Proof.
  induction l1 as [ | a l1 IH ]; simpl; intros H.
  - now inversion H.
  - inversion H. auto.
Qed.

(** ** [sort_values] on the score column *)

Lemma filter_none {A} (p : A -> bool) (l : list A) :
  Forall (fun a => p a = false) l -> filter p l = [].
Proof.
  induction 1 as [ | a l Ha _ IH ]; simpl; [ reflexivity | ].
  now rewrite Ha.
Qed.

Lemma filter_filter_implied {A} (p q : A -> bool) (l : list A) :
  (forall a, p a = true -> q a = true) ->
  filter p (filter q l) = filter p l.
Proof.
  intros Himp. induction l as [ | a l IH ]; simpl; [ reflexivity | ].
  destruct (q a) eqn:Eq; simpl.
  - now rewrite IH.
  - destruct (p a) eqn:Ep; [ | exact IH ].
    rewrite (Himp a Ep) in Eq. discriminate.
Qed.

Lemma sorted_or_same_no_column cols rs :
  col_index "MQScore" cols = None -> Selection.sorted_or_same cols rs = rs.
Proof.
  intros H. unfold Selection.sorted_or_same, sort_values_desc, getitem.
  cbn [columns]. now rewrite H.
Qed.

Lemma sorted_or_same_incomparable cols k rs :
  col_index "MQScore" cols = Some k ->
  comparable (map (at_ k) rs) = false ->
  Selection.sorted_or_same cols rs = rs.
Proof.
  intros H Hc. unfold Selection.sorted_or_same, sort_values_desc, getitem.
  cbn [columns]. rewrite H. unfold series. cbn [rows]. now rewrite Hc.
Qed.

Lemma sorted_or_same_numeric cols k rs :
  col_index "MQScore" cols = Some k ->
  Selection.numeric_scores k rs ->
  Selection.sorted_or_same cols rs = nargsort_desc k rs.
Proof.
  intros H Hnum. unfold Selection.sorted_or_same, sort_values_desc, getitem.
  cbn [columns]. rewrite H. unfold series. cbn [rows].
  assert (Hno : existsb is_str (map (at_ k) rs) = false).
  { induction Hnum as [ | r rs Hr _ IH ]; simpl; [ reflexivity | ].
    now rewrite Hr. }
  unfold comparable. rewrite Hno. reflexivity.
Qed.

Lemma nans_sorted k rs :
  StronglySorted (Selection.score_desc k)
                 (filter (fun r => isna (at_ k r)) rs).
Proof.
  induction rs as [ | r rs IH ]; simpl; [ constructor | ].
  destruct (isna (at_ k r)) eqn:E; [ | exact IH ].
  constructor; [ exact IH | ].
  apply Forall_forall. intros y Hy. apply filter_In in Hy as [ _ Hy ].
  unfold Selection.score_desc.
  destruct (at_ k y); try discriminate.
  destruct (at_ k r); exact I.
Qed.

Lemma nargsort_desc_sorted k rs :
  Selection.numeric_scores k rs ->
  StronglySorted (Selection.score_desc k) (nargsort_desc k rs).
Proof.
  intros Hnum. unfold nargsort_desc.
  set (nn := filter (fun r => negb (isna (at_ k r))) rs).
  set (P := fun r : row => exists q, at_ k r = Num q).
  assert (Hnn : Forall P nn).
  { apply Forall_forall. intros r Hr. apply filter_In in Hr as [ Hin Hna ].
    unfold Selection.numeric_scores in Hnum. rewrite Forall_forall in Hnum.
    specialize (Hnum r Hin). unfold P.
    destruct (at_ k r) as [ | s | q ]; try discriminate. now exists q. }
  assert (Hsorted : StronglySorted (fun x y => key_leb k x y = true)
                                   (stable_sort (key_leb k) (rev nn))).
  { apply (stable_sort_sorted (key_leb k) P).
    - intros x y (p & Hp) (q & Hq). unfold key_leb. rewrite Hp, Hq. simpl.
      destruct (Qlt_le_dec q p) as [ Hlt | Hle ].
      + right. apply Qle_bool_iff. now apply Qlt_le_weak.
      + left. now apply Qle_bool_iff.
    - intros x y z (p & Hp) (q & Hq) (t & Ht). unfold key_leb.
      rewrite Hp, Hq, Ht. simpl. rewrite !Qle_bool_iff. apply Qle_trans.
    - now apply Forall_rev. }
  assert (Hperm : Permutation (rev (stable_sort (key_leb k) (rev nn))) nn).
  { rewrite <- Permutation_rev, stable_sort_perm, <- Permutation_rev.
    reflexivity. }
  apply StronglySorted_app.
  - apply StronglySorted_rev in Hsorted.
    assert (HP : Forall P (rev (stable_sort (key_leb k) (rev nn)))).
    { exact (Permutation_Forall (Permutation_sym Hperm) Hnn). }
    revert HP Hsorted. generalize (rev (stable_sort (key_leb k) (rev nn))).
    intros l HP Hs. induction Hs as [ | x l Hs IH Hx ]; constructor.
    + apply IH. now inversion HP.
    + inversion HP as [ | ? ? (p & Hp) Hl ]; subst.
      rewrite Forall_forall in *. intros y Hy.
      destruct (Hl y Hy) as (q & Hq). specialize (Hx y Hy).
      unfold Selection.score_desc, key_leb in *. rewrite Hp, Hq in *.
      simpl in Hx. now apply Qle_bool_iff.
  - apply nans_sorted.
  - intros x y Hx Hy. apply filter_In in Hy as [ _ Hy ].
    unfold Selection.score_desc.
    destruct (at_ k y); try discriminate.
    destruct (at_ k x); exact I.
Qed.

Lemma nargsort_desc_missing_last k rs :
  filter (Selection.no_score k) (nargsort_desc k rs)
  = filter (Selection.no_score k) rs.
Proof.
  unfold nargsort_desc.
  set (nn := filter (fun r => negb (isna (at_ k r))) rs).
  set (nans := filter (fun r => isna (at_ k r)) rs).
  rewrite filter_app.
  assert (Hnn : filter (Selection.no_score k)
                       (rev (stable_sort (key_leb k) (rev nn))) = []).
  { apply filter_none.
    assert (Hperm : Permutation nn (rev (stable_sort (key_leb k) (rev nn)))).
    { rewrite <- Permutation_rev, stable_sort_perm, <- Permutation_rev.
      reflexivity. }
    apply (Permutation_Forall Hperm).
    apply Forall_forall. intros r Hr. apply filter_In in Hr as [ _ Hr ].
    unfold Selection.no_score. now apply negb_true_iff. }
  rewrite Hnn. cbn [app]. unfold nans. apply filter_idempotent.
Qed.

(** ** [drop_duplicates] keeps the first row of each structure *)

Lemma cell_eqb_trans a b c :
  cell_eqb a b = true -> cell_eqb b c = true -> cell_eqb a c = true.
Proof.
  destruct a, b, c; simpl; try discriminate; try reflexivity.
  - intros H1 H2. apply String.eqb_eq in H1, H2. subst. apply String.eqb_refl.
  - apply Qeq_bool_trans.
Qed.

Lemma existsb_cell_eqb_compat a b seen :
  cell_eqb a b = true ->
  existsb (cell_eqb a) seen = existsb (cell_eqb b) seen.
Proof.
  intros Hab. induction seen as [ | x seen IH ]; simpl; [ reflexivity | ].
  rewrite IH. f_equal.
  destruct (cell_eqb a x) eqn:Ea, (cell_eqb b x) eqn:Eb; try reflexivity.
  - rewrite cell_eqb_sym in Hab.
    rewrite (cell_eqb_trans _ _ _ Hab Ea) in Eb. discriminate.
  - rewrite (cell_eqb_trans _ _ _ Hab Eb) in Ea. discriminate.
Qed.

Lemma drop_duplicates_from_first i seen rs r :
  In r (drop_duplicates_from i seen rs) ->
  existsb (cell_eqb (at_ i r)) seen = false
  /\ exists before after,
       rs = before ++ r :: after
       /\ Forall (fun r' => Selection.same_structure i r' r = false) before.
Proof.
  revert seen. induction rs as [ | r0 rs IH ]; intros seen; simpl.
  - tauto.
  - destruct (existsb (cell_eqb (at_ i r0)) seen) eqn:E.
    + intros Hin. destruct (IH seen Hin) as (Hseen & before & after & -> & Hb).
      split; [ exact Hseen | ].
      exists (r0 :: before), after. split; [ reflexivity | ].
      constructor; [ | exact Hb ].
      unfold Selection.same_structure.
      destruct (cell_eqb (at_ i r0) (at_ i r)) eqn:Er; [ | reflexivity ].
      rewrite (existsb_cell_eqb_compat _ _ seen Er) in E. congruence.
    + intros [ <- | Hin ].
      * split; [ exact E | ]. exists [], rs. split; [ reflexivity | constructor ].
      * destruct (IH _ Hin) as (Hseen & before & after & -> & Hb).
        simpl in Hseen. apply orb_false_elim in Hseen as [ Hr0 Hseen ].
        split; [ exact Hseen | ].
        exists (r0 :: before), after. split; [ reflexivity | ].
        constructor; [ | exact Hb ].
        unfold Selection.same_structure. rewrite cell_eqb_sym. exact Hr0.
Qed.

Lemma drop_duplicates_from_covers i seen rs r :
  In r rs ->
  existsb (cell_eqb (at_ i r)) seen = true
  \/ exists r', In r' (drop_duplicates_from i seen rs)
                /\ Selection.same_structure i r r' = true.
Proof.
  revert seen. induction rs as [ | r0 rs IH ]; intros seen; simpl.
  - tauto.
  - intros [ <- | Hin ].
    + destruct (existsb (cell_eqb (at_ i r0)) seen) eqn:E.
      * now left.
      * right. exists r0. split; [ now left | apply cell_eqb_refl ].
    + destruct (existsb (cell_eqb (at_ i r0)) seen) eqn:E.
      * exact (IH seen Hin).
      * destruct (IH (at_ i r0 :: seen) Hin) as [ H | (r' & Hr' & Hs) ].
        -- simpl in H. apply orb_true_iff in H as [ H | H ].
           ++ right. exists r0. split; [ now left | exact H ].
           ++ now left.
        -- right. exists r'. split; [ now right | exact Hs ].
Qed.

Lemma highest_score_wins i k sorted r r' q :
  StronglySorted (Selection.score_desc k) sorted ->
  In r (drop_duplicates_from i [] sorted) ->
  In r' sorted ->
  Selection.same_structure i r' r = true ->
  at_ k r' = Num q ->
  exists p, at_ k r = Num p /\ (q <= p)%Q.
Proof.
  intros Hs Hr Hr' Hsame Hq.
  apply drop_duplicates_from_first in Hr as (_ & before & after & -> & Hb).
  apply in_app_or in Hr' as [ Hin | [ <- | Hin ] ].
  - rewrite Forall_forall in Hb. rewrite (Hb r' Hin) in Hsame. discriminate.
  - exists q. split; [ exact Hq | apply Qle_refl ].
  - apply StronglySorted_split in Hs. rewrite Forall_forall in Hs.
    specialize (Hs r' Hin). unfold Selection.score_desc in Hs.
    rewrite Hq in Hs. destruct (at_ k r) as [ | s | p ]; try contradiction.
    exists p. split; [ reflexivity | exact Hs ].
Qed.

(** ** Whatever order the sort leaves among equal scores *)

Lemma filter_all {A} (p : A -> bool) (l : list A) :
  Forall (fun a => p a = true) l -> filter p l = l.
Proof.
  induction 1 as [ | a l Ha _ IH ]; simpl; [ reflexivity | ].
  now rewrite Ha, IH.
Qed.

Lemma StronglySorted_filter {A} (R : A -> A -> Prop) (p : A -> bool) l :
  StronglySorted R l -> StronglySorted R (filter p l).
Proof.
  induction 1 as [ | x l Hs IH Hx ]; simpl; [ constructor | ].
  destruct (p x); [ | exact IH ].
  constructor; [ exact IH | ].
  rewrite Forall_forall in *. intros y Hy. apply Hx.
  now apply filter_In in Hy.
Qed.

Lemma drop_duplicates_from_sorted (R : row -> row -> Prop) i seen l :
  StronglySorted R l -> StronglySorted R (drop_duplicates_from i seen l).
Proof.
  intros H. revert seen. induction H as [ | x l Hs IH Hx ]; intros seen; simpl.
  - constructor.
  - destruct (existsb (cell_eqb (at_ i x)) seen); [ apply IH | ].
    constructor; [ apply IH | ].
    rewrite Forall_forall in *. intros y Hy. apply Hx.
    exact (drop_duplicates_from_In _ _ _ _ Hy).
Qed.

Lemma sorted_scores_split k l :
  StronglySorted (Selection.score_desc k) l ->
  l = filter (fun r => negb (isna (at_ k r))) l
      ++ filter (fun r => isna (at_ k r)) l.
Proof.
  induction 1 as [ | x l Hs IH Hx ]; simpl; [ reflexivity | ].
  destruct (isna (at_ k x)) eqn:E; simpl.
  - assert (Hall : Forall (fun r => isna (at_ k r) = true) l).
    { eapply Forall_impl; [ | exact Hx ]. intros y Hy.
      unfold Selection.score_desc in Hy.
      destruct (at_ k x); try discriminate.
      destruct (at_ k y); try contradiction. reflexivity. }
    rewrite (filter_all _ _ Hall).
    rewrite filter_none; [ reflexivity | ].
    eapply Forall_impl; [ | exact Hall ]. intros y Hy. simpl. now rewrite Hy.
  - now rewrite <- IH.
Qed.

Lemma filter_perm {A} (f : A -> bool) (l l' : list A) :
  Permutation l l' -> Permutation (filter f l) (filter f l').
Proof.
  induction 1 as [ | x l l' _ IH | x y l | l l' l'' _ IH1 _ IH2 ]; simpl.
  - constructor.
  - destruct (f x); [ now constructor | exact IH ].
  - destruct (f x), (f y); try reflexivity. apply perm_swap.
  - now transitivity (filter f l').
Qed.

Lemma score_keys_perm k l l' :
  Permutation l l' ->
  Permutation (Selection.score_keys k l) (Selection.score_keys k l').
Proof. intros H. unfold Selection.score_keys. now rewrite H. Qed.

Lemma score_keys_In k l q :
  In q (Selection.score_keys k l) <->
  exists r p, In r l /\ at_ k r = Num p /\ q = Qred p.
Proof.
  unfold Selection.score_keys. rewrite in_flat_map. split.
  - intros (r & Hr & Hq). destruct (at_ k r) as [ | t | p ] eqn:E;
      simpl in Hq; try contradiction.
    destruct Hq as [ <- | [] ]. now exists r, p.
  - intros (r & p & Hr & Hp & ->). exists r. split; [ exact Hr | ].
    rewrite Hp. now left.
Qed.

Lemma score_keys_filter k (f : row -> bool) l :
  NoDup (Selection.score_keys k l) ->
  NoDup (Selection.score_keys k (filter f l)).
Proof.
  intros H.
  pose proof (score_keys_perm k _ _ (filter_split_perm f l)) as Hp.
  apply Permutation_sym in Hp.
  apply (Permutation_NoDup Hp) in H.
  unfold Selection.score_keys in H. rewrite flat_map_app in H.
  exact (NoDup_app_remove_l _ _ H).
Qed.

Lemma score_keys_drop_duplicates k i seen l :
  NoDup (Selection.score_keys k l) ->
  NoDup (Selection.score_keys k (drop_duplicates_from i seen l)).
Proof.
  revert seen. induction l as [ | r l IH ]; intros seen H; simpl.
  - constructor.
  - assert (Hl : NoDup (Selection.score_keys k l)).
    { unfold Selection.score_keys in H. simpl in H.
      exact (NoDup_app_remove_l _ _ H). }
    destruct (existsb (cell_eqb (at_ i r)) seen); [ now apply IH | ].
    unfold Selection.score_keys in *. simpl in *.
    destruct (at_ k r) as [ | t | p ]; simpl in *; try now apply IH.
    inversion H as [ | ? ? Hnotin _ ]; subst.
    constructor; [ | now apply IH ].
    intros Hin. apply Hnotin.
    apply (score_keys_In k) in Hin as (r' & p' & Hr' & Hp' & Hq).
    apply (score_keys_In k). exists r', p'.
    split; [ exact (drop_duplicates_from_In _ _ _ _ Hr') | now split ].
Qed.

(** Two lists of rows with pairwise different scores, none missing, that
    hold the same rows in descending order of the score are the same
    list. *)
Lemma sorted_by_distinct_scores_unique k (l1 l2 : list row) :
  Permutation l1 l2 ->
  Forall (fun r => isna (at_ k r) = false) l1 ->
  NoDup (Selection.score_keys k l1) ->
  StronglySorted (Selection.score_desc k) l1 ->
  StronglySorted (Selection.score_desc k) l2 ->
  l1 = l2.
Proof.
  revert l2. induction l1 as [ | x l1 IH ]; intros l2 Hperm Hnn Hnd Hs1 Hs2.
  - symmetry. now apply Permutation_nil.
  - destruct l2 as [ | y l2 ].
    { apply Permutation_sym, Permutation_nil in Hperm. discriminate. }
    assert (Hxy : x = y).
    { assert (Hx : In x (y :: l2)) by (apply (Permutation_in _ Hperm); now left).
      destruct Hx as [ Hx | Hx ]; [ now symmetry | ].
      assert (Hy : In y (x :: l1)).
      { apply (Permutation_in _ (Permutation_sym Hperm)). now left. }
      destruct Hy as [ Hy | Hy ]; [ exact Hy | ]. exfalso.
      inversion Hs1 as [ | ? ? _ Hx1 ]; subst.
      inversion Hs2 as [ | ? ? _ Hy2 ]; subst.
      rewrite Forall_forall in Hx1, Hy2.
      specialize (Hx1 y Hy). specialize (Hy2 x Hx).
      inversion Hnn as [ | ? ? Hxn _ ]; subst.
      unfold Selection.score_desc in Hx1, Hy2.
      destruct (at_ k x) as [ | t | q ] eqn:Ex; try discriminate;
        destruct (at_ k y) as [ | t' | p ] eqn:Ey; try contradiction.
      assert (Hqp : (q == p)%Q) by now apply Qle_antisym.
      unfold Selection.score_keys in Hnd. simpl in Hnd. rewrite Ex in Hnd.
      simpl in Hnd. inversion Hnd as [ | ? ? Hnotin _ ]; subst.
      apply Hnotin. apply (score_keys_In k). exists y, p.
      split; [ exact Hy | ]. split; [ exact Ey | now apply Qred_complete ]. }
    subst y. f_equal. apply IH.
    + exact (Permutation_cons_inv Hperm).
    + now inversion Hnn.
    + unfold Selection.score_keys in Hnd. simpl in Hnd.
      exact (NoDup_app_remove_l _ _ Hnd).
    + now inversion Hs1.
    + now inversion Hs2.
Qed.

Lemma score_keys_without_missing k l :
  Selection.score_keys k (filter (fun r => negb (isna (at_ k r))) l)
  = Selection.score_keys k l.
Proof.
  unfold Selection.score_keys.
  induction l as [ | r l IH ]; simpl; [ reflexivity | ].
  destruct (at_ k r) eqn:E; simpl; rewrite ?E, ?IH; reflexivity.
Qed.

(** With pairwise different scores the sort has one outcome only. *)
Lemma sort_outcome_unique k rs s1 s2 :
  NoDup (Selection.score_keys k rs) ->
  Selection.sort_outcome k rs s1 ->
  Selection.sort_outcome k rs s2 ->
  s1 = s2.
Proof.
  intros Hnd (Hp1 & Hs1 & Hm1) (Hp2 & Hs2 & Hm2).
  rewrite (sorted_scores_split k s1 Hs1), (sorted_scores_split k s2 Hs2).
  unfold Selection.no_score in Hm1, Hm2. rewrite Hm1, Hm2. f_equal.
  apply (sorted_by_distinct_scores_unique k).
  - apply filter_perm. now rewrite Hp1, Hp2.
  - apply Forall_forall. intros r Hr. apply filter_In in Hr as [ _ Hr ].
    now apply negb_true_iff.
  - rewrite score_keys_without_missing.
    exact (Permutation_NoDup (Permutation_sym (score_keys_perm k _ _ Hp1)) Hnd).
  - now apply StronglySorted_filter.
  - now apply StronglySorted_filter.
Qed.

(** The stable sort of the model gives one of the outcomes. *)
Lemma nargsort_desc_outcome k rs :
  Selection.numeric_scores k rs ->
  Selection.sort_outcome k rs (nargsort_desc k rs).
Proof.
  intros Hnum. split; [ apply nargsort_desc_perm | ].
  split; [ now apply nargsort_desc_sorted | ].
  apply nargsort_desc_missing_last.
Qed.

Lemma highest_score_agrees i k kept s1 s2 r1 :
  Selection.numeric_scores k kept ->
  Selection.sort_outcome k kept s1 ->
  Selection.sort_outcome k kept s2 ->
  In r1 (drop_duplicates_from i [] s1) ->
  exists r2,
    In r2 (drop_duplicates_from i [] s2)
    /\ Selection.same_structure i r1 r2 = true
    /\ cell_eqb (at_ k r1) (at_ k r2) = true.
Proof.
  intros Hnum (Hp1 & Hs1 & _) (Hp2 & Hs2 & _) Hr1.
  assert (Hk1 : In r1 kept).
  { apply (Permutation_in _ Hp1). exact (drop_duplicates_from_In _ _ _ _ Hr1). }
  assert (Hin2 : In r1 s2) by exact (Permutation_in _ (Permutation_sym Hp2) Hk1).
  destruct (drop_duplicates_from_covers i [] s2 r1 Hin2) as [ H | (r2 & Hr2 & Hsame) ];
    [ discriminate H | ].
  exists r2. split; [ exact Hr2 | ]. split; [ exact Hsame | ].
  assert (Hsame' : Selection.same_structure i r2 r1 = true).
  { unfold Selection.same_structure in *. now rewrite cell_eqb_sym. }
  assert (Hk2 : In r2 kept).
  { apply (Permutation_in _ Hp2). exact (drop_duplicates_from_In _ _ _ _ Hr2). }
  assert (Hin1 : In r2 s1) by exact (Permutation_in _ (Permutation_sym Hp1) Hk2).
  unfold Selection.numeric_scores in Hnum. rewrite Forall_forall in Hnum.
  pose proof (Hnum r1 Hk1) as Hn1. pose proof (Hnum r2 Hk2) as Hn2.
  destruct (at_ k r1) as [ | t1 | q1 ] eqn:E1; try discriminate;
    destruct (at_ k r2) as [ | t2 | q2 ] eqn:E2; try discriminate.
  - reflexivity.
  - destruct (highest_score_wins i k s1 r1 r2 q2 Hs1 Hr1 Hin1 Hsame' E2)
      as (p & Hp & _). congruence.
  - destruct (highest_score_wins i k s2 r2 r1 q1 Hs2 Hr2 Hin2 Hsame E1)
      as (p & Hp & _). congruence.
  - destruct (highest_score_wins i k s1 r1 r2 q2 Hs1 Hr1 Hin1 Hsame' E2)
      as (p1 & Hp1' & Hle1).
    destruct (highest_score_wins i k s2 r2 r1 q1 Hs2 Hr2 Hin2 Hsame E1)
      as (p2 & Hp2' & Hle2).
    assert (p1 = q1) by congruence. assert (p2 = q2) by congruence. subst.
    simpl. apply Qeq_bool_iff. now apply Qle_antisym.
Qed.

(** ** Sorting, then keeping the first row of each structure *)

(** C4, as the code behaves.  A call that returns keeps the rows whose
    structure is not null.  With deduplication disabled nothing more is
    done: the rows stay in the order of the input, unsorted.  With
    deduplication enabled the rows are first reordered: without an MQScore
    column, or with scores that cannot be compared, the order is unchanged
    (the failure of the sort is tolerated); with scores that are numbers or
    missing, the rows are in descending order of the score, the rows
    without score last and in the order they had.  Then the first row of
    each structure value is kept: no two rows put out share their
    structure, every structure of the sorted rows is put out, and the row
    put out for a structure has a score at least as high as any row with
    that structure.

    The order the sort leaves among rows of equal score is not fixed by
    the program (the default sort of pandas is not stable), and nothing
    above depends on it: for every outcome of the sort, the rows kept are
    in descending order of the score, hold each structure once, with a
    highest score of that structure; two outcomes give the same structures
    with the same scores.

    The rows (0.5, A), (0.9, A), (0.2, B) give (A, 0.9), (B, 0.2), whatever
    the sort. *)
Theorem prepare_sorts_then_keeps_first :
  (forall df cn pc sc dd up w w' out,
      Prepare.prepare_for_virtual_metabolization df cn pc sc dd up w
      = (w', Ok out) ->
      exists c i,
        Selection.structure_column pc sc up = Some c
        /\ col_index c (columns df) = Some i
        /\ list_smiles w' = map (at_ i) (rows out)
        /\ (dd = false -> rows out = Selection.without_nan i (rows df))
        /\ (dd = true ->
            exists sorted,
              rows out = drop_duplicates_from i [] sorted
              /\ Permutation sorted (Selection.without_nan i (rows df))
              /\ (col_index "MQScore" (columns df) = None ->
                  sorted = Selection.without_nan i (rows df))
              /\ (forall k,
                     col_index "MQScore" (columns df) = Some k ->
                     comparable (map (at_ k) (Selection.without_nan i (rows df)))
                     = false ->
                     sorted = Selection.without_nan i (rows df))
              /\ (forall k,
                     col_index "MQScore" (columns df) = Some k ->
                     Selection.numeric_scores
                       k (Selection.without_nan i (rows df)) ->
                     Selection.sort_outcome
                       k (Selection.without_nan i (rows df)) sorted
                     /\ (forall r r' q,
                            In r (rows out) ->
                            In r' (Selection.without_nan i (rows df)) ->
                            Selection.same_structure i r' r = true ->
                            at_ k r' = Num q ->
                            exists p, at_ k r = Num p /\ (q <= p)%Q))
              /\ (forall r, In r (rows out) ->
                     exists before after,
                       sorted = before ++ r :: after
                       /\ Forall (fun r' => Selection.same_structure i r' r
                                            = false) before)
              /\ (forall r, In r sorted ->
                     exists r', In r' (rows out)
                                /\ Selection.same_structure i r r' = true)
              /\ ForallOrdPairs
                   (fun a b => Selection.same_structure i a b = false)
                   (rows out)))
  /\ (forall i k kept sorted,
         Selection.sort_outcome k kept sorted ->
         StronglySorted (Selection.score_desc k)
                        (drop_duplicates_from i [] sorted)
         /\ ForallOrdPairs
              (fun a b => Selection.same_structure i a b = false)
              (drop_duplicates_from i [] sorted)
         /\ (forall r, In r kept ->
                exists r', In r' (drop_duplicates_from i [] sorted)
                           /\ Selection.same_structure i r r' = true)
         /\ (forall r r' q,
                In r (drop_duplicates_from i [] sorted) ->
                In r' kept ->
                Selection.same_structure i r' r = true ->
                at_ k r' = Num q ->
                exists p, at_ k r = Num p /\ (q <= p)%Q))
  /\ (forall i k kept sorted1 sorted2,
         Selection.numeric_scores k kept ->
         Selection.sort_outcome k kept sorted1 ->
         Selection.sort_outcome k kept sorted2 ->
         forall r1,
           In r1 (drop_duplicates_from i [] sorted1) ->
           exists r2,
             In r2 (drop_duplicates_from i [] sorted2)
             /\ Selection.same_structure i r1 r2 = true
             /\ cell_eqb (at_ k r1) (at_ k r2) = true)
  /\ (Selection.without_nan 1 (rows Examples.scored) = rows Examples.scored
      /\ forall sorted,
           Selection.sort_outcome 2 (rows Examples.scored) sorted ->
           drop_duplicates_from 1 [] sorted
           = [ [ Str "second"; Str "A"; Num (9 # 10) ];
               [ Str "third"; Str "B"; Num (2 # 10) ] ])
  /\ (let run := Prepare.prepare_for_virtual_metabolization
                   Examples.scored "Compound_Name" "smiles" None true true
                   Examples.empty_world in
      snd run = Ok (mkDF [ "Compound_Name"; "smiles"; "MQScore" ]
                         [ [ Str "second"; Str "A"; Num (9 # 10) ];
                           [ Str "third"; Str "B"; Num (2 # 10) ] ])
      /\ list_compound_name (fst run) = [ Str "second"; Str "third" ]
      /\ list_smiles (fst run) = [ Str "A"; Str "B" ]).
Proof.
  split; [ | split; [ | split; [ | split ] ] ].
  - intros df cn pc sc dd up w w' out H.
    apply prepare_returns in H as (c & i & n & Hsc & Hc & Hn & Hout & Hw).
    exists c, i. split; [ exact Hsc | ]. split; [ exact Hc | ].
    split; [ subst w'; reflexivity | ].
    subst out. cbn [rows]. unfold Selection.selected_rows.
    set (kept := Selection.without_nan i (rows df)).
    split; [ intros ->; reflexivity | ].
    intros ->. exists (Selection.sorted_or_same (columns df) kept).
    split; [ reflexivity | ].
    split; [ apply sorted_or_same_perm | ].
    split; [ apply sorted_or_same_no_column | ].
    split; [ intros k; apply sorted_or_same_incomparable | ].
    split.
    { intros k Hk Hnum. rewrite (sorted_or_same_numeric _ _ _ Hk Hnum).
      pose proof (nargsort_desc_sorted k kept Hnum) as Hsorted.
      split; [ now apply nargsort_desc_outcome | ].
      intros r r' q Hr Hr' Hsame Hq.
      apply (highest_score_wins i k _ r r' q Hsorted Hr); try assumption.
      apply (Permutation_in _ (Permutation_sym (nargsort_desc_perm k kept))).
      exact Hr'. }
    split.
    { intros r Hr. exact (proj2 (drop_duplicates_from_first _ _ _ _ Hr)). }
    split.
    { intros r Hr.
      destruct (drop_duplicates_from_covers i [] _ r Hr) as [ H | H ];
        [ discriminate H | exact H ]. }
    apply drop_duplicates_from_distinct.
  - intros i k kept sorted (Hperm & Hsorted & _).
    split; [ now apply drop_duplicates_from_sorted | ].
    split; [ apply drop_duplicates_from_distinct | ].
    split.
    + intros r Hr.
      assert (Hin : In r sorted)
        by exact (Permutation_in _ (Permutation_sym Hperm) Hr).
      destruct (drop_duplicates_from_covers i [] _ r Hin) as [ H | H ];
        [ discriminate H | exact H ].
    + intros r r' q Hr Hr' Hsame Hq.
      apply (highest_score_wins i k sorted r r' q Hsorted Hr); try assumption.
      exact (Permutation_in _ (Permutation_sym Hperm) Hr').
  - intros i k kept sorted1 sorted2 Hnum H1 H2 r1 Hr1.
    exact (highest_score_agrees i k kept sorted1 sorted2 r1 Hnum H1 H2 Hr1).
  - split; [ reflexivity | ].
    intros sorted Hsorted.
    assert (Hnum : Selection.numeric_scores 2 (rows Examples.scored))
      by (repeat constructor).
    assert (Hnd : NoDup (Selection.score_keys 2 (rows Examples.scored))).
    { vm_compute. repeat constructor; simpl; intuition discriminate. }
    rewrite (sort_outcome_unique 2 _ _ _ Hnd Hsorted
                                 (nargsort_desc_outcome 2 _ Hnum)).
    reflexivity.
  - repeat split; reflexivity.
Qed.

Lemma prepare_sorts_then_keeps_first_witness :
  (exists sorted,
      [ [ Str "second"; Str "A"; Num (9 # 10) ];
        [ Str "third"; Str "B"; Num (2 # 10) ] ]
      = drop_duplicates_from 1 [] sorted
      /\ Permutation sorted (rows Examples.scored))
  /\ StronglySorted
       (Selection.score_desc 2)
       (drop_duplicates_from
          1 [] [ [ Str "second"; Str "A"; Num (9 # 10) ];
                 [ Str "first"; Str "A"; Num (5 # 10) ];
                 [ Str "third"; Str "B"; Num (2 # 10) ] ]).
Proof.
  split.
  - destruct (proj1 prepare_sorts_then_keeps_first
                    Examples.scored "Compound_Name" "smiles" None true true
                    Examples.empty_world _ _ eq_refl)
      as (c & i & Hsc & Hc & _ & _ & Hdd).
    injection Hsc as <-. vm_compute in Hc. injection Hc as <-.
    destruct (Hdd eq_refl) as (sorted & Hrows & Hperm & _).
    exists sorted. split; [ exact Hrows | exact Hperm ].
  - refine (proj1 (proj1 (proj2 prepare_sorts_then_keeps_first)
                         1%nat 2%nat (rows Examples.scored) _ _)).
    split; [ apply perm_swap | ]. split; [ | reflexivity ].
    repeat constructor; unfold Selection.score_desc, Qle; simpl; lia.
Defined.

(** C4 as stated fails: the sort is part of the deduplication.  With
    deduplication disabled, the three rows of the example are put out in
    the order of the input, scores 0.5, 0.9, 0.2, which is not descending. *)
Lemma prepare_without_dedup_does_not_sort :
  (let run := Prepare.prepare_for_virtual_metabolization
                Examples.scored "Compound_Name" "smiles" None false true
                Examples.empty_world in
   snd run = Ok Examples.scored
   /\ list_compound_name (fst run) = [ Str "first"; Str "second"; Str "third" ]
   /\ list_smiles (fst run) = [ Str "A"; Str "A"; Str "B" ])
  /\ map (at_ 2) (rows Examples.scored)
     = [ Num (5 # 10); Num (9 # 10); Num (2 # 10) ]
  /\ ~ StronglySorted (Selection.score_desc 2) (rows Examples.scored).
Proof.
  split; [ repeat split; reflexivity | ].
  split; [ reflexivity | ].
  intros H. apply StronglySorted_inv in H as [ _ H ].
  apply Forall_inv in H. unfold Selection.score_desc in H. cbn in H.
  unfold Qle in H. cbn in H. lia.
Qed.

(* ================================================================== *)
(** * Further properties of the code                                   *)
(* ================================================================== *)

(** ** AnnotationValidator: what is kept, what makes it fail *)

Lemma distinct_from_covers seen l c :
  In c l ->
  existsb (cell_eqb c) seen = true
  \/ exists c', In c' (distinct_from seen l) /\ cell_eqb c c' = true.
Proof.
  revert seen. induction l as [ | c0 l IH ]; intros seen; simpl.
  - tauto.
  - intros [ <- | Hin ].
    + destruct (existsb (cell_eqb c0) seen) eqn:E.
      * now left.
      * right. exists c0. split; [ now left | apply cell_eqb_refl ].
    + destruct (existsb (cell_eqb c0) seen) eqn:E.
      * exact (IH seen Hin).
      * destruct (IH (c0 :: seen) Hin) as [ H | (c' & Hc' & He) ].
        -- simpl in H. apply orb_true_iff in H as [ H | H ].
           ++ right. exists c0. split; [ now left | exact H ].
           ++ now left.
        -- right. exists c'. split; [ now right | exact He ].
Qed.

Lemma distinct_from_In seen l c : In c (distinct_from seen l) -> In c l.
Proof.
  revert seen. induction l as [ | c0 l IH ]; intros seen; simpl.
  - tauto.
  - destruct (existsb (cell_eqb c0) seen).
    + intros H. right. exact (IH _ H).
    + intros [ H | H ]; [ now left | right; exact (IH _ H) ].
Qed.

Lemma strings_of_Some_iff l :
  (exists ss, Prepare.strings_of l = Some ss)
  <-> Forall (fun c => is_str c = true) l.
Proof.
  induction l as [ | c l IH ]; simpl.
  - split; [ constructor | now exists [] ].
  - destruct c as [ | s | q ]; simpl.
    + split; [ intros (ss & H); discriminate
             | intros H; inversion H; discriminate ].
    + split.
      * intros (ss & H). constructor; [ reflexivity | ].
        apply IH.
        destruct (Prepare.strings_of l) as [ ss' | ]; [ | discriminate ].
        now exists ss'.
      * intros H. inversion H as [ | ? ? _ Hl ]; subst.
        apply IH in Hl as (ss & ->). now exists (s :: ss).
    + split; [ intros (ss & H); discriminate
             | intros H; inversion H; discriminate ].
Qed.

Lemma cell_eqb_is_str a b : cell_eqb a b = true -> is_str a = is_str b.
Proof. destruct a, b; simpl; try discriminate; reflexivity. Qed.

Lemma strings_of_set_of l :
  (exists ss, Prepare.strings_of (set_of l) = Some ss)
  <-> Forall (fun c => is_str c = true) l.
Proof.
  rewrite strings_of_Some_iff. unfold set_of. rewrite !Forall_forall. split.
  - intros H c Hc.
    destruct (distinct_from_covers [] l c Hc) as [ Hs | (c' & Hc' & He) ];
      [ discriminate Hs | ].
    rewrite (cell_eqb_is_str _ _ He). now apply H.
  - intros H c Hc. apply H. exact (distinct_from_In _ _ _ Hc).
Qed.



(** X2: with its columns present and at least one string in the identifier
    column (so that pandas gives the column its [.str] accessor), the
    validator returns exactly when every row it discards has a string as
    compound name; a discarded row whose name is missing (or a number)
    makes it raise [TypeError], and nothing is returned. *)
Theorem validator_fails_on_unnamed_discard :
  forall df inchi smiles planar w i s n,
    col_index inchi (columns df) = Some i ->
    Exists (fun r => is_str (at_ i r) = true) (rows df) ->
    col_index smiles (columns df) = Some s ->
    (forall p, planar = Some p -> col_index p (columns df) <> None) ->
    col_index "Compound_Name" (columns df) = Some n ->
    let discarded :=
      filter (fun r => negb (str_startswith "InChI" false (at_ i r)))
             (rows df) in
    (Forall (fun r => is_str (at_ n r) = true) discarded ->
     snd (Prepare.get_info_gnps_annotations df inchi smiles planar w)
     = Ok (select (fun r => str_startswith "InChI" false (at_ i r)) df))
    /\ (~ Forall (fun r => is_str (at_ n r) = true) discarded ->
        snd (Prepare.get_info_gnps_annotations df inchi smiles planar w)
        = Raise TypeError).
Proof.
  intros df inchi smiles planar w i s n Hi _ Hs Hp Hn discarded.
  rewrite get_info_result, Hi, Hs, Hn.
  assert (Hplanar : exists k, match planar with
                              | Some p => getitem df p
                              | None => Ok 0%nat
                              end = Ok k).
  { destruct planar as [ p | ]; [ | now exists 0%nat ].
    unfold getitem. specialize (Hp p eq_refl).
    destruct (col_index p (columns df)) as [ k | ];
      [ now exists k | congruence ]. }
  destruct Hplanar as (k & ->). fold discarded.
  pose proof (strings_of_set_of (map (at_ n) discarded)) as Hiff.
  rewrite Forall_map in Hiff.
  destruct (Prepare.strings_of (set_of (map (at_ n) discarded))) as [ ss | ].
  - split; [ reflexivity | ].
    intros Hnot. exfalso. apply Hnot. apply Hiff. now exists ss.
  - split; [ | reflexivity ].
    intros Hall. apply Hiff in Hall as (ss & Hss). discriminate.
Qed.

Lemma validator_fails_on_unnamed_discard_witness :
  snd (Prepare.get_info_gnps_annotations
         Examples.unnamed_discard "Consol_InChI" "Consol_SMILES" None
         Examples.empty_world)
  = Raise TypeError.
Proof.
  refine (proj2 (validator_fails_on_unnamed_discard
                   Examples.unnamed_discard "Consol_InChI" "Consol_SMILES"
                   None Examples.empty_world 1%nat 2%nat 0%nat
                   eq_refl _ eq_refl _ eq_refl) _).
  - apply Exists_cons_tl. apply Exists_cons_hd. reflexivity.
  - intros p Hp. discriminate Hp.
  - cbn. intros H. apply Forall_inv in H. discriminate H.
Defined.

(** ** NameFilter: one allow-list, the empty allow-list *)

Lemma filter_false {A} (l : list A) : filter (fun _ => false) l = [].
Proof. induction l; simpl; auto. Qed.

(** X3: an allow-list that is given always filters, the empty one too: with
    a name list alone NameFilter returns the rows whose name is a string of
    the list, in the order of the input, and prints nothing; with the empty
    name list it returns no row at all; a row whose name is missing is
    never selected.  Without the Compound_Name column it raises
    [AttributeError]. *)
Theorem name_filter_single_list :
  (forall df names i w,
      col_index "Compound_Name" (columns df) = Some i ->
      Prepare.df_annotations_filtering df (Some names) None w
      = (w, Ok (mkDF (columns df)
                     (filter (fun r => isin names (at_ i r)) (rows df))))
      /\ (forall r, In r (filter (fun r => isin names (at_ i r)) (rows df)) <->
                    In r (rows df)
                    /\ exists s, at_ i r = Str s /\ In s names)
      /\ Prepare.df_annotations_filtering df (Some []) None w
         = (w, Ok (mkDF (columns df) [])))
  /\ (forall df names tags w,
         col_index "Compound_Name" (columns df) = None ->
         Prepare.df_annotations_filtering df (Some names) tags w
         = (w, Raise (AttributeError "Compound_Name"))).
Proof.
  split.
  - intros df names i w Hi.
    unfold Prepare.df_annotations_filtering, bind, lift, ret, select.
    rewrite (col_index_getattr _ _ _ Hi). split; [ reflexivity | ]. split.
    + intros r. rewrite filter_In. split; intros [ Hin Hp ]; split;
        try exact Hin.
      * destruct (at_ i r) as [ | s | q ]; simpl in Hp; try discriminate.
        exists s. split; [ reflexivity | ]. now apply existsb_eqb_In.
      * destruct Hp as (s & -> & Hs). simpl. now apply existsb_eqb_In.
    + f_equal. f_equal. f_equal.
      rewrite <- (filter_false (rows df)). apply filter_ext.
      intros r. unfold isin. now destruct (at_ i r).
  - intros df names tags w Hn.
    unfold Prepare.df_annotations_filtering, bind, lift, getattr.
    rewrite Hn. reflexivity.
Qed.

Lemma name_filter_single_list_witness :
  Prepare.df_annotations_filtering Examples.tagged (Some []) None
                                   Examples.empty_world
  = (Examples.empty_world, Ok (mkDF [ "Compound_Name"; "tags" ] [])).
Proof.
  exact (proj2 (proj2 (proj1 name_filter_single_list
                             Examples.tagged [] 0%nat Examples.empty_world
                             eq_refl))).
Defined.

(** ** DeduplicatingSelector: failure, repetition, completeness *)

(** X4: on a frame with distinct column labels whose structure column,
    when it is there, holds at least one string (so that pandas gives it
    its [.str] accessor), the selector raises only [KeyError] (a failure of
    the sort is swallowed), and exactly when the structure column or the
    name column is not in the frame; the stereo column left at its default
    [False] is such a missing column.  A call that raises leaves the
    accumulator, and the whole world, as they were. *)
Theorem prepare_failure_leaves_accumulator :
  forall df cn pc sc dd up w,
    NoDup (columns df) ->
    (forall c i,
        Selection.structure_column pc sc up = Some c ->
        col_index c (columns df) = Some i ->
        Exists (fun r => is_str (at_ i r) = true) (rows df)) ->
    (forall w' e,
        Prepare.prepare_for_virtual_metabolization df cn pc sc dd up w
        = (w', Raise e) ->
        w' = w /\ exists key, e = KeyError key)
    /\ ((exists w' e,
            Prepare.prepare_for_virtual_metabolization df cn pc sc dd up w
            = (w', Raise e))
        <-> (forall c, Selection.structure_column pc sc up = Some c ->
                       col_index c (columns df) = None
                       \/ col_index cn (columns df) = None))
    /\ Prepare.prepare_for_virtual_metabolization df cn pc None dd false w
       = (w, Raise (KeyError "False")).
Proof.
  intros df cn pc sc dd up w _ _.
  assert (Hrun : forall oc,
             bind (Prepare.select_structures df cn oc dd)
                  (fun out0 =>
                     let '(df_annotations, list_compound_name, list_smiles) :=
                       out0 in
                     bind (set_prepare_attributes list_compound_name list_smiles)
                          (fun _ => ret df_annotations)) w
             = match oc with
               | None => (w, Raise (KeyError "False"))
               | Some c =>
                   match col_index c (columns df) with
                   | None => (w, Raise (KeyError c))
                   | Some i =>
                       match col_index cn (columns df) with
                       | None => (w, Raise (KeyError cn))
                       | Some n =>
                           let rs := Selection.selected_rows (columns df) i dd
                                                             (rows df) in
                           (fst (set_prepare_attributes (map (at_ n) rs)
                                                        (map (at_ i) rs) w),
                            Ok (mkDF (columns df) rs))
                       end
                   end
               end).
  { intros [ c | ]; unfold bind at 1.
    - rewrite select_structures_run.
      destruct (col_index c (columns df)); [ | reflexivity ].
      cbv zeta. destruct (col_index cn (columns df)); reflexivity.
    - rewrite select_structures_run_False. reflexivity. }
  assert (Heq : Prepare.prepare_for_virtual_metabolization df cn pc sc dd up w
                = match Selection.structure_column pc sc up with
                  | None => (w, Raise (KeyError "False"))
                  | Some c =>
                      match col_index c (columns df) with
                      | None => (w, Raise (KeyError c))
                      | Some i =>
                          match col_index cn (columns df) with
                          | None => (w, Raise (KeyError cn))
                          | Some n =>
                              let rs := Selection.selected_rows
                                          (columns df) i dd (rows df) in
                              (fst (set_prepare_attributes (map (at_ n) rs)
                                                           (map (at_ i) rs) w),
                               Ok (mkDF (columns df) rs))
                          end
                      end
                  end).
  { unfold Prepare.prepare_for_virtual_metabolization,
      Selection.structure_column.
    destruct up; [ exact (Hrun (Some pc)) | exact (Hrun sc) ]. }
  split; [ | split ].
  - intros w' e. rewrite Heq.
    destruct (Selection.structure_column pc sc up) as [ c | ].
    + destruct (col_index c (columns df)).
      * destruct (col_index cn (columns df)); [ discriminate | ].
        intros [= <- <-]. split; [ reflexivity | now exists cn ].
      * intros [= <- <-]. split; [ reflexivity | now exists c ].
    + intros [= <- <-]. split; [ reflexivity | now exists "False" ].
  - rewrite Heq.
    destruct (Selection.structure_column pc sc up) as [ c | ].
    + destruct (col_index c (columns df)) as [ i | ] eqn:Hc.
      * destruct (col_index cn (columns df)) as [ n | ] eqn:Hn.
        -- split.
           ++ intros (w' & e & H). discriminate H.
           ++ intros H. destruct (H c eq_refl) as [ H' | H' ]; congruence.
        -- split; [ intros _ c' [= <-]; now right | ].
           intros _. now exists w, (KeyError cn).
      * split; [ intros _ c' [= <-]; now left | ].
        intros _. now exists w, (KeyError c).
    + split; [ intros _ c' H; discriminate H | ].
      intros _. now exists w, (KeyError "False").
  - apply (Hrun None).
Qed.

Lemma prepare_failure_leaves_accumulator_witness :
  exists key,
    snd (Prepare.prepare_for_virtual_metabolization
           Examples.sirius "Compound_Name" "smiles" None true true
           Examples.empty_world)
    = Raise (KeyError key).
Proof.
  pose (run := Prepare.prepare_for_virtual_metabolization
                 Examples.sirius "Compound_Name" "smiles" None true true
                 Examples.empty_world).
  assert (Hcols : NoDup (columns Examples.sirius)).
  { repeat constructor; simpl; intuition discriminate. }
  assert (Hstr : forall c i,
             Selection.structure_column "smiles" None true = Some c ->
             col_index c (columns Examples.sirius) = Some i ->
             Exists (fun r => is_str (at_ i r) = true) (rows Examples.sirius)).
  { intros c i [= <-] [= <-]. apply Exists_cons_hd. reflexivity. }
  assert (Hrun : run = (fst run, Raise (KeyError "Compound_Name"))).
  { rewrite (surjective_pairing run) at 1. f_equal. }
  destruct (proj1 (prepare_failure_leaves_accumulator
                     Examples.sirius "Compound_Name" "smiles" None true true
                     Examples.empty_world Hcols Hstr)
                  (fst run) (KeyError "Compound_Name") Hrun)
    as [ _ (key & Hkey) ].
  exists key. fold run. rewrite Hrun. cbn [snd]. now rewrite Hkey.
Defined.

Lemma cell_eqb_Str_eq (s : string) (c : cell) :
  cell_eqb (Str s) c = true -> c = Str s.
Proof.
  destruct c as [ | t | q ]; simpl; try discriminate.
  intros H. apply String.eqb_eq in H. now subst.
Qed.

Lemma selected_rows_covers cols i dd rs r :
  In r (Selection.without_nan i rs) ->
  exists r', In r' (Selection.selected_rows cols i dd rs)
             /\ Selection.same_structure i r r' = true.
Proof.
  intros Hr. unfold Selection.selected_rows. destruct dd.
  - assert (Hs : In r (Selection.sorted_or_same cols (Selection.without_nan i rs))).
    { apply (Permutation_in _ (Permutation_sym (sorted_or_same_perm _ _))).
      exact Hr. }
    destruct (drop_duplicates_from_covers i [] _ r Hs) as [ H | H ];
      [ discriminate H | exact H ].
  - exists r. split; [ exact Hr | apply cell_eqb_refl ].
Qed.

(** X5: the selector loses no structure and invents none: a string is
    among the structures it stores exactly when it occurs in the chosen
    structure column of the input and does not contain the null marker
    "nan", with or without deduplication.  (The statement is about the
    strings stored; whether a missing cell is stored depends on the version
    of pandas.) *)
Theorem prepare_keeps_every_structure :
  forall df cn pc sc dd up w w' out,
    Prepare.prepare_for_virtual_metabolization df cn pc sc dd up w
    = (w', Ok out) ->
    exists c i,
      Selection.structure_column pc sc up = Some c
      /\ col_index c (columns df) = Some i
      /\ forall s,
           In (Str s) (list_smiles w') <->
           contains "nan" s = false /\ In (Str s) (series df i).
Proof.
  intros df cn pc sc dd up w w' out H.
  apply prepare_returns in H as (c & i & n & Hsc & Hc & Hn & Hout & Hw).
  exists c, i. split; [ exact Hsc | ]. split; [ exact Hc | ].
  subst w' out. cbn [set_prepare_attributes fst list_smiles].
  unfold series. cbn [rows]. intros s. split.
  - intros Hx. apply in_map_iff in Hx as (r & Hrs & Hr).
    apply selected_rows_In in Hr as [ Hin Hnan ].
    destruct (eq_False_contains _ _ Hnan) as (s' & Hs & Hcont).
    assert (s' = s) by congruence. subst s'.
    split; [ exact Hcont | ].
    rewrite <- Hrs. now apply in_map.
  - intros (Hcont & Hin).
    apply in_map_iff in Hin as (r & Hr & Hin).
    assert (Hkept : In r (Selection.without_nan i (rows df))).
    { unfold Selection.without_nan. apply filter_In. split; [ exact Hin | ].
      rewrite Hr. simpl. now rewrite Hcont. }
    destruct (selected_rows_covers (columns df) i dd (rows df) r Hkept)
      as (r' & Hr' & Hsame).
    unfold Selection.same_structure in Hsame. rewrite Hr in Hsame.
    apply cell_eqb_Str_eq in Hsame. rewrite <- Hsame. now apply in_map.
Qed.

Lemma prepare_keeps_every_structure_witness :
  In (Str "CN1CCCC1C1=CN=CC=C1")
     (list_smiles
        (fst (Prepare.prepare_for_virtual_metabolization
                Examples.gnps "Compound_Name" "Consol_SMILES_iso"
                (Some "Consol_SMILES") true true Examples.empty_world))).
Proof.
  destruct (prepare_keeps_every_structure
              Examples.gnps "Compound_Name" "Consol_SMILES_iso"
              (Some "Consol_SMILES") true true Examples.empty_world
              _ _ eq_refl) as (c & i & Hsc & Hc & Hiff).
  injection Hsc as <-. vm_compute in Hc. injection Hc as <-.
  apply Hiff. split; [ reflexivity | ].
  cbn. tauto.
Defined.

(** *** Running the selector on its own output *)


Lemma stable_sort_sorted_id {A} (leb : A -> A -> bool) (l : list A) :
  StronglySorted (fun x y => leb x y = true) l -> stable_sort leb l = l.
Proof.
  induction 1 as [ | x l Hs IH Hx ]; simpl; [ reflexivity | ].
  rewrite IH. destruct l as [ | y l' ]; simpl; [ reflexivity | ].
  apply Forall_inv in Hx. now rewrite Hx.
Qed.


Lemma drop_duplicates_from_distinct_id i seen l :
  ForallOrdPairs (fun a b => cell_eqb (at_ i a) (at_ i b) = false) l ->
  Forall (fun r => existsb (cell_eqb (at_ i r)) seen = false) l ->
  drop_duplicates_from i seen l = l.
Proof.
  intros H. revert seen. induction H as [ | x l Hx Hl IH ]; intros seen Hseen.
  - reflexivity.
  - simpl. inversion Hseen as [ | ? ? Hxs Hls ]; subst. rewrite Hxs.
    f_equal. apply IH. rewrite Forall_forall in *. intros y Hy. simpl.
    rewrite (Hls y Hy), orb_false_r. rewrite cell_eqb_sym. now apply Hx.
Qed.


Lemma nargsort_desc_sorted_id k l :
  StronglySorted (Selection.score_desc k) l ->
  Selection.numeric_scores k l ->
  nargsort_desc k l = l.
Proof.
  intros Hs Hnum. unfold nargsort_desc.
  rewrite (sorted_scores_split k l Hs) at 3.
  f_equal.
  set (nn := filter (fun r => negb (isna (at_ k r))) l).
  assert (Hkey : StronglySorted (fun x y => key_leb k y x = true) nn).
  { assert (Hnn : StronglySorted (Selection.score_desc k) nn)
      by now apply StronglySorted_filter.
    assert (HP : Forall (fun r => exists q, at_ k r = Num q) nn).
    { apply Forall_forall. intros r Hr. apply filter_In in Hr as [ Hin Hna ].
      unfold Selection.numeric_scores in Hnum. rewrite Forall_forall in Hnum.
      specialize (Hnum r Hin).
      destruct (at_ k r) as [ | s | q ]; try discriminate. now exists q. }
    revert HP. induction Hnn as [ | x nn' Hnn IH Hx ]; intros HP; constructor.
    - apply IH. now inversion HP.
    - inversion HP as [ | ? ? (p & Hp) Hl ]; subst.
      rewrite Forall_forall in *. intros y Hy.
      destruct (Hl y Hy) as (q & Hq). specialize (Hx y Hy).
      unfold Selection.score_desc, key_leb in *. rewrite Hp, Hq in *.
      simpl. now apply Qle_bool_iff. }
  apply StronglySorted_rev in Hkey.
  rewrite (stable_sort_sorted_id (key_leb k) (rev nn) Hkey).
  apply rev_involutive.
Qed.

Lemma selected_rows_idempotent cols i dd rs :
  (forall k, col_index "MQScore" cols = Some k ->
             Selection.numeric_scores k rs) ->
  Selection.selected_rows cols i dd (Selection.selected_rows cols i dd rs)
  = Selection.selected_rows cols i dd rs.
Proof.
  intros Hnum.
  set (out := Selection.selected_rows cols i dd rs).
  assert (Hkept : Selection.without_nan i out = out).
  { unfold Selection.without_nan. apply filter_all. apply Forall_forall.
    intros r Hr. exact (proj2 (selected_rows_In _ _ _ _ _ Hr)). }
  unfold Selection.selected_rows at 1. rewrite Hkept.
  destruct dd; [ | reflexivity ].
  set (kept := Selection.without_nan i rs).
  assert (Hdistinct :
            ForallOrdPairs (fun a b => cell_eqb (at_ i a) (at_ i b) = false) out
            /\ Forall (fun r => existsb (cell_eqb (at_ i r)) [] = false) out).
  { apply drop_duplicates_from_distinct. }
  assert (Hsame : Selection.sorted_or_same cols out = out).
  { destruct (col_index "MQScore" cols) as [ k | ] eqn:Hk;
      [ | now apply sorted_or_same_no_column ].
    assert (Hnk : Selection.numeric_scores k kept).
    { unfold Selection.numeric_scores, kept, Selection.without_nan.
      specialize (Hnum k eq_refl). unfold Selection.numeric_scores in Hnum.
      rewrite Forall_forall in *. intros r Hr. apply Hnum.
      now apply filter_In in Hr. }
    assert (Hno : Selection.numeric_scores k out).
    { unfold Selection.numeric_scores in *. rewrite Forall_forall in *.
      intros r Hr. apply Hnk. unfold out, Selection.selected_rows in Hr.
      apply drop_duplicates_from_In in Hr.
      exact (Permutation_in _ (sorted_or_same_perm _ _) Hr). }
    rewrite (sorted_or_same_numeric _ _ _ Hk Hno).
    apply nargsort_desc_sorted_id; [ | exact Hno ].
    unfold out, Selection.selected_rows. fold kept.
    apply drop_duplicates_from_sorted.
    rewrite (sorted_or_same_numeric _ _ _ Hk Hnk).
    now apply nargsort_desc_sorted. }
  rewrite Hsame. apply drop_duplicates_from_distinct_id; apply Hdistinct.
Qed.

(** X6: when the score column is absent, or holds only missing values and
    numbers that are pairwise different, the selector is idempotent: run
    again, with the same arguments, on the frame it returned, it returns
    that frame and stores the same two lists.  With pairwise different
    scores the order of the rows does not depend on the array sort: with
    deduplication, every outcome of sorting the returned rows is the list
    of the returned rows itself.  (With scores that cannot be compared the
    first run leaves the rows unsorted, and a second run may sort what is
    left: the rows (A, 0.1), (B, 0.9), (A, "x") give A, B and then B, A.) *)
Theorem prepare_idempotent :
  (forall df cn pc sc dd up w w' out,
      Prepare.prepare_for_virtual_metabolization df cn pc sc dd up w
      = (w', Ok out) ->
      (forall k, col_index "MQScore" (columns df) = Some k ->
                 Selection.numeric_scores k (rows df)
                 /\ NoDup (Selection.score_keys k (rows df))) ->
      (forall w0, exists w0',
          Prepare.prepare_for_virtual_metabolization out cn pc sc dd up w0
          = (w0', Ok out)
          /\ list_compound_name w0' = list_compound_name w'
          /\ list_smiles w0' = list_smiles w')
      /\ (forall k sorted,
             dd = true ->
             col_index "MQScore" (columns df) = Some k ->
             Selection.sort_outcome k (rows out) sorted ->
             sorted = rows out))
  /\ (let first :=
        Prepare.prepare_for_virtual_metabolization
          Examples.mixed_scores "Compound_Name" "smiles" None true true
          Examples.empty_world in
      list_smiles (fst first) = [ Str "A"; Str "B" ]
      /\ exists out,
           snd first = Ok out
           /\ list_smiles
                (fst (Prepare.prepare_for_virtual_metabolization
                        out "Compound_Name" "smiles" None true true
                        Examples.empty_world))
              = [ Str "B"; Str "A" ]).
Proof.
  split.
  - intros df cn pc sc dd up w w' out H Hnum.
    apply prepare_returns in H as (c & i & n & Hsc & Hc & Hn & Hout & Hw).
    split.
    + intros w0.
      assert (Hcols : columns out = columns df) by (subst out; reflexivity).
      assert (Hc' : col_index c (columns out) = Some i) by now rewrite Hcols.
      assert (Hn' : col_index cn (columns out) = Some n) by now rewrite Hcols.
      pose proof (prepare_runs out cn pc sc dd up c i n w0 Hsc Hc' Hn') as Hrun.
      cbv zeta in Hrun.
      assert (Hidem : mkDF (columns out)
                           (Selection.selected_rows (columns out) i dd (rows out))
                      = out).
      { rewrite Hcols. subst out. cbn [rows]. f_equal.
        apply selected_rows_idempotent.
        intros k Hk. exact (proj1 (Hnum k Hk)). }
      rewrite Hidem in Hrun. eexists. split; [ exact Hrun | ].
      subst w'. split; reflexivity.
    + intros k sorted -> Hk Hsorted.
      destruct (Hnum k Hk) as [ Hnumeric Hdistinct ].
      subst out. cbn [rows] in *. unfold Selection.selected_rows in *.
      set (kept := Selection.without_nan i (rows df)) in *.
      assert (Hnk : Selection.numeric_scores k kept).
      { unfold Selection.numeric_scores, kept, Selection.without_nan in *.
        rewrite Forall_forall in *. intros r Hr. apply Hnumeric.
        now apply filter_In in Hr. }
      set (out := drop_duplicates_from
                    i [] (Selection.sorted_or_same (columns df) kept)) in *.
      apply (sort_outcome_unique k out); [ | exact Hsorted | ].
      * unfold out. apply score_keys_drop_duplicates.
        apply (Permutation_NoDup
                 (Permutation_sym
                    (score_keys_perm k _ _ (sorted_or_same_perm _ _)))).
        unfold kept, Selection.without_nan. now apply score_keys_filter.
      * split; [ reflexivity | ]. split; [ | reflexivity ].
        unfold out. apply drop_duplicates_from_sorted.
        rewrite (sorted_or_same_numeric _ _ _ Hk Hnk).
        now apply nargsort_desc_sorted.
  - split; [ reflexivity | ]. eexists. split; reflexivity.
Qed.

Lemma prepare_idempotent_witness :
  exists w0',
    Prepare.prepare_for_virtual_metabolization
      (mkDF (columns Examples.scored)
            [ [ Str "second"; Str "A"; Num (9 # 10) ];
              [ Str "third"; Str "B"; Num (2 # 10) ] ])
      "Compound_Name" "smiles" None true true Examples.empty_world
    = (w0', Ok (mkDF (columns Examples.scored)
                     [ [ Str "second"; Str "A"; Num (9 # 10) ];
                       [ Str "third"; Str "B"; Num (2 # 10) ] ])).
Proof.
  assert (Hscores : forall k,
             col_index "MQScore" (columns Examples.scored) = Some k ->
             Selection.numeric_scores k (rows Examples.scored)
             /\ NoDup (Selection.score_keys k (rows Examples.scored))).
  { intros k Hk. vm_compute in Hk. injection Hk as <-. split.
    - repeat constructor.
    - vm_compute. repeat constructor; simpl; intuition discriminate. }
  destruct (proj1 (proj1 prepare_idempotent
                         Examples.scored "Compound_Name" "smiles" None true
                         true Examples.empty_world _ _ eq_refl Hscores)
                  Examples.empty_world)
    as (w0' & Hrun & _).
  exists w0'. exact Hrun.
Defined.

(** ** ListMerger: repetition and failure *)

Lemma combine_app_same_length {A B} (l1 l2 : list A) (m1 m2 : list B) :
  List.length l1 = List.length m1 ->
  combine (l1 ++ l2) (m1 ++ m2) = combine l1 m1 ++ combine l2 m2.
Proof.
  revert m1. induction l1 as [ | a l1 IH ]; intros [ | b m1 ]; simpl;
    try discriminate; intros H.
  - reflexivity.
  - f_equal. apply IH. now injection H.
Qed.

Section ListMergerMore.
Variable ext : Externals.t.

Lemma append_loop_present names smiles (table : list (cell * string)) :
  Forall (fun p => In (Str (Prepare.clean_smiles ext (snd p))) smiles) table ->
  Prepare.append_loop ext names smiles
                      (map (fun p => (fst p, Str (snd p))) table)
  = ((names, smiles), Ok tt).
Proof.
  induction 1 as [ | [ n s ] table Hp _ IH ]; simpl; [ reflexivity | ].
  cbn [fst snd] in Hp. apply existsb_cell_eqb_Str in Hp.
  rewrite Hp. simpl. exact IH.
Qed.

Lemma append_loop_app names smiles (table : list (cell * string)) rest :
  Prepare.append_loop ext names smiles
                      (map (fun p => (fst p, Str (snd p))) table ++ rest)
  = let '(names', smiles') :=
      fst (Prepare.append_loop ext names smiles
                               (map (fun p => (fst p, Str (snd p))) table)) in
    Prepare.append_loop ext names' smiles' rest.
Proof.
  revert names smiles.
  induction table as [ | [ n s ] table IH ]; intros names smiles.
  - reflexivity.
  - cbn [map app fst snd]. rewrite !append_loop_step.
    destruct (existsb _ smiles); apply IH.
Qed.

End ListMergerMore.

(** X7: merging a table of string structures a second time changes
    nothing: after a merge, every cleaned structure of the table is in the
    accumulated list.  A merge only appends: the lists before the merge are
    prefixes of the lists after it, and lists of equal length stay of equal
    length. *)
Theorem append_to_list_if_not_present_idempotent :
  forall (ext : Externals.t) names smiles extra_names
         (extra_smiles : list string),
    let merged :=
      fst (Prepare.append_to_list_if_not_present
             ext names smiles extra_names (map Str extra_smiles)) in
    fst (Prepare.append_to_list_if_not_present
           ext (fst merged) (snd merged) extra_names (map Str extra_smiles))
    = merged
    /\ (exists new_names new_smiles,
           merged = (names ++ new_names, smiles ++ new_smiles)
           /\ List.length new_names = List.length new_smiles)
    /\ (List.length names = List.length smiles ->
        List.length (fst merged) = List.length (snd merged)).
Proof.
  intros ext names smiles extra_names extra_smiles merged.
  destruct (append_loop_added ext (combine extra_names extra_smiles)
                              names smiles)
    as (added & Heq & _ & _ & _ & Hall).
  assert (Hmerged : merged = (names ++ map fst added,
                              smiles ++ map (fun p => Str (snd p)) added)).
  { unfold merged, Prepare.append_to_list_if_not_present.
    rewrite combine_map_Str, Heq. reflexivity. }
  split; [ | split ].
  - rewrite Hmerged. cbn [fst snd].
    unfold Prepare.append_to_list_if_not_present.
    rewrite combine_map_Str, append_loop_present; [ reflexivity | ].
    apply Forall_forall. intros p Hp. apply in_or_app.
    destruct (Hall p Hp) as [ H | H ]; [ now left | right ].
    apply in_map_iff in H as (q & Hq & Hin).
    apply in_map_iff. exists q. split; [ now rewrite Hq | exact Hin ].
  - exists (map fst added), (map (fun p => Str (snd p)) added).
    split; [ exact Hmerged | now rewrite !length_map ].
  - intros Hlen. rewrite Hmerged. cbn [fst snd].
    rewrite !length_app, !length_map. lia.
Qed.

(** X8: a structure cell that is not a string (an empty cell of the file is
    read as a missing value) makes ListMerger raise [TypeError] at that
    entry: the entries before it are merged, the entries after it are not
    looked at, and the final counts are not printed. *)
Theorem append_to_list_if_not_present_stops_at_non_string :
  forall (ext : Externals.t) names smiles
         good_names (good_smiles : list string) n bad rest_names rest_smiles w,
    List.length good_names = List.length good_smiles ->
    is_str bad = false ->
    let call :=
      Prepare.append_to_list_if_not_present
        ext names smiles (good_names ++ n :: rest_names)
        (map Str good_smiles ++ bad :: rest_smiles) in
    fst call
    = fst (Prepare.append_to_list_if_not_present
             ext names smiles good_names (map Str good_smiles))
    /\ snd call w = (w, Raise TypeError).
Proof.
  intros ext names smiles good_names good_smiles n bad rest_names rest_smiles
         w Hlen Hbad call.
  unfold call, Prepare.append_to_list_if_not_present.
  rewrite combine_app_same_length by now rewrite length_map.
  rewrite !combine_map_Str, append_loop_app.
  destruct (append_loop_added ext (combine good_names good_smiles) names smiles)
    as (added & Heq & _).
  rewrite Heq. cbn [fst combine].
  destruct bad as [ | s | q ]; try discriminate Hbad; cbn; split; reflexivity.
Qed.

Lemma append_to_list_if_not_present_stops_at_non_string_witness :
  fst (Prepare.append_to_list_if_not_present
         Examples.externals [ Str "x" ] [ Str "CCO" ]
         [ Str "y"; Str "z"; Str "t" ] [ Str "CCN"; NaN; Str "CCC" ])
  = ([ Str "x"; Str "y" ], [ Str "CCO"; Str "CCN" ]).
Proof.
  exact (proj1 (append_to_list_if_not_present_stops_at_non_string
                  Examples.externals [ Str "x" ] [ Str "CCO" ]
                  [ Str "y" ] [ "CCN" ] (Str "z") NaN [ Str "t" ] [ Str "CCC" ]
                  Examples.empty_world eq_refl eq_refl)).
Defined.

(** ** Loading the extra compounds: the warning, the failures *)

(** X9: [load_extra_compounds] never prints its integrity warning: the two
    lists are two columns of one table, so they always have the same
    length.  Whatever the file, the call prints nothing, and when it
    returns the two stored lists have the same length. *)
Theorem load_extra_compounds_never_warns :
  forall path w,
    stdout (fst (Prepare.load_extra_compounds path w)) = stdout w
    /\ (snd (Prepare.load_extra_compounds path w) = Ok tt ->
        List.length (extra_compound_names
                       (fst (Prepare.load_extra_compounds path w)))
        = List.length (extra_compound_smiles
                         (fst (Prepare.load_extra_compounds path w)))).
Proof.
  intros path w.
  unfold Prepare.load_extra_compounds, bind, lift, read_file.
  destruct (files w path) as [ content | ]; [ | split; [ reflexivity | discriminate ] ].
  destruct (read_csv_tab content) as [ table | e ];
    [ | split; [ reflexivity | discriminate ] ].
  destruct (iloc_column table 0) as [ names | e ] eqn:H0;
    [ | split; [ reflexivity | discriminate ] ].
  cbn [set_extra_compound_names].
  destruct (iloc_column table 1) as [ smiles | e ] eqn:H1;
    [ | split; [ reflexivity | discriminate ] ].
  cbn [set_extra_compound_smiles].
  assert (Hlen : List.length names = List.length smiles).
  { unfold iloc_column in H0, H1.
    destruct (0 <? _)%nat; [ | discriminate ].
    destruct (1 <? _)%nat; [ | discriminate ].
    injection H0 as <-. injection H1 as <-. now rewrite !length_series. }
  rewrite Hlen, Nat.eqb_refl. cbn. split; [ reflexivity | intros _; exact Hlen ].
Qed.

Lemma load_extra_compounds_never_warns_witness :
  List.length (extra_compound_names
                 (fst (Prepare.load_extra_compounds
                         "extra_compounds.tsv" Examples.world_with_file)))
  = List.length (extra_compound_smiles
                   (fst (Prepare.load_extra_compounds
                           "extra_compounds.tsv" Examples.world_with_file))).
Proof.
  exact (proj2 (load_extra_compounds_never_warns
                  "extra_compounds.tsv" Examples.world_with_file) eq_refl).
Defined.

Lemma string_app_nil_r (s : string) : (s ++ "")%string = s.
Proof. induction s as [ | a s IH ]; simpl; [ reflexivity | now rewrite IH ]. Qed.

Lemma string_app_assoc (s t u : string) :
  ((s ++ t) ++ u)%string = (s ++ t ++ u)%string.
Proof. induction s as [ | a s IH ]; simpl; [ reflexivity | now rewrite IH ]. Qed.

Lemma split_aux_plain cur l :
  all_chars plain_char l = true ->
  split_aux tab cur l = [ (cur ++ l)%string ].
Proof.
  revert cur. induction l as [ | a l IH ]; intros cur; simpl.
  - intros _. now rewrite string_app_nil_r.
  - intros H. apply andb_true_iff in H as [ Ha Hl ].
    assert (Hn : Ascii.eqb a tab = false).
    { apply Ascii.eqb_neq. intros ->. discriminate Ha. }
    rewrite Hn, (IH _ Hl), string_app_assoc. reflexivity.
Qed.

Lemma plain_line_one_field l :
  plain_line l = true -> List.length (split tab l) = 1%nat.
Proof.
  unfold plain_line, split. intros H. apply andb_true_iff in H as [ H _ ].
  now rewrite split_aux_plain.
Qed.

(** X10: how [load_extra_compounds] fails.  A path without file raises
    [FileNotFoundError] and a file made of line ends only raises
    [EmptyDataError], both leaving the world as it was.  A file of lines
    with one field each (lines of printable characters without tab and
    without quote) raises [IndexError] after the list of names has been
    replaced: the list of structures keeps what it held before, so the two
    lists no longer belong together. *)
Theorem load_extra_compounds_failures :
  forall path w,
    (files w path = None ->
     Prepare.load_extra_compounds path w = (w, Raise (FileNotFoundError path)))
    /\ (forall content,
           files w path = Some content ->
           file_lines content = [] ->
           Prepare.load_extra_compounds path w = (w, Raise EmptyDataError))
    /\ (forall content header data,
           files w path = Some content ->
           file_lines content = header :: data ->
           Forall (fun l => plain_line l = true) (header :: data) ->
           exists w',
             Prepare.load_extra_compounds path w = (w', Raise IndexError)
             /\ List.length (extra_compound_names w') = List.length data
             /\ extra_compound_smiles w' = extra_compound_smiles w
             /\ list_compound_name w' = list_compound_name w
             /\ list_smiles w' = list_smiles w).
Proof.
  intros path w. split; [ | split ].
  - intros Hf. unfold Prepare.load_extra_compounds, bind, read_file.
    now rewrite Hf.
  - intros content Hf Hl.
    unfold Prepare.load_extra_compounds, bind, lift, read_file, read_csv_tab.
    now rewrite Hf, Hl.
  - intros content header data Hf Hl Hplain.
    assert (Hone : List.length (split tab header) = 1%nat).
    { apply plain_line_one_field. now apply Forall_inv in Hplain. }
    unfold Prepare.load_extra_compounds, bind, lift, read_file, read_csv_tab,
      iloc_column.
    rewrite Hf, Hl. cbn [columns]. rewrite Hone. cbn.
    eexists. split; [ reflexivity | ]. cbn.
    rewrite !length_map. repeat split; reflexivity.
Qed.

Lemma load_extra_compounds_failures_witness :
  Prepare.load_extra_compounds "nowhere.tsv" Examples.world_with_file
  = (Examples.world_with_file, Raise (FileNotFoundError "nowhere.tsv"))
  /\ exists w',
       Prepare.load_extra_compounds "names_only.tsv"
                                    Examples.world_with_names_only
       = (w', Raise IndexError)
       /\ List.length (extra_compound_names w') = 1%nat
       /\ extra_compound_smiles w' = [ Str "CCO" ].
Proof.
  split.
  - exact (proj1 (load_extra_compounds_failures
                    "nowhere.tsv" Examples.world_with_file) eq_refl).
  - destruct (proj2 (proj2 (load_extra_compounds_failures
                              "names_only.tsv" Examples.world_with_names_only))
                    _ "x" [ "y" ] eq_refl eq_refl)
      as (w' & Hrun & Hlen & Hsmiles & _).
    + repeat constructor.
    + exists w'. split; [ exact Hrun | ]. split; [ exact Hlen | exact Hsmiles ].
Defined.

(** ** ScoreFilter: thresholds, sentinels, failures *)

Lemma select_by_map (p : row -> bool) (rs : list row) :
  select_by (map p rs) rs = filter p rs.
Proof.
  induction rs as [ | r rs IH ]; simpl; [ reflexivity | ].
  now rewrite IH.
Qed.

Lemma all_ok_ge_scalar threshold i rs :
  Scores.numeric_column i rs ->
  all_ok (map (fun r => ge_scalar threshold (at_ i r)) rs)
  = Ok (map (fun r => Scores.meets threshold (at_ i r)) rs).
Proof.
  induction 1 as [ | r rs Hr _ IH ]; simpl; [ reflexivity | ].
  rewrite IH. destruct (at_ i r); simpl in *; try reflexivity. discriminate.
Qed.

Lemma all_ok_ge_scalar_string threshold i rs :
  ~ Scores.numeric_column i rs ->
  all_ok (map (fun r => ge_scalar threshold (at_ i r)) rs) = Raise TypeError.
Proof.
  induction rs as [ | r rs IH ]; intros Hnot; simpl.
  - exfalso. apply Hnot. constructor.
  - destruct (at_ i r) as [ | s | q ] eqn:E; simpl; try reflexivity.
    + rewrite IH; [ reflexivity | ].
      intros H. apply Hnot. constructor; [ now rewrite E | exact H ].
    + rewrite IH; [ reflexivity | ].
      intros H. apply Hnot. constructor; [ now rewrite E | exact H ].
Qed.

Section ScoreFilter.
Variable ext : Externals.t.

Lemma filter_min_score_numeric table column q i w :
  col_index column (columns table) = Some i ->
  Scores.numeric_column i (rows table) ->
  Prepare.filter_min_score table column (PyNum q) w
  = (w, Ok (select (fun r => Scores.meets q (at_ i r)) table)).
Proof.
  intros Hi Hnum. unfold Prepare.filter_min_score, bind, lift, ret.
  rewrite (col_index_getitem _ _ _ Hi). cbn [Prepare.threshold_of].
  rewrite (all_ok_ge_scalar q i _ Hnum), select_by_map. reflexivity.
Qed.

Lemma filter_min_score_sub table column score w w' out :
  Prepare.filter_min_score table column score w = (w', Ok out) ->
  w' = w /\ columns out = columns table
  /\ (forall r, In r (rows out) -> In r (rows table)).
Proof.
  unfold Prepare.filter_min_score, bind, lift, ret.
  destruct (getitem table column) as [ i | ]; [ | discriminate ].
  destruct (Prepare.threshold_of score) as [ t | ]; [ | discriminate ].
  destruct (all_ok _) as [ mask | ]; [ | discriminate ].
  intros [= <- <-]. split; [ reflexivity | ]. split; [ reflexivity | ].
  cbn [rows]. generalize (rows table). clear.
  intros rs. revert mask. induction rs as [ | r rs IH ]; intros [ | b mask ];
    simpl; try tauto.
  destruct b; simpl; intros r' H.
  - destruct H as [ H | H ]; [ now left | right; exact (IH _ _ H) ].
  - right. exact (IH _ _ H).
Qed.

Lemma filter_links_sub table links w w' out :
  Prepare.filter_links ext table links w = (w', Ok out) ->
  w' = w /\ columns out = columns table
  /\ (forall r, In r (rows out) -> In r (rows table)).
Proof.
  unfold Prepare.filter_links, bind, lift, ret, raise.
  destruct (getitem table "links") as [ i | ]; [ | discriminate ].
  destruct links as [ b | q | pattern ]; try discriminate.
  intros [= <- <-]. split; [ reflexivity | ]. split; [ reflexivity | ].
  cbn [select rows]. intros r Hr. now apply filter_In in Hr.
Qed.

End ScoreFilter.

Lemma bind_ok {A B} (m : M A) (k : A -> M B) (w w' : world) (a : A) :
  m w = (w', Ok a) -> bind m k w = k a w'.
Proof. intros H. unfold bind. now rewrite H. Qed.

Lemma filter_filter_andb {A} (p q : A -> bool) (l : list A) :
  filter q (filter p l) = filter (fun a => p a && q a) l.
Proof.
  induction l as [ | a l IH ]; simpl; [ reflexivity | ].
  destruct (p a); simpl; [ destruct (q a); now rewrite IH | exact IH ].
Qed.

(** X11: two thresholds given in one call are a conjunction.  With numeric
    score columns and thresholds that differ from 0, ScoreFilter returns
    the rows whose ZodiacScore and ConfidenceScore both reach their
    threshold (a missing score reaches none), in the order of the input,
    and prints the two confirmations and not the notice. *)
Theorem score_filter_conjunction :
  forall (ext : Externals.t) table z c iz ic w,
    col_index "ZodiacScore" (columns table) = Some iz ->
    col_index "ConfidenceScore" (columns table) = Some ic ->
    ~ (z == 0)%Q -> ~ (c == 0)%Q ->
    Scores.numeric_column iz (rows table) ->
    Scores.numeric_column ic (rows table) ->
    Prepare.df_csifingerid_cosmic_annotations_filtering
      ext table (PyNum z) (PyNum c) (PyBool false) w
    = (fst (print " > Filtered with Confidence Score"
                  (fst (print " > Filtered with ZodiacScore" w))),
       Ok (mkDF (columns table)
                (filter (fun r => Scores.meets z (at_ iz r)
                                  && Scores.meets c (at_ ic r))
                        (rows table)))).
Proof.
  intros ext table z c iz ic w Hz Hc Hz0 Hc0 Hnz Hnc.
  unfold Prepare.df_csifingerid_cosmic_annotations_filtering.
  assert (Ez : py_ne (PyNum z) py_False = true).
  { unfold py_ne, py_eq, py_False, num_of_bool.
    apply negb_true_iff. apply not_true_is_false. intros H.
    apply Qeq_bool_iff in H. contradiction. }
  assert (Ec : py_ne (PyNum c) (PyNum 0) = true).
  { unfold py_ne, py_eq. apply negb_true_iff. apply not_true_is_false.
    intros H. apply Qeq_bool_iff in H. contradiction. }
  assert (Ez' : py_eq (PyNum z) py_False = false).
  { unfold py_ne in Ez. now apply negb_true_iff in Ez. }
  rewrite Ez, Ec, Ez'. cbv iota. cbn [andb].
  set (t1 := select (fun r => Scores.meets z (at_ iz r)) table).
  assert (H1 : bind (Prepare.filter_min_score table "ZodiacScore" (PyNum z))
                    (fun t => bind (print " > Filtered with ZodiacScore")
                                   (fun _ => ret t)) w
               = (fst (print " > Filtered with ZodiacScore" w), Ok t1)).
  { unfold bind at 1.
    rewrite (filter_min_score_numeric table "ZodiacScore" z iz w Hz Hnz).
    reflexivity. }
  assert (Hc1 : col_index "ConfidenceScore" (columns t1) = Some ic) by exact Hc.
  assert (Hn1 : Scores.numeric_column ic (rows t1)).
  { unfold Scores.numeric_column in *. rewrite Forall_forall in *.
    intros r Hr. apply Hnc. unfold t1 in Hr. cbn [select rows] in Hr.
    now apply filter_In in Hr. }
  set (w1 := fst (print " > Filtered with ZodiacScore" w)) in *.
  assert (H2 : bind (Prepare.filter_min_score t1 "ConfidenceScore" (PyNum c))
                    (fun t => bind (print " > Filtered with Confidence Score")
                                   (fun _ => ret t)) w1
               = (fst (print " > Filtered with Confidence Score" w1),
                  Ok (select (fun r => Scores.meets c (at_ ic r)) t1))).
  { unfold bind at 1.
    rewrite (filter_min_score_numeric t1 "ConfidenceScore" c ic w1 Hc1 Hn1).
    reflexivity. }
  rewrite (bind_ok _ _ _ _ _ H1), (bind_ok _ _ _ _ _ H2).
  unfold t1, select. cbn [rows columns bind ret].
  rewrite filter_filter_andb. reflexivity.
Qed.

Lemma score_filter_conjunction_witness :
  snd (Prepare.df_csifingerid_cosmic_annotations_filtering
         Examples.externals Examples.sirius
         (PyNum (7 # 10)) (PyNum (1 # 10)) (PyBool false) Examples.empty_world)
  = Ok Examples.sirius.
Proof.
  rewrite (score_filter_conjunction
             Examples.externals Examples.sirius (7 # 10) (1 # 10)
             2%nat 1%nat Examples.empty_world eq_refl eq_refl).
  - reflexivity.
  - intros H. discriminate H.
  - intros H. discriminate H.
  - repeat constructor.
  - repeat constructor.
Defined.

(** X12: a threshold equal to 0 counts as not given, like the [False]
    sentinel: with both thresholds 0 (and no link pattern) ScoreFilter
    applies no filter, returns the table as given, even when scores are
    missing or negative, and prints the notice that no filter was
    applied. *)
Theorem score_filter_zero_is_no_threshold :
  forall (ext : Externals.t) table z c w,
    (z == 0)%Q -> (c == 0)%Q ->
    Prepare.df_csifingerid_cosmic_annotations_filtering
      ext table (PyNum z) (PyNum c) (PyBool false) w
    = (fst (print " > No filter was applied !" w), Ok table).
Proof.
  intros ext table z c w Hz Hc.
  unfold Prepare.df_csifingerid_cosmic_annotations_filtering.
  assert (Ez : py_eq (PyNum z) py_False = true).
  { unfold py_eq, py_False, num_of_bool. now apply Qeq_bool_iff. }
  assert (Ec : py_eq (PyNum c) (PyNum 0) = true).
  { unfold py_eq. now apply Qeq_bool_iff. }
  assert (Ec' : py_eq (PyNum c) py_False = true).
  { unfold py_eq, py_False, num_of_bool. now apply Qeq_bool_iff. }
  unfold py_ne. rewrite Ez, Ec, Ec'. reflexivity.
Qed.

Lemma score_filter_zero_is_no_threshold_witness :
  snd (Prepare.df_csifingerid_cosmic_annotations_filtering
         Examples.externals Examples.sirius (PyNum 0) (PyNum 0) (PyBool false)
         Examples.empty_world)
  = Ok Examples.sirius.
Proof.
  rewrite (score_filter_zero_is_no_threshold
             Examples.externals Examples.sirius 0 0 Examples.empty_world
             (Qeq_refl 0) (Qeq_refl 0)).
  reflexivity.
Defined.

Lemma bind_raise {A B} (m : M A) (k : A -> M B) (w w' : world) (e : exn) :
  m w = (w', Raise e) -> bind m k w = (w', Raise e).
Proof. intros H. unfold bind. now rewrite H. Qed.

Lemma bind_inv {A B} (m : M A) (k : A -> M B) (w w' : world) (b : B) :
  bind m k w = (w', Ok b) ->
  exists w1 a, m w = (w1, Ok a) /\ k a w1 = (w', Ok b).
Proof.
  unfold bind. destruct (m w) as [ w1 [ a | e ] ]; [ | discriminate ].
  intros H. now exists w1, a.
Qed.

Lemma filter_stage_sub (cond : bool) (f : M DataFrame) (note : string)
      (t : DataFrame) (w w' : world) (out : DataFrame) :
  (forall w0 w0' o,
      f w0 = (w0', Ok o) ->
      columns o = columns t /\ forall r, In r (rows o) -> In r (rows t)) ->
  (if cond then bind f (fun t' => bind (print note) (fun _ => ret t'))
   else ret t) w = (w', Ok out) ->
  columns out = columns t /\ forall r, In r (rows out) -> In r (rows t).
Proof.
  intros Hf. destruct cond.
  - intros H. apply bind_inv in H as (w1 & o & Ho & H).
    rewrite bind_print in H. injection H as _ <-. exact (Hf _ _ _ Ho).
  - intros [= _ <-]. split; [ reflexivity | tauto ].
Qed.

(** X13: ScoreFilter only removes rows: whichever predicates are given,
    when it returns, the table it returns has the columns of the input and
    each of its rows is a row of the input. *)
Theorem score_filter_only_removes_rows :
  forall (ext : Externals.t) table zodiac_score confidence_score links
         w w' out,
    Prepare.df_csifingerid_cosmic_annotations_filtering
      ext table zodiac_score confidence_score links w = (w', Ok out) ->
    columns out = columns table
    /\ forall r, In r (rows out) -> In r (rows table).
Proof.
  intros ext table z c l w w' out H.
  unfold Prepare.df_csifingerid_cosmic_annotations_filtering in H.
  apply bind_inv in H as (w1 & t1 & H1 & H).
  apply bind_inv in H as (w2 & t2 & H2 & H).
  apply bind_inv in H as (w3 & t3 & H3 & H).
  apply bind_inv in H as (w4 & u & _ & H). injection H as _ <-.
  apply filter_stage_sub in H1 as [ Hc1 Hr1 ].
  2: { intros w0 w0' o Ho.
       now apply filter_min_score_sub in Ho as (_ & Hc & Hr). }
  apply filter_stage_sub in H2 as [ Hc2 Hr2 ].
  2: { intros w0 w0' o Ho.
       now apply filter_min_score_sub in Ho as (_ & Hc & Hr). }
  apply filter_stage_sub in H3 as [ Hc3 Hr3 ].
  2: { intros w0 w0' o Ho.
       now apply (filter_links_sub ext) in Ho as (_ & Hc & Hr). }
  split; [ congruence | ].
  intros r Hr. auto.
Qed.

Lemma score_filter_only_removes_rows_witness :
  In [ Str "f1"; Num (8 # 10); Num (9 # 10); Str "paracetamol";
       Str "KEGG:(C06804)"; Str "CC(=O)NC1=CC=C(O)C=C1" ]
     (rows Examples.sirius).
Proof.
  pose (run := Prepare.df_csifingerid_cosmic_annotations_filtering
                 Examples.externals Examples.sirius
                 (PyNum (7 # 10)) (PyNum (5 # 10)) (PyBool false)
                 Examples.empty_world).
  assert (Hrun : run = (fst run,
                        Ok (mkDF (columns Examples.sirius)
                                 (firstn 1 (rows Examples.sirius))))).
  { rewrite (surjective_pairing run) at 1. f_equal. }
  apply (proj2 (score_filter_only_removes_rows
                  Examples.externals Examples.sirius
                  (PyNum (7 # 10)) (PyNum (5 # 10)) (PyBool false)
                  Examples.empty_world (fst run) _ Hrun)).
  cbn. now left.
Defined.

(** X14: how ScoreFilter fails.  A threshold that is given and differs from
    0 makes the call raise [KeyError] when its score column is not in the
    table and [TypeError] when a cell of that column is a string; a link
    pattern that is given makes it raise [KeyError] when there is no links
    column.  In each case nothing has been printed. *)
Theorem score_filter_failures :
  forall (ext : Externals.t) table z confidence_score links w,
    ~ (z == 0)%Q ->
    (col_index "ZodiacScore" (columns table) = None ->
     Prepare.df_csifingerid_cosmic_annotations_filtering
       ext table (PyNum z) confidence_score links w
     = (w, Raise (KeyError "ZodiacScore")))
    /\ (forall i,
           col_index "ZodiacScore" (columns table) = Some i ->
           ~ Scores.numeric_column i (rows table) ->
           Prepare.df_csifingerid_cosmic_annotations_filtering
             ext table (PyNum z) confidence_score links w
           = (w, Raise TypeError))
    /\ (forall pattern,
           col_index "links" (columns table) = None ->
           Prepare.df_csifingerid_cosmic_annotations_filtering
             ext table (PyBool false) (PyBool false) (PyStr pattern) w
           = (w, Raise (KeyError "links"))).
Proof.
  intros ext table z c l w Hz0.
  assert (Ez : py_ne (PyNum z) py_False = true).
  { unfold py_ne, py_eq, py_False, num_of_bool.
    apply negb_true_iff. apply not_true_is_false. intros H.
    apply Qeq_bool_iff in H. contradiction. }
  split; [ | split ].
  - intros Hnone.
    unfold Prepare.df_csifingerid_cosmic_annotations_filtering.
    rewrite Ez. unfold bind at 1. unfold bind at 1.
    unfold Prepare.filter_min_score. rewrite bind_lift.
    unfold getitem. now rewrite Hnone.
  - intros i Hi Hnot.
    unfold Prepare.df_csifingerid_cosmic_annotations_filtering.
    rewrite Ez. unfold bind at 1. unfold bind at 1.
    unfold Prepare.filter_min_score. rewrite bind_lift.
    rewrite (col_index_getitem _ _ _ Hi). cbv iota beta. rewrite bind_lift.
    cbn [Prepare.threshold_of]. cbv iota beta.
    rewrite (all_ok_ge_scalar_string z i _ Hnot). reflexivity.
  - intros pattern Hnone.
    unfold Prepare.df_csifingerid_cosmic_annotations_filtering.
    replace (py_ne (PyBool false) py_False) with false by reflexivity.
    replace (py_ne (PyBool false) (PyNum 0)) with false by reflexivity.
    replace (py_ne (PyStr pattern) py_False) with true by reflexivity.
    cbv iota. rewrite !bind_ret.
    assert (Hl : Prepare.filter_links ext table (PyStr pattern) w
                 = (w, Raise (KeyError "links"))).
    { unfold Prepare.filter_links. rewrite bind_lift.
      unfold getitem. now rewrite Hnone. }
    rewrite (bind_raise _ _ _ _ _ (bind_raise _ _ _ _ _ Hl)). reflexivity.
Qed.

Lemma score_filter_failures_witness :
  Prepare.df_csifingerid_cosmic_annotations_filtering
    Examples.externals Examples.scored (PyNum (7 # 10)) (PyBool false)
    (PyBool false) Examples.empty_world
  = (Examples.empty_world, Raise (KeyError "ZodiacScore")).
Proof.
  refine (proj1 (score_filter_failures
                   Examples.externals Examples.scored (7 # 10) (PyBool false)
                   (PyBool false) Examples.empty_world _) eq_refl).
  intros H. discriminate H.
Defined.

(** ** The curation phase of [main] *)

Lemma same_state_refl w : Frame.same_state w w.
Proof. repeat split. Qed.

Lemma same_state_trans w1 w2 w3 :
  Frame.same_state w1 w2 -> Frame.same_state w2 w3 -> Frame.same_state w1 w3.
Proof.
  unfold Frame.same_state. intros (a & b & c & d & e) (a' & b' & c' & d' & e').
  repeat split; congruence.
Qed.

Lemma only_prints_ret {A} (a : A) : Frame.only_prints (ret a).
Proof. intros w. apply same_state_refl. Qed.

Lemma only_prints_lift {A} (r : result A) : Frame.only_prints (lift r).
Proof. intros w. apply same_state_refl. Qed.

Lemma only_prints_raise {A} (e : exn) : Frame.only_prints (@raise A e).
Proof. intros w. apply same_state_refl. Qed.

Lemma only_prints_print line : Frame.only_prints (print line).
Proof. intros w. repeat split. Qed.

Lemma only_prints_bind {A B} (m : M A) (k : A -> M B) :
  Frame.only_prints m -> (forall a, Frame.only_prints (k a)) ->
  Frame.only_prints (bind m k).
Proof.
  intros Hm Hk w. unfold bind. specialize (Hm w).
  destruct (m w) as [ w' [ a | e ] ]; cbn [fst] in *.
  - exact (same_state_trans _ _ _ Hm (Hk a w')).
  - exact Hm.
Qed.

Lemma only_prints_for_each {A} (f : A -> M unit) (l : list A) :
  (forall a, Frame.only_prints (f a)) -> Frame.only_prints (for_each f l).
Proof.
  intros Hf. induction l as [ | a l IH ]; simpl.
  - apply only_prints_ret.
  - apply only_prints_bind; [ apply Hf | intros _; exact IH ].
Qed.

Lemma only_prints_if {A} (b : bool) (m1 m2 : M A) :
  Frame.only_prints m1 -> Frame.only_prints m2 ->
  Frame.only_prints (if b then m1 else m2).
Proof. now destruct b. Qed.

Ltac only_prints :=
  repeat first
    [ apply only_prints_ret | apply only_prints_lift | apply only_prints_raise
    | apply only_prints_print
    | apply only_prints_for_each; intros
    | apply only_prints_if
    | apply only_prints_bind; [ | intros ] ].

Lemma get_info_only_prints df inchi smiles planar :
  Frame.only_prints (Prepare.get_info_gnps_annotations df inchi smiles planar).
Proof.
  unfold Prepare.get_info_gnps_annotations, Prepare.print_compound_names.
  only_prints.
  - destruct planar; only_prints.
  - destruct (Prepare.strings_of _); only_prints.
Qed.

Lemma apply_filtering_only_prints ext df keep :
  Frame.only_prints (Processing.apply_filtering ext df keep).
Proof.
  unfold Processing.apply_filtering, Processing.lookup.
  only_prints. destruct keep as [ [ | name names ] | ]; only_prints.
Qed.

Lemma score_filter_only_prints ext table z c l :
  Frame.only_prints
    (Prepare.df_csifingerid_cosmic_annotations_filtering ext table z c l).
Proof.
  unfold Prepare.df_csifingerid_cosmic_annotations_filtering,
    Prepare.filter_min_score, Prepare.filter_links.
  only_prints. destruct l; only_prints.
Qed.

(** A computation that only prints, and its outcome. *)
Lemma run_only_prints {A} (m : M A) (w : world) (r : result A) :
  Frame.only_prints m -> snd (m w) = r ->
  exists w', m w = (w', r) /\ Frame.same_state w w'.
Proof.
  intros Hm Hr. exists (fst (m w)). split; [ | apply Hm ].
  rewrite <- Hr. apply surjective_pairing.
Qed.





(** *** The SIRIUS block *)

Lemma col_index_lt c cols i : col_index c cols = Some i -> (i < List.length cols)%nat.
Proof.
  revert i. induction cols as [ | c' cols IH ]; simpl; [ discriminate | ].
  destruct (String.eqb c c').
  - intros i [= <-]. lia.
  - destruct (col_index c cols) as [ j | ]; [ | discriminate ].
    intros i [= <-]. specialize (IH j eq_refl). lia.
Qed.

Lemma col_index_inj a b cols i :
  col_index a cols = Some i -> col_index b cols = Some i -> a = b.
Proof.
  revert i. induction cols as [ | c cols IH ]; simpl; [ discriminate | ].
  destruct (String.eqb_spec a c) as [ -> | Ha ], (String.eqb_spec b c) as [ -> | Hb ].
  - reflexivity.
  - intros i [= <-].
    destruct (col_index b cols); discriminate.
  - intros i Hi [= <-].
    destruct (col_index a cols); discriminate.
  - destruct (col_index a cols) as [ j | ]; [ | discriminate ].
    destruct (col_index b cols) as [ k | ]; [ | discriminate ].
    intros i [= <-] [= Hk]. apply (IH j); [ reflexivity | now rewrite Hk ].
Qed.

Lemma at_replace_nan_other n j value r :
  j <> n -> at_ j (Main.replace_nan_at n value r) = at_ j r.
Proof.
  unfold at_. revert j r. induction n as [ | n IH ]; intros j [ | c r ] Hj;
    simpl; try reflexivity.
  - destruct j; [ congruence | reflexivity ].
  - destruct j; [ reflexivity | ]. apply IH. congruence.
Qed.

Lemma min_score_stage_run table column q note i w :
  col_index column (columns table) = Some i ->
  Scores.numeric_column i (rows table) ->
  bind (Prepare.filter_min_score table column (PyNum q))
       (fun t => bind (print note) (fun _ => ret t)) w
  = (fst (print note w), Ok (select (fun r => Scores.meets q (at_ i r)) table)).
Proof.
  intros Hi Hnum. unfold bind at 1.
  rewrite (filter_min_score_numeric table column q i w Hi Hnum). reflexivity.
Qed.

Lemma score_filter_scores_run (ext : Externals.t) table z c iz ic w :
  col_index "ZodiacScore" (columns table) = Some iz ->
  col_index "ConfidenceScore" (columns table) = Some ic ->
  ~ (z == 0)%Q -> ~ (c == 0)%Q ->
  Scores.numeric_column iz (rows table) ->
  Scores.numeric_column ic (rows table) ->
  exists w',
    Prepare.df_csifingerid_cosmic_annotations_filtering
      ext table (PyNum z) (PyNum c) (PyBool false) w
    = (w', Ok (select (fun r => Scores.meets z (at_ iz r)
                                && Scores.meets c (at_ ic r)) table))
    /\ Frame.same_state w w'.
Proof.
  intros Hz Hc Hz0 Hc0 Hnz Hnc.
  set (out := select (fun r => Scores.meets z (at_ iz r)
                               && Scores.meets c (at_ ic r)) table).
  apply run_only_prints; [ apply score_filter_only_prints | ].
  unfold Prepare.df_csifingerid_cosmic_annotations_filtering.
  assert (Ez : py_ne (PyNum z) py_False = true).
  { unfold py_ne, py_eq, py_False, num_of_bool.
    apply negb_true_iff. apply not_true_is_false. intros H.
    apply Qeq_bool_iff in H. contradiction. }
  assert (Ec : py_ne (PyNum c) (PyNum 0) = true).
  { unfold py_ne, py_eq. apply negb_true_iff. apply not_true_is_false.
    intros H. apply Qeq_bool_iff in H. contradiction. }
  assert (Ez' : py_eq (PyNum z) py_False = false).
  { unfold py_ne in Ez. now apply negb_true_iff in Ez. }
  rewrite Ez, Ec, Ez'. cbv iota. cbn [andb].
  set (t1 := select (fun r => Scores.meets z (at_ iz r)) table).
  pose proof (min_score_stage_run table "ZodiacScore" z
                " > Filtered with ZodiacScore" iz w Hz Hnz) as H1.
  fold t1 in H1.
  assert (Hn1 : Scores.numeric_column ic (rows t1)).
  { unfold Scores.numeric_column in *. rewrite Forall_forall in *.
    intros r Hr. apply Hnc. unfold t1 in Hr. cbn [select rows] in Hr.
    now apply filter_In in Hr. }
  pose proof (min_score_stage_run t1 "ConfidenceScore" c
                " > Filtered with Confidence Score" ic
                (fst (print " > Filtered with ZodiacScore" w)) Hc Hn1) as H2.
  rewrite (bind_ok _ _ _ _ _ H1), (bind_ok _ _ _ _ _ H2).
  unfold out, t1, select. cbn [rows columns bind ret snd].
  rewrite filter_filter_andb. reflexivity.
Qed.

Lemma score_filter_links_run (ext : Externals.t) table pattern il w :
  col_index "links" (columns table) = Some il ->
  exists w',
    Prepare.df_csifingerid_cosmic_annotations_filtering
      ext table (PyBool false) (PyBool false) (PyStr pattern) w
    = (w', Ok (select (fun r => str_contains_re (Externals.re_search ext)
                                                pattern (at_ il r)) table))
    /\ Frame.same_state w w'.
Proof.
  intros Hl. apply run_only_prints; [ apply score_filter_only_prints | ].
  unfold Prepare.df_csifingerid_cosmic_annotations_filtering.
  replace (py_ne (PyBool false) py_False) with false by reflexivity.
  replace (py_ne (PyBool false) (PyNum 0)) with false by reflexivity.
  replace (py_ne (PyStr pattern) py_False) with true by reflexivity.
  cbv iota. rewrite !bind_ret.
  unfold Prepare.filter_links, bind, lift, ret.
  rewrite (col_index_getitem _ _ _ Hl). reflexivity.
Qed.

Lemma load_csifingerid_run lib path content df0 n w :
  files w path = Some content ->
  Main.read_csv_usecols lib content
    [ "id"; "ConfidenceScore"; "ZodiacScore"; "name"; "links"; "smiles" ]
  = Ok df0 ->
  col_index "name" (columns df0) = Some n ->
  Main.load_csifingerid_cosmic_annotations lib path w
  = (w, Ok (mkDF (columns df0)
                 (map (Main.replace_nan_at n (Str "no_name")) (rows df0)))).
Proof.
  intros Hf Hr Hn.
  unfold Main.load_csifingerid_cosmic_annotations, bind, lift, ret, read_file.
  rewrite Hf, Hr, (col_index_getitem _ _ _ Hn). reflexivity.
Qed.

Lemma bind_set_prepare_attributes {B} names smiles (k : unit -> M B) w :
  bind (set_prepare_attributes names smiles) k w
  = k tt (fst (set_prepare_attributes names smiles w)).
Proof. reflexivity. Qed.

(** X16: the SIRIUS block keeps a compound when it passes the score
    thresholds or the link filter.  With no job, a compound-identification
    file that is read, thresholds that differ from 0 on numeric score
    columns, a pattern of plain words, a links column that holds at least
    one string (so that pandas gives it its [.str] accessor), a string as
    structure in every row, no user list and no debug mode, the curation
    phase returns; the structures it leaves in the accumulator are exactly
    the structures without the null marker of the rows that reach both
    score thresholds or whose links match the pattern; a row that satisfies
    both conditions, though concatenated twice, gives one entry: no
    structure comes twice, and names and structures have the same
    length. *)
Theorem main_sirius_either_filter :
  forall (ext : Externals.t) (lib : Main.Library) (args : Main.Args)
         w path content df0 n i iz ic il,
    Main.lower (Main.job_id args) = "false" ->
    Main.sirius_input_file args = Some path ->
    path <> "" ->
    files w path = Some content ->
    Main.read_csv_usecols lib content
      [ "id"; "ConfidenceScore"; "ZodiacScore"; "name"; "links"; "smiles" ]
    = Ok df0 ->
    col_index "name" (columns df0) = Some n ->
    col_index "smiles" (columns df0) = Some i ->
    col_index "ZodiacScore" (columns df0) = Some iz ->
    col_index "ConfidenceScore" (columns df0) = Some ic ->
    col_index "links" (columns df0) = Some il ->
    ~ (Main.zodiac_score args == 0)%Q ->
    ~ (Main.confidence_score args == 0)%Q ->
    Scores.numeric_column iz (rows df0) ->
    Scores.numeric_column ic (rows df0) ->
    plain_pattern (Main.db_links args) = true ->
    Exists (fun r => is_str (at_ il r) = true) (rows df0) ->
    Forall (fun r => is_str (at_ i r) = true) (rows df0) ->
    Main.truthy (Main.extra_compounds_table_file args) = false ->
    Main.debug args = false ->
    let final := fst (Main.main_curation ext lib args w) in
    snd (Main.main_curation ext lib args w) = Ok tt
    /\ NoDup (list_smiles final)
    /\ List.length (list_compound_name final) = List.length (list_smiles final)
    /\ forall x,
         In x (list_smiles final) <->
         exists r s,
           In r (rows df0)
           /\ at_ i r = Str s /\ x = Str s /\ contains "nan" s = false
           /\ (Scores.meets (Main.zodiac_score args) (at_ iz r)
               && Scores.meets (Main.confidence_score args) (at_ ic r)
               || str_contains_re (Externals.re_search ext)
                                  (Main.db_links args) (at_ il r)) = true.
Proof.
  intros ext lib args w path content df0 n i iz ic il
         Hjob Hfile Hpath Hcontent Hread Hn Hi Hiz Hic Hil Hz0 Hc0 Hnz Hnc
         _ _ _ Hextra Hdebug.
  set (f := Main.replace_nan_at n (Str "no_name")).
  set (df1 := mkDF (columns df0) (map f (rows df0))).
  set (pS := fun r : row =>
               Scores.meets (Main.zodiac_score args) (at_ iz r)
               && Scores.meets (Main.confidence_score args) (at_ ic r)).
  set (pL := fun r : row =>
               str_contains_re (Externals.re_search ext) (Main.db_links args)
                               (at_ il r)).
  set (sel := Selection.selected_rows
                (columns df0) i true
                (filter pS (rows df1) ++ filter pL (rows df1))).
  (* the columns the filters read are not the name column *)
  assert (Hin : i <> n).
  { intros ->. pose proof (col_index_inj _ _ _ _ Hi Hn) as H. discriminate H. }
  assert (Hizn : iz <> n).
  { intros ->. pose proof (col_index_inj _ _ _ _ Hiz Hn) as H. discriminate H. }
  assert (Hicn : ic <> n).
  { intros ->. pose proof (col_index_inj _ _ _ _ Hic Hn) as H. discriminate H. }
  assert (Hiln : il <> n).
  { intros ->. pose proof (col_index_inj _ _ _ _ Hil Hn) as H. discriminate H. }
  assert (HpS : forall r, pS (f r) = pS r).
  { intros r. unfold pS, f. now rewrite !at_replace_nan_other. }
  assert (HpL : forall r, pL (f r) = pL r).
  { intros r. unfold pL, f. now rewrite !at_replace_nan_other. }
  (* the SIRIUS block *)
  assert (Hsirius : forall w0,
             files w0 path = Some content ->
             exists w',
               Main.sirius ext lib args w0 = (w', Ok tt)
               /\ list_smiles w' = map (at_ i) sel
               /\ list_compound_name w' = map (at_ n) sel).
  { intros w0 Hf0. unfold Main.sirius. rewrite Hfile. cbn [Main.truthy Main.path_of].
    apply String.eqb_neq in Hpath. rewrite Hpath. cbn [negb].
    unfold bind at 1, Main.path_exists. rewrite Hf0. cbn [negb].
    rewrite bind_print.
    set (w1 := fst (print "Loading SIRIUS input data..." w0)).
    assert (Hf1 : files w1 path = Some content) by exact Hf0.
    rewrite (bind_ok _ _ _ _ _
               (load_csifingerid_run lib path content df0 n w1 Hf1 Hread Hn)).
    fold f. fold df1.
    assert (Hnz1 : Scores.numeric_column iz (rows df1)).
    { unfold Scores.numeric_column, df1. cbn [rows].
      apply Forall_map. eapply Forall_impl; [ | exact Hnz ].
      intros r Hr. unfold f. now rewrite at_replace_nan_other. }
    assert (Hnc1 : Scores.numeric_column ic (rows df1)).
    { unfold Scores.numeric_column, df1. cbn [rows].
      apply Forall_map. eapply Forall_impl; [ | exact Hnc ].
      intros r Hr. unfold f. now rewrite at_replace_nan_other. }
    destruct (score_filter_scores_run
                ext df1 (Main.zodiac_score args) (Main.confidence_score args)
                iz ic w1 Hiz Hic Hz0 Hc0 Hnz1 Hnc1)
      as (w2 & Hrun2 & _).
    rewrite (bind_ok _ _ _ _ _ Hrun2).
    destruct (score_filter_links_run ext df1 (Main.db_links args) il w2 Hil)
      as (w3 & Hrun3 & _).
    rewrite (bind_ok _ _ _ _ _ Hrun3). cbv zeta.
    fold pS. fold pL.
    set (both := concat (select pS df1) (select pL df1)).
    assert (Hcols : columns both = columns df0) by reflexivity.
    assert (Hi' : col_index "smiles" (columns both) = Some i)
      by now rewrite Hcols.
    assert (Hn' : col_index "name" (columns both) = Some n)
      by now rewrite Hcols.
    pose proof (prepare_runs both "name" "smiles" None true true "smiles" i n
                             w3 eq_refl Hi' Hn') as Hprep.
    cbv zeta in Hprep.
    rewrite (bind_ok _ _ _ _ _ Hprep).
    eexists. split; [ reflexivity | ].
    split; reflexivity. }
  (* the whole phase *)
  assert (Hmain : exists wf,
             Main.main_curation ext lib args w = (wf, Ok tt)
             /\ list_smiles wf = map (at_ i) sel
             /\ list_compound_name wf = map (at_ n) sel).
  { unfold Main.main_curation.
    rewrite bind_set_prepare_attributes, bind_print.
    set (w1 := fst (print "###MOLECULAR NETWORKING " _)).
    assert (Hmn : Main.molecular_networking ext lib args w1
                  = (fst (print "Skipping GNPS download and processing as job_id is set to 'False'." w1), Ok tt)).
    { unfold Main.molecular_networking. rewrite Hjob. reflexivity. }
    rewrite (bind_ok _ _ _ _ _ Hmn), bind_print.
    set (w2 := fst (print "###SIRIUS (OPTIONAL)" _)).
    destruct (Hsirius w2 Hcontent) as (w3 & Hrun3 & Hs3 & Hn3).
    rewrite (bind_ok _ _ _ _ _ Hrun3), bind_print.
    unfold Main.user_compound_list, Main.debug_truncation.
    rewrite Hextra, Hdebug, bind_print.
    eexists. split; [ reflexivity | ]. split; assumption. }
  destruct Hmain as (wf & Hrun & Hsm & Hnm).
  cbv zeta. rewrite Hrun. cbn [fst snd]. rewrite Hsm, Hnm.
  split; [ reflexivity | ]. split; [ | split ].
  - apply distinct_keys_NoDup. apply drop_duplicates_from_distinct.
  - now rewrite !length_map.
  - intros x. split.
    + intros Hx. apply in_map_iff in Hx as (r' & <- & Hr').
      apply selected_rows_In in Hr' as [ Hin' Hnan ].
      destruct (eq_False_contains _ _ Hnan) as (s & Hs & Hcont).
      assert (Hr1 : In r' (rows df1) /\ (pS r' || pL r') = true).
      { apply in_app_or in Hin' as [ H | H ]; apply filter_In in H as [ H1 H2 ];
          (split; [ exact H1 | ]); rewrite H2; [ reflexivity | apply orb_true_r ]. }
      destruct Hr1 as [ Hr1 Hp ]. unfold df1 in Hr1. cbn [rows] in Hr1.
      apply in_map_iff in Hr1 as (r & <- & Hr).
      exists r, s. split; [ exact Hr | ].
      unfold f in Hs. rewrite at_replace_nan_other in Hs by exact Hin.
      split; [ exact Hs | ].
      split; [ unfold f; now rewrite at_replace_nan_other | ].
      split; [ exact Hcont | ].
      rewrite HpS, HpL in Hp. exact Hp.
    + intros (r & s & Hr & Hs & -> & Hcont & Hp).
      assert (Hfr : In (f r) (rows df1)).
      { unfold df1. cbn [rows]. now apply in_map. }
      assert (Hkept : In (f r) (Selection.without_nan
                                  i (filter pS (rows df1)
                                     ++ filter pL (rows df1)))).
      { unfold Selection.without_nan. apply filter_In. split.
        - apply in_or_app. fold (pS r) in Hp. fold (pL r) in Hp.
          apply orb_true_iff in Hp as [ Hp | Hp ]; [ left | right ];
            apply filter_In; (split; [ exact Hfr | ]).
          + now rewrite HpS.
          + now rewrite HpL.
        - unfold f. rewrite at_replace_nan_other by exact Hin.
          rewrite Hs. simpl. now rewrite Hcont. }
      destruct (selected_rows_covers (columns df0) i true _ _ Hkept)
        as (r'' & Hr'' & Hsame).
      unfold Selection.same_structure in Hsame.
      unfold f in Hsame. rewrite at_replace_nan_other in Hsame by exact Hin.
      rewrite Hs in Hsame. apply cell_eqb_Str_eq in Hsame.
      rewrite <- Hsame. now apply in_map.
Qed.

Lemma main_sirius_either_filter_witness :
  list_smiles (fst (Main.main_curation
                      Examples.externals_chem Examples.library_links
                      Examples.args_sirius
                      Examples.world_with_identifications))
  = [ Str "CC(=O)NC1=CC=C(O)C=C1"; Str "CCC"; Str "CCO" ]
  /\ snd (Main.main_curation
            Examples.externals_chem Examples.library_links
            Examples.args_sirius
            Examples.world_with_identifications) = Ok tt.
Proof.
  split; [ vm_compute; reflexivity | ].
  assert (Hpath : "compound_identifications.tsv"%string <> ""%string)
    by (intros H; discriminate H).
  assert (Hz : ~ (Main.zodiac_score Examples.args_sirius == 0)%Q)
    by (intros H; discriminate H).
  assert (Hc : ~ (Main.confidence_score Examples.args_sirius == 0)%Q)
    by (intros H; discriminate H).
  assert (Hnz : Scores.numeric_column 2 (rows Examples.sirius_links))
    by (repeat constructor).
  assert (Hnc : Scores.numeric_column 1 (rows Examples.sirius_links))
    by (repeat constructor).
  assert (Hlinks : Exists (fun r => is_str (at_ 4 r) = true)
                          (rows Examples.sirius_links))
    by (apply Exists_cons_hd; reflexivity).
  assert (Hsmiles : Forall (fun r => is_str (at_ 5 r) = true)
                           (rows Examples.sirius_links))
    by (repeat constructor).
  pose proof (main_sirius_either_filter
                Examples.externals_chem Examples.library_links
                Examples.args_sirius Examples.world_with_identifications
                "compound_identifications.tsv" "read by the library"
                Examples.sirius_links 3%nat 5%nat 2%nat 1%nat 4%nat
                eq_refl eq_refl Hpath eq_refl eq_refl) as T.
  specialize (T eq_refl). specialize (T eq_refl). specialize (T eq_refl).
  specialize (T eq_refl). specialize (T eq_refl).
  specialize (T Hz Hc Hnz Hnc eq_refl Hlinks Hsmiles eq_refl eq_refl).
  exact (proj1 T).
Defined.

(** *** The lists handed to the predictions *)

Lemma curated_same_lists w w' :
  list_compound_name w' = list_compound_name w ->
  list_smiles w' = list_smiles w ->
  Frame.curated w -> Frame.curated w'.
Proof. unfold Frame.curated. intros -> ->. trivial. Qed.

Lemma print_inv line w w' u :
  print line w = (w', Ok u) ->
  list_compound_name w' = list_compound_name w
  /\ list_smiles w' = list_smiles w.
Proof. unfold print. intros [= <- _]. split; reflexivity. Qed.

Lemma curated_print line w w' u :
  print line w = (w', Ok u) -> Frame.curated w -> Frame.curated w'.
Proof.
  intros H. apply print_inv in H as [ Hn Hs ]. now apply curated_same_lists.
Qed.

Lemma prepare_curated df cn pc sc up w w' out :
  Prepare.prepare_for_virtual_metabolization df cn pc sc true up w
  = (w', Ok out) ->
  Frame.curated w'.
Proof.
  intros H.
  apply prepare_returns in H as (c & i & n & _ & _ & _ & Hout & Hw).
  subst w' out. unfold set_prepare_attributes, Frame.curated.
  cbn [fst list_smiles list_compound_name]. unfold series. cbn [rows].
  split.
  - apply distinct_keys_NoDup. apply drop_duplicates_from_distinct.
  - now rewrite !length_map.
Qed.

Lemma molecular_networking_curated ext lib args w w' u :
  Main.molecular_networking ext lib args w = (w', Ok u) ->
  Frame.curated w -> Frame.curated w'.
Proof.
  unfold Main.molecular_networking.
  destruct (negb (String.eqb (Main.lower (Main.job_id args)) "false")).
  - intros H _.
    do 4 (apply bind_inv in H as (? & ? & _ & H)).
    apply bind_inv in H as (w4 & filtered & _ & H).
    apply bind_inv in H as (? & ? & _ & H).
    apply bind_inv in H as (w5 & a5 & Hm & Hp).
    eapply curated_print; [ exact Hp | ].
    destruct filtered as [ df | ].
    + apply bind_inv in Hm as (w6 & out & Hprep & Hret).
      injection Hret as <- _. exact (prepare_curated _ _ _ _ _ _ _ _ Hprep).
    + discriminate Hm.
  - apply curated_print.
Qed.

Lemma sirius_curated ext lib args w w' u :
  Main.sirius ext lib args w = (w', Ok u) ->
  Frame.curated w -> Frame.curated w'.
Proof.
  unfold Main.sirius.
  destruct (Main.truthy (Main.sirius_input_file args)); [ | apply curated_print ].
  intros H Hw.
  apply bind_inv in H as (w1 & found & Hfound & H).
  injection Hfound as <- _.
  destruct (negb found); [ exact (curated_print _ _ _ _ H Hw) | ].
  do 4 (apply bind_inv in H as (? & ? & _ & H)). cbv zeta in H.
  apply bind_inv in H as (w5 & out & Hprep & Hp).
  eapply curated_print; [ exact Hp | ].
  exact (prepare_curated _ _ _ _ _ _ _ _ Hprep).
Qed.

Lemma append_loop_curated ext extras :
  forall names smiles lists,
    Prepare.append_loop ext names smiles extras = (lists, Ok tt) ->
    NoDup smiles ->
    List.length names = List.length smiles ->
    NoDup (snd lists)
    /\ List.length (fst lists) = List.length (snd lists).
Proof.
  induction extras as [ | [ n [ | s | q ] ] rest IH ]; simpl;
    intros names smiles lists H Hnd Hlen; try discriminate H.
  - injection H as <-. simpl. auto.
  - destruct (existsb (cell_eqb (Str (Prepare.clean_smiles ext s))) smiles)
      eqn:E; simpl in H.
    + exact (IH _ _ _ H Hnd Hlen).
    + apply (IH _ _ _ H).
      * apply NoDup_app; [ exact Hnd | repeat constructor; simpl; tauto | ].
        intros a Ha [ <- | [] ].
        apply existsb_cell_eqb_Str in Ha. congruence.
      * rewrite !length_app. simpl. lia.
Qed.

Lemma load_extra_compounds_keeps_lists path w :
  list_compound_name (fst (Prepare.load_extra_compounds path w))
  = list_compound_name w
  /\ list_smiles (fst (Prepare.load_extra_compounds path w)) = list_smiles w.
Proof.
  unfold Prepare.load_extra_compounds, bind, read_file, lift.
  destruct (files w path) as [ content | ]; [ | split; reflexivity ].
  destruct (read_csv_tab content) as [ t | e ]; [ | split; reflexivity ].
  destruct (iloc_column t 0) as [ names | e ]; [ | split; reflexivity ].
  cbn [set_extra_compound_names fst snd].
  destruct (iloc_column t 1) as [ smiles | e ]; [ | split; reflexivity ].
  cbn [set_extra_compound_smiles fst snd].
  destruct (negb (List.length names =? List.length smiles)%nat);
    split; reflexivity.
Qed.

Lemma user_compound_list_curated ext args w w' u :
  Main.user_compound_list ext args w = (w', Ok u) ->
  Frame.curated w -> Frame.curated w'.
Proof.
  unfold Main.user_compound_list.
  destruct (Main.truthy (Main.extra_compounds_table_file args));
    [ | apply curated_print ].
  intros H Hw.
  apply bind_inv in H as (w1 & a1 & H1 & H).
  apply (curated_print _ _ _ _ H1) in Hw. clear H1.
  apply bind_inv in H as (w2 & a2 & H2 & H).
  pose proof (load_extra_compounds_keeps_lists
                (Main.path_of (Main.extra_compounds_table_file args)) w1)
    as [ Hn Hs ].
  rewrite H2 in Hn, Hs. cbn [fst] in Hn, Hs.
  apply (curated_same_lists _ _ Hn Hs) in Hw. clear H2 Hn Hs.
  apply bind_inv in H as (w3 & wv & H3 & H).
  injection H3 as <- <-. cbv zeta in H.
  unfold Prepare.append_to_list_if_not_present in H.
  destruct (Prepare.append_loop
              ext (list_compound_name w2) (list_smiles w2)
              (combine (extra_compound_names w2) (extra_compound_smiles w2)))
    as [ lists outcome ] eqn:E.
  cbn [fst snd] in H.
  apply bind_inv in H as (w4 & a4 & H4 & H).
  injection H4 as <- _.
  apply bind_inv in H as (w5 & a5 & H5 & H).
  injection H5 as <- ->. destruct a5.
  apply bind_inv in H as (w6 & a6 & H6 & H).
  apply print_inv in H6 as [ Hn6 Hs6 ]. apply print_inv in H as [ Hn Hs ].
  destruct Hw as (Hnd & Hlen).
  pose proof (append_loop_curated _ _ _ _ _ E Hnd Hlen) as Hc.
  unfold Frame.curated. rewrite Hn, Hs, Hn6, Hs6. exact Hc.
Qed.

Lemma NoDup_firstn {A} k (l : list A) : NoDup l -> NoDup (firstn k l).
Proof.
  intros H. rewrite <- (firstn_skipn k l) in H.
  exact (NoDup_app_remove_r _ _ H).
Qed.

Lemma debug_truncation_run args w :
  Main.debug args = true ->
  exists out,
    Main.debug_truncation args w
    = (mkWorld
         (Main.slice_to (Main.max_compounds_debug args) (list_compound_name w))
         (Main.slice_to (Main.max_compounds_debug args) (list_smiles w))
         (extra_compound_names w) (extra_compound_smiles w) out (files w),
       Ok tt).
Proof.
  intros Hd. unfold Main.debug_truncation. rewrite Hd.
  eexists. reflexivity.
Qed.

Lemma slice_to_curated n w w' :
  list_compound_name w' = Main.slice_to n (list_compound_name w) ->
  list_smiles w' = Main.slice_to n (list_smiles w) ->
  Frame.curated w -> Frame.curated w'.
Proof.
  intros Hn Hs (Hnd & Hlen). unfold Frame.curated.
  rewrite Hn, Hs. unfold Main.slice_to. rewrite Hlen.
  destruct (0 <=? n)%Z; (split; [ now apply NoDup_firstn | ]);
    rewrite !length_firstn; lia.
Qed.

(** X17: whatever the arguments, the annotations, the files and the
    answers of the external functions, when the curation phase of [main]
    returns, the two lists it hands to the predictions are well formed:
    no structure comes twice, and there are as many names as structures.
    In debug mode with a limit that is not negative, there are at most
    that many compounds.  (Nothing is said of the kind of the entries: a
    row whose structure is missing is dropped by pandas before 3.0 and
    kept, once, by pandas 3.) *)
Theorem main_curation_lists_well_formed :
  forall (ext : Externals.t) (lib : Main.Library) (args : Main.Args) w w',
    Main.main_curation ext lib args w = (w', Ok tt) ->
    Frame.curated w'
    /\ (Main.debug args = true ->
        (0 <= Main.max_compounds_debug args)%Z ->
        (List.length (list_smiles w')
         <= Z.to_nat (Main.max_compounds_debug args))%nat).
Proof.
  intros ext lib args w w' H. unfold Main.main_curation in H.
  apply bind_inv in H as (w1 & a1 & H1 & H).
  assert (Hw : Frame.curated w1).
  { injection H1 as <- _. split; [ constructor | reflexivity ]. }
  clear H1.
  apply bind_inv in H as (w2 & a2 & H2 & H).
  apply (curated_print _ _ _ _ H2) in Hw. clear H2.
  apply bind_inv in H as (w3 & a3 & H3 & H).
  apply (molecular_networking_curated _ _ _ _ _ _ H3) in Hw. clear H3.
  apply bind_inv in H as (w4 & a4 & H4 & H).
  apply (curated_print _ _ _ _ H4) in Hw. clear H4.
  apply bind_inv in H as (w5 & a5 & H5 & H).
  apply (sirius_curated _ _ _ _ _ _ H5) in Hw. clear H5.
  apply bind_inv in H as (w6 & a6 & H6 & H).
  apply (curated_print _ _ _ _ H6) in Hw. clear H6.
  apply bind_inv in H as (w7 & a7 & H7 & H).
  apply (user_compound_list_curated _ _ _ _ _ H7) in Hw. clear H7.
  destruct (Main.debug args) eqn:Hd.
  - destruct (debug_truncation_run args w7 Hd) as (out & Hrun).
    rewrite Hrun in H. injection H as <-. split.
    + eapply slice_to_curated; [ reflexivity | reflexivity | exact Hw ].
    + intros _ Hpos. cbn [list_smiles]. unfold Main.slice_to.
      apply Z.leb_le in Hpos. rewrite Hpos, length_firstn. lia.
  - unfold Main.debug_truncation in H. rewrite Hd in H.
    injection H as <-. split; [ exact Hw | discriminate ].
Qed.

Lemma main_curation_lists_well_formed_witness :
  Frame.curated
    (fst (Main.main_curation
            Examples.externals Examples.library Examples.args_sirius
            Examples.world_with_identifications)).
Proof.
  pose (run := Main.main_curation
                 Examples.externals Examples.library Examples.args_sirius
                 Examples.world_with_identifications).
  assert (Hrun : run = (fst run, Ok tt)).
  { rewrite (surjective_pairing run) at 1. f_equal. }
  exact (proj1 (main_curation_lists_well_formed
                  Examples.externals Examples.library Examples.args_sirius
                  Examples.world_with_identifications (fst run) Hrun)).
Defined.

(** *** A SIRIUS input replaces the GNPS annotations *)

Lemma run_files {A} (m : M A) w w' (r : result A) :
  Frame.only_prints m -> m w = (w', r) -> files w' = files w.
Proof.
  intros Hm H. specialize (Hm w). rewrite H in Hm. apply Hm.
Qed.

Lemma prepare_files df cn pc sc dd up w w' out :
  Prepare.prepare_for_virtual_metabolization df cn pc sc dd up w
  = (w', Ok out) ->
  files w' = files w.
Proof.
  intros H. apply prepare_returns in H as (c & i & n & _ & _ & _ & _ & ->).
  reflexivity.
Qed.

Lemma molecular_networking_files ext lib args w w' u :
  Main.molecular_networking ext lib args w = (w', Ok u) ->
  files w' = files w.
Proof.
  unfold Main.molecular_networking.
  destruct (negb (String.eqb (Main.lower (Main.job_id args)) "false")).
  - intros H.
    apply bind_inv in H as (w1 & a1 & H1 & H).
    apply run_files in H1; [ | only_prints ].
    apply bind_inv in H as (w2 & a2 & H2 & H).
    apply run_files in H2; [ | only_prints ].
    apply bind_inv in H as (w3 & a3 & H3 & H).
    apply run_files in H3; [ | only_prints ].
    apply bind_inv in H as (w4 & a4 & H4 & H).
    apply run_files in H4; [ | apply get_info_only_prints ].
    apply bind_inv in H as (w5 & filtered & H5 & H).
    apply run_files in H5; [ | apply apply_filtering_only_prints ].
    apply bind_inv in H as (w6 & a6 & H6 & H).
    apply run_files in H6; [ | only_prints ].
    apply bind_inv in H as (w7 & a7 & Hm & Hp).
    apply run_files in Hp; [ | only_prints ].
    destruct filtered as [ df | ]; [ | discriminate Hm ].
    apply bind_inv in Hm as (w8 & out & Hprep & Hret).
    injection Hret as <- _. apply prepare_files in Hprep. congruence.
  - intros H. apply run_files in H; [ exact H | only_prints ].
Qed.

Lemma score_filter_rows_sub (ext : Externals.t) table z c l w w' out :
  Prepare.df_csifingerid_cosmic_annotations_filtering ext table z c l w
  = (w', Ok out) ->
  columns out = columns table
  /\ forall r, In r (rows out) -> In r (rows table).
Proof.
  intros H.
  unfold Prepare.df_csifingerid_cosmic_annotations_filtering in H.
  apply bind_inv in H as (w1 & t1 & H1 & H).
  apply bind_inv in H as (w2 & t2 & H2 & H).
  apply bind_inv in H as (w3 & t3 & H3 & H).
  apply bind_inv in H as (w4 & u & _ & H). injection H as _ <-.
  apply filter_stage_sub in H1 as [ Hc1 Hr1 ].
  2: { intros w0 w0' o Ho.
       now apply filter_min_score_sub in Ho as (_ & Hc & Hr). }
  apply filter_stage_sub in H2 as [ Hc2 Hr2 ].
  2: { intros w0 w0' o Ho.
       now apply filter_min_score_sub in Ho as (_ & Hc & Hr). }
  apply filter_stage_sub in H3 as [ Hc3 Hr3 ].
  2: { intros w0 w0' o Ho.
       now apply (filter_links_sub ext) in Ho as (_ & Hc & Hr). }
  split; [ congruence | ].
  intros r Hr. auto.
Qed.

Lemma In_firstn {A} k (l : list A) x : In x (firstn k l) -> In x l.
Proof.
  intros H. rewrite <- (firstn_skipn k l). apply in_or_app. now left.
Qed.

Lemma In_slice_to {A} n (l : list A) x : In x (Main.slice_to n l) -> In x l.
Proof. unfold Main.slice_to. destruct (0 <=? n)%Z; apply In_firstn. Qed.

Lemma sirius_block_from_table ext lib args path content df0 n i w w' u :
  Main.sirius ext lib args w = (w', Ok u) ->
  Main.sirius_input_file args = Some path ->
  path <> "" ->
  files w path = Some content ->
  Main.read_csv_usecols lib content
    [ "id"; "ConfidenceScore"; "ZodiacScore"; "name"; "links"; "smiles" ]
  = Ok df0 ->
  col_index "name" (columns df0) = Some n ->
  col_index "smiles" (columns df0) = Some i ->
  forall x, In x (list_smiles w') ->
            exists r, In r (rows df0) /\ at_ i r = x.
Proof.
  intros H Hfile Hpath Hcontent Hread Hn Hi.
  assert (Hin : i <> n).
  { intros ->. pose proof (col_index_inj _ _ _ _ Hi Hn) as E. discriminate E. }
  unfold Main.sirius in H. rewrite Hfile in H.
  cbn [Main.truthy Main.path_of] in H.
  apply String.eqb_neq in Hpath. rewrite Hpath in H. cbn [negb] in H.
  apply bind_inv in H as (w0 & found & Hfound & H).
  unfold Main.path_exists in Hfound. rewrite Hcontent in Hfound.
  injection Hfound as <- <-. cbn [negb] in H.
  rewrite bind_print in H.
  assert (Hf1 : files (fst (print "Loading SIRIUS input data..." w)) path
                = Some content) by exact Hcontent.
  rewrite (bind_ok _ _ _ _ _
             (load_csifingerid_run lib path content df0 n _ Hf1 Hread Hn))
    in H.
  set (df1 := mkDF (columns df0)
                   (map (Main.replace_nan_at n (Str "no_name")) (rows df0)))
    in H.
  apply bind_inv in H as (w2 & o1 & H1 & H).
  apply score_filter_rows_sub in H1 as [ Hc1 Hr1 ].
  apply bind_inv in H as (w3 & o2 & H2 & H).
  apply score_filter_rows_sub in H2 as [ Hc2 Hr2 ].
  cbv zeta in H.
  apply bind_inv in H as (w4 & out & Hprep & Hp).
  apply print_inv in Hp as [ _ Hs ].
  apply prepare_returns in Hprep as (c & i' & n' & Hsc & Hc & _ & Hout & Hw).
  injection Hsc as <-.
  assert (Hcols : columns (concat o1 o2) = columns df0).
  { unfold concat. cbn [columns]. rewrite Hc1. reflexivity. }
  rewrite Hcols, Hi in Hc. injection Hc as <-.
  intros x Hx. rewrite Hs, Hw in Hx. subst out.
  unfold set_prepare_attributes in Hx. cbn [fst list_smiles] in Hx.
  unfold series in Hx. cbn [rows] in Hx.
  apply in_map_iff in Hx as (r & <- & Hr).
  apply selected_rows_In in Hr as [ Hr _ ].
  assert (Hr1' : In r (rows df1)).
  { unfold concat in Hr. cbn [rows] in Hr.
    apply in_app_or in Hr as [ Hr | Hr ]; auto. }
  unfold df1 in Hr1'. cbn [rows] in Hr1'.
  apply in_map_iff in Hr1' as (r0 & <- & Hr0).
  exists r0. split; [ exact Hr0 | ].
  symmetry. now apply at_replace_nan_other.
Qed.

(** X18: a SIRIUS input replaces the GNPS annotations.  Whatever the job
    and its annotations, when a compound-identification file is given and
    read, and no user list is given, every structure the curation phase
    hands to the predictions is the structure of a row of that file: the
    structures selected from the job's annotations are not kept. *)
Theorem main_sirius_replaces_gnps :
  forall (ext : Externals.t) (lib : Main.Library) (args : Main.Args)
         w w' path content df0 n i,
    Main.main_curation ext lib args w = (w', Ok tt) ->
    Main.sirius_input_file args = Some path ->
    path <> "" ->
    files w path = Some content ->
    Main.read_csv_usecols lib content
      [ "id"; "ConfidenceScore"; "ZodiacScore"; "name"; "links"; "smiles" ]
    = Ok df0 ->
    col_index "name" (columns df0) = Some n ->
    col_index "smiles" (columns df0) = Some i ->
    Main.truthy (Main.extra_compounds_table_file args) = false ->
    forall x, In x (list_smiles w') ->
              exists r, In r (rows df0) /\ at_ i r = x.
Proof.
  intros ext lib args w w' path content df0 n i
         H Hfile Hpath Hcontent Hread Hn Hi Hextra.
  unfold Main.main_curation in H.
  apply bind_inv in H as (w1 & a1 & H1 & H).
  assert (Hf1 : files w1 = files w) by (injection H1 as <- _; reflexivity).
  clear H1.
  apply bind_inv in H as (w2 & a2 & H2 & H).
  apply run_files in H2; [ | only_prints ].
  apply bind_inv in H as (w3 & a3 & H3 & H).
  apply molecular_networking_files in H3.
  apply bind_inv in H as (w4 & a4 & H4 & H).
  apply run_files in H4; [ | only_prints ].
  assert (Hc4 : files w4 path = Some content) by congruence.
  apply bind_inv in H as (w5 & a5 & H5 & H).
  pose proof (sirius_block_from_table
                ext lib args path content df0 n i w4 w5 a5
                H5 Hfile Hpath Hc4 Hread Hn Hi) as Hfrom.
  apply bind_inv in H as (w6 & a6 & H6 & H).
  apply print_inv in H6 as [ _ Hs6 ].
  apply bind_inv in H as (w7 & a7 & H7 & H).
  unfold Main.user_compound_list in H7. rewrite Hextra in H7.
  apply print_inv in H7 as [ _ Hs7 ].
  intros x Hx. apply Hfrom. rewrite <- Hs6, <- Hs7.
  destruct (Main.debug args) eqn:Hd.
  - destruct (debug_truncation_run args w7 Hd) as (out & Hrun).
    rewrite Hrun in H. injection H as <-. cbn [list_smiles] in Hx.
    exact (In_slice_to _ _ _ Hx).
  - unfold Main.debug_truncation in H. rewrite Hd in H.
    injection H as <-. exact Hx.
Qed.

Lemma main_sirius_replaces_gnps_witness :
  exists r,
    In r (rows Examples.sirius)
    /\ at_ 5 r = Str "CC(=O)NC1=CC=C(O)C=C1".
Proof.
  pose (run := Main.main_curation
                 Examples.externals Examples.library Examples.args_job_sirius
                 Examples.world_with_identifications).
  assert (Hsnd : snd run = Ok tt) by (vm_compute; reflexivity).
  assert (Hrun : run = (fst run, Ok tt)).
  { rewrite <- Hsnd. apply surjective_pairing. }
  assert (Hin : In (Str "CC(=O)NC1=CC=C(O)C=C1") (list_smiles (fst run))).
  { vm_compute. left. reflexivity. }
  assert (Hpath : "compound_identifications.tsv"%string <> ""%string)
    by (intros H; discriminate H).
  pose proof (main_sirius_replaces_gnps
                Examples.externals Examples.library Examples.args_job_sirius
                Examples.world_with_identifications (fst run)
                "compound_identifications.tsv" "read by the library"
                Examples.sirius 3%nat 5%nat Hrun eq_refl Hpath) as T.
  specialize (T eq_refl). specialize (T eq_refl). specialize (T eq_refl).
  specialize (T eq_refl). specialize (T eq_refl).
  exact (T _ Hin).
Defined.
